(** * The event-log job pipeline and its license quota checks

    A shallow embedding of the job API ([create_job], [job_status]), the job
    runner ([process_job] and its stage functions) and the quota attributes
    of [User], taken from [discovery/views.py], [discovery/models.py] and
    [accounts/models.py]; further of the project API ([get_project_api]),
    the CSV import ([create_csv_import_session], [process_csv_import]),
    the license methods ([activate_premium_license], [use_code]) and the
    activation form of [accounts/forms.py].

    Conventions of the embedding:
    - Python [int] is [Z]; [str] is [string] (a byte string: the case and
      whitespace operations below act on ASCII, bytes above 127 are kept as
      they are); a [dict] with insertion order is an association list; a
      database table with a primary key is a [gmap] from the key to the row.
    - [try]/[except] and mutation are a state-and-exception monad [M].
    - pandas, pm4py, the cleaning and mining packages and the files they
      leave outside the media storage are not part of the repository: they
      are the fields of [Collaborators]. *)

From Stdlib Require Import ZArith List Ascii String Sorted.
From stdpp Require Import gmap strings list fin_maps pretty.
Import ListNotations.

Local Open Scope string_scope.
Local Open Scope Z_scope.

(** ** Python string operations *)

Module Py.

Definition is_upper (c : ascii) : bool :=
  let n := nat_of_ascii c in ((65 <=? n) && (n <=? 90))%nat.

Definition is_lower (c : ascii) : bool :=
  let n := nat_of_ascii c in ((97 <=? n) && (n <=? 122))%nat.

Definition to_lower (c : ascii) : ascii :=
  if is_upper c then ascii_of_nat (nat_of_ascii c + 32) else c.

Definition to_upper (c : ascii) : ascii :=
  if is_lower c then ascii_of_nat (nat_of_ascii c - 32) else c.

(** [str.isspace] on one ASCII character: tab, line feed, vertical tab,
    form feed, carriage return, the four separators 28..31 and space. *)
Definition is_space (c : ascii) : bool :=
  let n := nat_of_ascii c in
  (((9 <=? n) && (n <=? 13)) || ((28 <=? n) && (n <=? 32)))%nat.

(** [s.lower()] *)
Fixpoint lower (s : string) : string :=
  match s with
  | EmptyString => EmptyString
  | String c r => String (to_lower c) (lower r)
  end.

(** [s.title()]: the first cased character of every run of letters is
    upper-cased and the others are lower-cased. *)
Fixpoint title_from (prev_cased : bool) (s : string) : string :=
  match s with
  | EmptyString => EmptyString
  | String c r =>
      if is_upper c || is_lower c
      then String (if prev_cased then to_lower c else to_upper c) (title_from true r)
      else String c (title_from false r)
  end.

Definition title (s : string) : string := title_from false s.

Fixpoint lstrip (s : string) : string :=
  match s with
  | String c r => if is_space c then lstrip r else s
  | EmptyString => EmptyString
  end.

Definition rev (s : string) : string :=
  string_of_list_ascii (List.rev (list_ascii_of_string s)).

(** [s.strip()] *)
Definition strip (s : string) : string := rev (lstrip (rev (lstrip s))).

(** [s.startswith(p)] *)
Fixpoint startswith (s p : string) : bool :=
  match p, s with
  | EmptyString, _ => true
  | String a p', String b s' => Ascii.eqb a b && startswith s' p'
  | String _ _, EmptyString => false
  end.

(** [s.endswith(suffix)] *)
Definition endswith (s suffix : string) : bool := startswith (rev s) (rev suffix).

(** [sep.join(parts)] *)
Fixpoint join (sep : string) (parts : list string) : string :=
  match parts with
  | [] => ""
  | [x] => x
  | x :: rest => x +:+ sep +:+ join sep rest
  end.

(** [x in xs] for a list of strings *)
Definition contains (x : string) (xs : list string) : bool :=
  existsb (String.eqb x) xs.

(** [str(n)] for an integer *)
Definition str (n : Z) : string := pretty n.

(** Digits of a non-negative number, least significant first, with a
    comma after every third one that is followed by another. *)
Fixpoint group3 (k : nat) (ds : list ascii) : list ascii :=
  match ds with
  | [] => []
  | d :: r =>
      match k, r with
      | 2%nat, _ :: _ => d :: ","%char :: group3 0 r
      | _, _ => d :: group3 (S k) r
      end
  end.

(** [f'{n:,}']: decimal with a comma as thousands separator. *)
Definition format_thousands (n : Z) : string :=
  let digits := list_ascii_of_string (pretty (Z.abs n)) in
  let grouped := string_of_list_ascii (List.rev (group3 0 (List.rev digits))) in
  if n <? 0 then "-" +:+ grouped else grouped.

(** [repr] of a list of strings free of quotes and escapes. *)
Definition repr_list (xs : list string) : string :=
  "[" +:+ join ", " (map (fun x => "'" +:+ x +:+ "'") xs) +:+ "]".

(** [s] occurs in [t] *)
Definition occurs_in (s t : string) : Prop :=
  exists pre post : string, t = pre +:+ s +:+ post.

End Py.


(** ** Exceptions and the state-and-exception monad *)

Definition nl : string := String (ascii_of_nat 10) EmptyString.

(** A raised Python exception: its class name, [str(e)], and the stack
    frames that [traceback] prints for it. *)
Record Exc := mkExc { exc_type : string; exc_msg : string; exc_frames : string }.

(** [isinstance(e, cls)] on class names; the only subclass relation the
    modelled code depends on is [ModuleNotFoundError <: ImportError], and
    every modelled exception derives from [Exception]. *)
Definition isinstance (e : Exc) (cls : string) : bool :=
  String.eqb (exc_type e) cls
  || String.eqb cls "Exception"
  || (String.eqb cls "ImportError" && String.eqb (exc_type e) "ModuleNotFoundError").

(** [traceback.format_exc()] while [e] is being handled. *)
Definition format_exc (e : Exc) : string :=
  "Traceback (most recent call last):" +:+ nl +:+ exc_frames e +:+
  exc_type e +:+ (if String.eqb (exc_msg e) "" then "" else ": " +:+ exc_msg e) +:+ nl.

Inductive Result (A : Type) : Type :=
| Ok (a : A)
| Raise (e : Exc).
Arguments Ok {A} a.
Arguments Raise {A} e.

(** A computation over a state [S] that returns a value or raises; the
    state reached when an exception is raised is kept, as in Python. *)
Definition M (S A : Type) : Type := S -> Result A * S.

Definition ret {S A : Type} (a : A) : M S A := fun s => (Ok a, s).

Definition bind {S A B : Type} (m : M S A) (k : A -> M S B) : M S B :=
  fun s => match m s with
           | (Ok a, s') => k a s'
           | (Raise e, s') => (Raise e, s')
           end.

Definition raise {S A : Type} (e : Exc) : M S A := fun s => (Raise e, s).

Definition of_result {S A : Type} (r : Result A) : M S A := fun s => (r, s).

Definition gets {S A : Type} (f : S -> A) : M S A := fun s => (Ok (f s), s).

Definition modify {S : Type} (f : S -> S) : M S unit := fun s => (Ok tt, f s).

(** [try: body  except Exception as e: handler e] *)
Definition try_except {S A : Type} (body : M S A) (handler : Exc -> M S A) : M S A :=
  fun s => match body s with
           | (Ok a, s') => (Ok a, s')
           | (Raise e, s') => handler e s'
           end.

Notation "'let*' x ':=' m 'in' k" := (bind m (fun x => k))
  (at level 10, x name, m at level 100, k at level 200).

(** ** Data model *)

(** [User] of [accounts/models.py], restricted to the license fields. *)
Module User.

Record t := mk {
  id : Z;
  license_type : string;
  license_expires_at : option Z;
  max_log_rows : Z;
  allowed_algorithms : list string;
  max_projects : Z
}.

Definition LICENSE_FREE : string := "free".
Definition LICENSE_PREMIUM : string := "premium".

Definition ALGORITHM_CHOICES : list (string * string) :=
  [("alpha", "Alpha Miner"); ("heuristics", "Heuristics Miner"); ("inductive", "Inductive Miner")].

(** The property [is_premium]; [now] is [timezone.now()]. *)
Definition is_premium (now : Z) (self : t) : bool :=
  if negb (String.eqb (license_type self) LICENSE_PREMIUM) then false
  else match license_expires_at self with
       | Some expires => if expires <? now then false else true
       | None => true
       end.

Definition get_allowed_algorithms (now : Z) (self : t) : list string :=
  if is_premium now self || match allowed_algorithms self with [] => true | _ => false end
  then map fst ALGORITHM_CHOICES
  else allowed_algorithms self.

Definition can_use_algorithm (now : Z) (self : t) (algorithm : string) : bool :=
  Py.contains algorithm (get_allowed_algorithms now self).

End User.

Inductive Status : Type := Pending | Running | Done | Error.

Definition status_str (s : Status) : string :=
  match s with
  | Pending => "pending"
  | Running => "running"
  | Done => "done"
  | Error => "error"
  end.

(** [EventLogJob] of [discovery/models.py]. A file field holds the name of
    the stored file, or nothing. *)
Module EventLogJob.

Record t := mk {
  id : Z;
  user : Z;
  original_file : string;
  original_filename : string;
  project_name : string;
  cleaning_enabled : bool;
  mining_method : string;
  status : Status;
  progress : Z;
  message : string;
  error_message : string;
  output_map_image : option string;
  output_map_svg : option string;
  created_at : Z;
  updated_at : Z
}.

Definition MINING_METHOD_CHOICES : list (string * string) :=
  [("alpha", "Alpha Miner"); ("heuristics", "Heuristics Miner")].

Definition set_status (v : Status) (j : t) : t :=
  mk (id j) (user j) (original_file j) (original_filename j) (project_name j)
     (cleaning_enabled j) (mining_method j) v (progress j) (message j)
     (error_message j) (output_map_image j) (output_map_svg j) (created_at j) (updated_at j).

Definition set_progress (v : Z) (j : t) : t :=
  mk (id j) (user j) (original_file j) (original_filename j) (project_name j)
     (cleaning_enabled j) (mining_method j) (status j) v (message j)
     (error_message j) (output_map_image j) (output_map_svg j) (created_at j) (updated_at j).

Definition set_message (v : string) (j : t) : t :=
  mk (id j) (user j) (original_file j) (original_filename j) (project_name j)
     (cleaning_enabled j) (mining_method j) (status j) (progress j) v
     (error_message j) (output_map_image j) (output_map_svg j) (created_at j) (updated_at j).

Definition set_error_message (v : string) (j : t) : t :=
  mk (id j) (user j) (original_file j) (original_filename j) (project_name j)
     (cleaning_enabled j) (mining_method j) (status j) (progress j) (message j)
     v (output_map_image j) (output_map_svg j) (created_at j) (updated_at j).

Definition set_output_map_svg (v : option string) (j : t) : t :=
  mk (id j) (user j) (original_file j) (original_filename j) (project_name j)
     (cleaning_enabled j) (mining_method j) (status j) (progress j) (message j)
     (error_message j) (output_map_image j) v (created_at j) (updated_at j).

Definition set_updated_at (v : Z) (j : t) : t :=
  mk (id j) (user j) (original_file j) (original_filename j) (project_name j)
     (cleaning_enabled j) (mining_method j) (status j) (progress j) (message j)
     (error_message j) (output_map_image j) (output_map_svg j) (created_at j) v.

(** [get_mining_method_display()]: the label of the choice, or the raw
    value when it is not one of the choices. *)
Definition get_mining_method_display (self : t) : string :=
  match find (fun c => String.eqb (fst c) (mining_method self)) MINING_METHOD_CHOICES with
  | Some c => snd c
  | None => mining_method self
  end.

Definition MEDIA_URL : string := "/media/".

(** Truth value of a file field: it names a file. *)
Definition has_file (f : option string) : bool :=
  match f with
  | Some name => negb (String.eqb name "")
  | None => false
  end.

Definition url (f : option string) : string := MEDIA_URL +:+ default "" f.

Definition get_output_url (self : t) : option string :=
  if has_file (output_map_svg self) then Some (url (output_map_svg self))
  else if has_file (output_map_image self) then Some (url (output_map_image self))
  else None.

End EventLogJob.

(** ** Requests, responses and the persistent state *)

Definition Blob : Type := string.
Definition Row : Type := list string.
Definition DataFrame : Type := list Row.

(** [len(df)] *)
Definition len (df : DataFrame) : Z := Z.of_nat (length df).

Module UploadedFile.
Record t := mk { name : string; content : Blob }.
End UploadedFile.

Module HttpRequest.
Record t := mk {
  method : string;
  path : string;
  user : option User.t;
  POST : gmap string string;
  FILES : gmap string UploadedFile.t
}.

Definition with_POST (v : gmap string string) (r : t) : t :=
  mk (method r) (path r) (user r) v (FILES r).
Definition with_FILES (v : gmap string UploadedFile.t) (r : t) : t :=
  mk (method r) (path r) (user r) (POST r) v.
End HttpRequest.

Inductive Json : Type :=
| JStr (s : string)
| JInt (n : Z).

Inductive HttpResponse : Type :=
| JsonResponse (data : list (string * Json)) (status : Z)
| HttpResponseNotAllowed (permitted_methods : list string)
| HttpResponseRedirect (redirect_to : string).

Definition status_code (r : HttpResponse) : Z :=
  match r with
  | JsonResponse _ status => status
  | HttpResponseNotAllowed _ => 405
  | HttpResponseRedirect _ => 302
  end.

(** [key in data] for the body of a JSON response. *)
Definition has_key (key : string) (r : HttpResponse) : bool :=
  match r with
  | JsonResponse data _ => existsb (fun kv => String.eqb (fst kv) key) data
  | _ => false
  end.

(** The state outside a single call: the job table, the media storage
    (stored name to content), what was printed, the background threads
    started (by job id) and the clock. [journal] is bookkeeping of the
    embedding: every version of a job row written so far, oldest first,
    which is what a poller may observe. *)
Module World.
Record t := mk {
  jobs : gmap Z EventLogJob.t;
  files : gmap string Blob;
  console : list string;
  threads : list Z;
  journal : list EventLogJob.t;
  now : Z
}.

Definition set_jobs (v : gmap Z EventLogJob.t) (w : t) : t :=
  mk v (files w) (console w) (threads w) (journal w) (now w).
Definition set_files (v : gmap string Blob) (w : t) : t :=
  mk (jobs w) v (console w) (threads w) (journal w) (now w).
Definition set_console (v : list string) (w : t) : t :=
  mk (jobs w) (files w) v (threads w) (journal w) (now w).
Definition set_threads (v : list Z) (w : t) : t :=
  mk (jobs w) (files w) (console w) v (journal w) (now w).
Definition set_journal (v : list EventLogJob.t) (w : t) : t :=
  mk (jobs w) (files w) (console w) (threads w) v (now w).
End World.

(** The libraries the views call and the files those libraries leave
    outside the media storage (PNML output directory, temporary SVG). *)
Record Collaborators := {
  (** pandas: the data rows of a CSV content, or the parser's exception *)
  pd_parse_csv : Blob -> Result DataFrame;
  (** [from pm4py... import ...] in [load_event_log] *)
  pm4py_import : Result unit;
  (** [xes_importer.apply] followed by [log_converter.apply] on the stored
      file, if there is one *)
  xes_import : option Blob -> Result DataFrame;
  (** the storage's name for a new file: storage content, date, upload
      directory and requested name *)
  storage_name : gmap string Blob -> Z -> string -> string -> string;
  (** [LogPreprocessor(df=df).smart_clean(...)], import included *)
  smart_clean : DataFrame -> Result DataFrame;
  (** [ProcessDiscovery(df=df).alpha_miner_service(output_dir=...)] *)
  alpha_miner_service : DataFrame -> string -> Result unit;
  (** [ProcessDiscovery(df=df).heuristic_miner_service(output_dir=...)] *)
  heuristic_miner_service : DataFrame -> string -> Result unit;
  (** [os.path.exists] on a path outside the media storage, once the
      library that writes there has run *)
  os_path_exists : string -> bool;
  (** [pm4py.read_pnml], [pn_visualizer.apply] and [pn_visualizer.save] *)
  pn_visualize : string -> string -> Result unit;
  (** [open(path, 'rb')] on a path outside the media storage, and what
      [read()] returns *)
  open_rb : string -> Result Blob;
  (** in [convert_pnml_to_image]: the first Graphviz directory that exists
      and is missing from [PATH], if there is one *)
  graphviz_path_to_add : option string
}.

(** [pd.read_csv(content, nrows=n)]: at most the first [n] data rows. *)
Definition pd_read_csv (C : Collaborators) (content : Blob) (nrows : option Z) : Result DataFrame :=
  match pd_parse_csv C content with
  | Ok df => Ok (match nrows with
                 | Some n => firstn (Z.to_nat n) df
                 | None => df
                 end)
  | Raise e => Raise e
  end.

(** *** The job table *)

Definition DoesNotExist : Exc :=
  mkExc "DoesNotExist" "EventLogJob matching query does not exist." "".

(** The primary key of the next row. *)
Definition next_id (jobs : gmap Z EventLogJob.t) : Z :=
  map_fold (fun k _ acc => Z.max k acc) 0 jobs + 1.

(** [EventLogJob.objects.filter(user=u).exclude(project_name__isnull=True)
     .exclude(project_name__exact='').values('project_name').distinct().count()];
    the column is not nullable. *)
Definition distinct_project_names (uid : Z) (jobs : gmap Z EventLogJob.t) : gset string :=
  list_to_set
    (filter (fun p => p <> "")
       (EventLogJob.project_name <$>
          filter (fun j => EventLogJob.user j = uid) (snd <$> map_to_list jobs))).

Definition count_distinct_projects (uid : Z) : M World.t Z :=
  gets (fun w => Z.of_nat (size (distinct_project_names uid (World.jobs w)))).

(** [EventLogJob.objects.get(id=job_id)] *)
Definition objects_get (job_id : Z) : M World.t EventLogJob.t :=
  fun w => match World.jobs w !! job_id with
           | Some j => (Ok j, w)
           | None => (Raise DoesNotExist, w)
           end.

(** [EventLogJob.objects.get(id=job_id, user=u)] *)
Definition objects_get_owned (job_id uid : Z) : M World.t EventLogJob.t :=
  fun w => match World.jobs w !! job_id with
           | Some j => if EventLogJob.user j =? uid then (Ok j, w) else (Raise DoesNotExist, w)
           | None => (Raise DoesNotExist, w)
           end.

(** [job.save()]: every field of the row with the job's key is written,
    [updated_at] is refreshed ([auto_now]); no other row is touched. *)
Definition write_row (row : EventLogJob.t) (w : World.t) : World.t :=
  World.set_journal (World.journal w ++ [row])%list
    (World.set_jobs (<[EventLogJob.id row := row]> (World.jobs w)) w).

Definition save (j : EventLogJob.t) : M World.t EventLogJob.t :=
  fun w =>
    let j' := EventLogJob.set_updated_at (World.now w) j in
    (Ok j', write_row j' w).

(** Saving an uploaded file through a file field: the content is written
    to the media storage under the name the storage picks. *)
Definition storage_save (C : Collaborators) (upload_to name : string) (content : Blob)
  : M World.t string :=
  fun w =>
    let stored := storage_name C (World.files w) (World.now w) upload_to name in
    (Ok stored, World.set_files (<[stored := content]> (World.files w)) w).

(** [EventLogJob.objects.create(...)] as [create_job] calls it. *)
Definition objects_create (C : Collaborators) (uid : Z) (uploaded_file : UploadedFile.t)
    (filename project_name : string) (cleaning_enabled : bool) (mining_method : string)
    (status : Status) (progress : Z) (message : string) : M World.t EventLogJob.t :=
  let* stored := storage_save C "uploads/event_logs/%Y/%m/%d/" (UploadedFile.name uploaded_file)
                   (UploadedFile.content uploaded_file) in
  let* key := gets (fun w => next_id (World.jobs w)) in
  let* now := gets World.now in
  save (EventLogJob.mk key uid stored filename project_name cleaning_enabled mining_method
          status progress message "" None None now now).

(** [print(line)] seen from the console alone, and from the whole state. *)
Definition echo (line : string) : M (list string) unit :=
  modify (fun out => (out ++ [line])%list).

Definition on_console {A : Type} (m : M (list string) A) : M World.t A :=
  fun w => match m (World.console w) with
           | (r, out) => (r, World.set_console out w)
           end.

Definition print (line : string) : M World.t unit := on_console (echo line).

(** [threading.Thread(target=process_job, args=(job_id,)).start()]: the
    runner is started and not waited for. *)
Definition thread_start (job_id : Z) : M World.t unit :=
  modify (fun w => World.set_threads (World.threads w ++ [job_id])%list w).

(** ** The job API ([discovery/views.py]) *)

Definition valid_methods : list string := map fst EventLogJob.MINING_METHOD_CHOICES.

Definition upgrade_url : string * Json := ("upgrade_url", JStr "/accounts/activate-license/").

(** The responses of [create_job], one per [return]. *)
Definition no_file_response : HttpResponse :=
  JsonResponse [("error", JStr "No file uploaded")] 400.

Definition bad_extension_response : HttpResponse :=
  JsonResponse [("error", JStr "Only .xes and .csv files are supported")] 400.

Definition no_project_name_response : HttpResponse :=
  JsonResponse [("error", JStr "Project name is required")] 400.

Definition invalid_method_response : HttpResponse :=
  JsonResponse
    [("error", JStr ("Invalid mining method. Choose from: " +:+ Py.repr_list valid_methods))] 400.

Definition algorithm_denied_response (now : Z) (u : User.t) (mining_method : string) : HttpResponse :=
  let allowed := Py.join ", " (map Py.title (User.get_allowed_algorithms now u)) in
  JsonResponse
    [("error", JStr ("⚠️ You do not have access to the " +:+ Py.title mining_method +:+ " algorithm."));
     ("message", JStr ("Your plan allows: " +:+ allowed +:+
                       ". Please upgrade to Premium for access to all algorithms."));
     upgrade_url] 403.

Definition project_limit_response (max_projects : Z) : HttpResponse :=
  JsonResponse
    [("error", JStr ("⚠️ Project limit reached (" +:+ Py.str max_projects +:+ " projects)."));
     ("message", JStr "Please upgrade to Premium for unlimited projects or delete an existing project.");
     upgrade_url] 403.

Definition row_limit_response (row_count max_rows : Z) : HttpResponse :=
  JsonResponse
    [("error", JStr ("⚠️ Log size limit exceeded (" +:+ Py.format_thousands row_count +:+ " rows)."));
     ("message", JStr ("Your plan allows up to " +:+ Py.format_thousands max_rows +:+
                       " rows. Please upgrade to Premium for unlimited log size."));
     upgrade_url] 403.

Definition job_created_response (job_id : Z) : HttpResponse :=
  JsonResponse
    [("job_id", JInt job_id);
     ("progress_url", JStr ("/jobs/progress/" +:+ Py.str job_id +:+ "/"))] 200.

Definition server_error_response (e : Exc) : HttpResponse :=
  JsonResponse [("error", JStr (exc_msg e)); ("type", JStr (exc_type e))] 500.

(** The project-limit block of [create_job]: the response it returns, if
    it returns. *)
Definition check_project_limit (now : Z) (u : User.t) : M World.t (option HttpResponse) :=
  if negb (User.is_premium now u) then
    let max_projects := User.max_projects u in
    if max_projects >? 0 then
      let* current_count := count_distinct_projects (User.id u) in
      if current_count >=? max_projects
      then ret (Some (project_limit_response max_projects))
      else ret None
    else ret None
  else ret None.

(** The log-size block of [create_job]: the pre-scan reads the upload with
    [nrows = max_rows + 1]; an exception of the pre-scan is swallowed. *)
Definition check_row_limit (C : Collaborators) (now : Z) (u : User.t)
    (filename : string) (uploaded_file : UploadedFile.t) : M World.t (option HttpResponse) :=
  if Py.endswith filename ".csv" && negb (User.is_premium now u) then
    let max_rows := User.max_log_rows u in
    if max_rows >? 0 then
      try_except
        (let* df_temp := of_result (pd_read_csv C (UploadedFile.content uploaded_file)
                                      (Some (max_rows + 1))) in
         let row_count := len df_temp in
         if row_count >? max_rows
         then ret (Some (row_limit_response row_count max_rows))
         else ret None)
        (fun _ => ret None)
    else ret None
  else ret None.

(** The body of [create_job] for the logged-in user [u]. *)
Definition create_job (C : Collaborators) (request : HttpRequest.t) (u : User.t)
  : M World.t HttpResponse :=
  try_except
    (match HttpRequest.FILES request !! "file" with
     | None => ret no_file_response
     | Some uploaded_file =>
         let filename := UploadedFile.name uploaded_file in
         if negb (Py.endswith filename ".xes" || Py.endswith filename ".csv")
         then ret bad_extension_response
         else
           let cleaning_enabled :=
             String.eqb (Py.lower (default "false" (HttpRequest.POST request !! "cleaning_enabled")))
                        "true" in
           let mining_method := default "alpha" (HttpRequest.POST request !! "mining_method") in
           let project_name := Py.strip (default "" (HttpRequest.POST request !! "project_name")) in
           if String.eqb project_name "" then ret no_project_name_response
           else if negb (Py.contains mining_method valid_methods) then ret invalid_method_response
           else
             let* now := gets World.now in
             if negb (User.can_use_algorithm now u mining_method)
             then ret (algorithm_denied_response now u mining_method)
             else
               let* project_denied := check_project_limit now u in
               match project_denied with
               | Some response => ret response
               | None =>
                   let* rows_denied := check_row_limit C now u filename uploaded_file in
                   match rows_denied with
                   | Some response => ret response
                   | None =>
                       let* job := objects_create C (User.id u) uploaded_file filename project_name
                                     cleaning_enabled mining_method Pending 0
                                     "Job created, waiting to start..." in
                       let* _ := thread_start (EventLogJob.id job) in
                       ret (job_created_response (EventLogJob.id job))
                   end
               end
     end)
    (fun e =>
       let* _ := print "============================================================" in
       let* _ := print "❌ ERROR in create_job:" in
       let* _ := print ("   Exception type: " +:+ exc_type e) in
       let* _ := print ("   Exception message: " +:+ exc_msg e) in
       let* _ := print (nl +:+ "📋 Full traceback:") in
       let* _ := print (format_exc e) in
       let* _ := print "============================================================" in
       ret (server_error_response e)).

Definition not_found_response : HttpResponse :=
  JsonResponse [("error", JStr "Job not found")] 404.

(** The body of [job_status] for the logged-in user [u]. *)
Definition job_status (request : HttpRequest.t) (u : User.t) (job_id : Z)
  : M World.t HttpResponse :=
  try_except
    (let* job := objects_get_owned job_id (User.id u) in
     let response_data :=
       [("status", JStr (status_str (EventLogJob.status job)));
        ("progress", JInt (EventLogJob.progress job));
        ("message", JStr (EventLogJob.message job))] in
     let response_data :=
       match EventLogJob.status job with
       | Done =>
           (response_data ++ [("redirect_url", JStr "/dashboard/")] ++
            match EventLogJob.get_output_url job with
            | Some output_url =>
                if String.eqb output_url "" then [] else [("output_url", JStr output_url)]
            | None => []
            end)%list
       | _ => response_data
       end in
     let response_data :=
       match EventLogJob.status job with
       | Error => (response_data ++ [("error_message", JStr (EventLogJob.error_message job))])%list
       | _ => response_data
       end in
     ret (JsonResponse response_data 200))
    (fun e =>
       if isinstance e "DoesNotExist" then ret not_found_response
       else ret (JsonResponse [("error", JStr (exc_msg e))] 500)).

(** [@require_http_methods(methods)] *)
Definition require_http_methods {A : Type} (methods : list string)
    (view : HttpRequest.t -> A -> M World.t HttpResponse)
  : HttpRequest.t -> A -> M World.t HttpResponse :=
  fun request a =>
    if Py.contains (HttpRequest.method request) methods then view request a
    else ret (HttpResponseNotAllowed methods).

(** [@login_required]; [LOGIN_URL] resolves to [/login/]. *)
Definition login_required {A : Type}
    (view : HttpRequest.t -> User.t -> A -> M World.t HttpResponse)
  : HttpRequest.t -> A -> M World.t HttpResponse :=
  fun request a =>
    match HttpRequest.user request with
    | Some u => view request u a
    | None => ret (HttpResponseRedirect ("/login/?next=" +:+ HttpRequest.path request))
    end.

(** The views as routed: [POST /jobs/create/] and
    [GET /jobs/status/<int:job_id>/]. *)
Definition create_job_view (C : Collaborators) : HttpRequest.t -> unit -> M World.t HttpResponse :=
  require_http_methods ["POST"] (login_required (fun request u _ => create_job C request u)).

Definition job_status_view : HttpRequest.t -> Z -> M World.t HttpResponse :=
  require_http_methods ["GET"] (login_required job_status).

(** ** The job runner ([discovery/views.py]) *)

Definition MEDIA_ROOT : string := "media".

(** Exceptions raised by the views themselves carry no frames. *)
Definition ValueError (msg : string) : Exc := mkExc "ValueError" msg "".
Definition FileNotFoundError (msg : string) : Exc := mkExc "FileNotFoundError" msg "".
Definition ImportError (msg : string) : Exc := mkExc "ImportError" msg "".
Definition AttributeError (msg : string) : Exc := mkExc "AttributeError" msg "".

(** [load_event_log(file_path)], reading from the media storage [files]. *)
Definition load_event_log (C : Collaborators) (files : gmap string Blob) (file_path : string)
  : M (list string) DataFrame :=
  try_except
    (if Py.endswith file_path ".csv" then
       match files !! file_path with
       | Some content => of_result (pd_read_csv C content None)
       | None => raise (FileNotFoundError
                          ("[Errno 2] No such file or directory: '" +:+ file_path +:+ "'"))
       end
     else if Py.endswith file_path ".xes" then
       let* _ := try_except (of_result (pm4py_import C))
                   (fun e =>
                      if isinstance e "ImportError"
                      then raise (ImportError
                                    ("pm4py is required to load XES files but is not installed. " +:+
                                     "Install it with: pip install pm4py" +:+ nl +:+
                                     "Original error: " +:+ exc_msg e))
                      else raise e) in
       of_result (xes_import C (files !! file_path))
     else raise (ValueError ("Unsupported file format: " +:+ file_path)))
    (fun e =>
       let* _ := echo ("❌ Error loading event log from " +:+ file_path) in
       let* _ := echo ("   Error type: " +:+ exc_type e) in
       let* _ := echo ("   Error message: " +:+ exc_msg e) in
       let* _ := echo (format_exc e) in
       raise e).

(** [run_smart_clean(df)] *)
Definition run_smart_clean (C : Collaborators) (df : DataFrame) : Result DataFrame :=
  smart_clean C df.

(** [run_process_mining(df, method, job_id)] *)
Definition run_process_mining (C : Collaborators) (df : DataFrame) (method : string) (job_id : Z)
  : Result string :=
  let output_dir := MEDIA_ROOT +:+ "/process_maps/" +:+ Py.str job_id in
  let mined :=
    if String.eqb method "alpha" then
      match alpha_miner_service C df output_dir with
      | Ok _ => Ok (output_dir +:+ "/alpha_job_" +:+ Py.str job_id +:+ ".pnml")
      | Raise e => Raise e
      end
    else if String.eqb method "heuristics" then
      match heuristic_miner_service C df output_dir with
      | Ok _ => Ok (output_dir +:+ "/heuristic_job_" +:+ Py.str job_id +:+ ".pnml")
      | Raise e => Raise e
      end
    else Raise (ValueError ("Unknown mining method: " +:+ method)) in
  match mined with
  | Ok pnml_file =>
      if negb (os_path_exists C pnml_file)
      then Raise (FileNotFoundError
                    ("Process mining failed to create output file: " +:+ pnml_file))
      else Ok pnml_file
  | Raise e => Raise e
  end.

(** [convert_pnml_to_image(pnml_path, output_image_path)]; the change of
    [os.environ] is not modelled, the line it prints is. *)
Definition convert_pnml_to_image (C : Collaborators) (pnml_path output_image_path : string)
  : M (list string) string :=
  try_except
    (let* _ := match graphviz_path_to_add C with
               | Some gv_path => echo ("✅ Added Graphviz path to environment: " +:+ gv_path)
               | None => ret tt
               end in
     let* _ := of_result (pn_visualize C pnml_path output_image_path) in
     ret output_image_path)
    (fun e => raise (mkExc "Exception" ("Failed to convert PNML to SVG: " +:+ exc_msg e) "")).

(** The state of a run of [process_job]: its local variable [job] and the
    state outside. *)
Definition Frame : Type := option EventLogJob.t * World.t.

Definition in_world {A : Type} (m : M World.t A) : M Frame A :=
  fun fr => match m (snd fr) with
            | (r, w) => (r, (fst fr, w))
            end.

(** [job = j] *)
Definition assign_job (j : EventLogJob.t) : M Frame unit :=
  modify (fun fr => (Some j, snd fr)).

(** Reading [job]; an attribute of [None] raises. *)
Definition the_job : M Frame EventLogJob.t :=
  fun fr => match fst fr with
            | Some j => (Ok j, fr)
            | None => (Raise (AttributeError "'NoneType' object has no attribute"), fr)
            end.

(** [job.field = v] *)
Definition update_job (f : EventLogJob.t -> EventLogJob.t) : M Frame unit :=
  let* j := the_job in assign_job (f j).

(** [job.save()] *)
Definition job_save : M Frame unit :=
  let* j := the_job in
  let* saved := in_world (save j) in
  assign_job saved.

Definition tempdir : string := "/tmp".

(** The [try] block inside step 4 of [process_job], with its handler. *)
Definition render_output (C : Collaborators) (job_id : Z) (output_pnml_path : string)
  : M Frame unit :=
  try_except
    (let output_image_path := tempdir +:+ "/job_" +:+ Py.str job_id +:+ ".svg" in
     let* _ := in_world (on_console (convert_pnml_to_image C output_pnml_path output_image_path)) in
     if os_path_exists C output_image_path then
       let* content := of_result (open_rb C output_image_path) in
       let* job := the_job in
       let image_filename :=
         EventLogJob.mining_method job +:+ "_job_" +:+ Py.str job_id +:+ ".svg" in
       let* stored := in_world (storage_save C "outputs/process_maps/%Y/%m/%d/"
                                  image_filename content) in
       let* _ := update_job (EventLogJob.set_output_map_svg (Some stored)) in
       (* os.remove(output_image_path) inside try/except: pass *)
       ret tt
     else ret tt)
    (fun graphviz_error =>
       let* _ := in_world (print "⚠️  Warning: Could not generate SVG image (Graphviz not available)") in
       let* _ := in_world (print ("   Error: " +:+ exc_msg graphviz_error)) in
       in_world (print "   The process map PNML file is still available")).

(** The [try] block of [process_job]. *)
Definition process_job_try (C : Collaborators) (job_id : Z) : M Frame unit :=
  let* loaded := in_world (objects_get job_id) in
  let* _ := assign_job loaded in
  let* _ := update_job (EventLogJob.set_status Running) in
  let* _ := update_job (EventLogJob.set_progress 10) in
  let* _ := update_job (EventLogJob.set_message "Loading event log file...") in
  let* _ := job_save in
  let* job := the_job in
  let file_path := EventLogJob.original_file job in
  (* Step 1: load the file *)
  let* files := in_world (gets World.files) in
  let* df := in_world (on_console (load_event_log C files file_path)) in
  let* _ := update_job (EventLogJob.set_progress 30) in
  let* _ := update_job (EventLogJob.set_message
                          ("Loaded " +:+ Py.str (len df) +:+ " events from " +:+
                           EventLogJob.original_filename job)) in
  let* _ := job_save in
  (* Step 2: optional cleaning *)
  let* df :=
    if EventLogJob.cleaning_enabled job then
      let* _ := update_job (EventLogJob.set_progress 40) in
      let* _ := update_job (EventLogJob.set_message "Running data cleaning...") in
      let* _ := job_save in
      let* df := of_result (run_smart_clean C df) in
      let* _ := update_job (EventLogJob.set_progress 60) in
      let* _ := update_job (EventLogJob.set_message
                              ("Cleaning complete. " +:+ Py.str (len df) +:+
                               " events after cleaning.")) in
      let* _ := job_save in
      ret df
    else ret df in
  (* Step 3: process mining *)
  let* _ := update_job (EventLogJob.set_progress 70) in
  let* _ := update_job (EventLogJob.set_message
                          ("Running " +:+ EventLogJob.get_mining_method_display job +:+ "...")) in
  let* _ := job_save in
  let* output_pnml_path :=
    of_result (run_process_mining C df (EventLogJob.mining_method job) job_id) in
  (* Step 4: visualization *)
  let* _ :=
    if negb (String.eqb output_pnml_path "") && os_path_exists C output_pnml_path then
      let* _ := of_result (open_rb C output_pnml_path) in
      let* _ := update_job (EventLogJob.set_progress 90) in
      let* _ := update_job (EventLogJob.set_message "Generating visualization...") in
      let* _ := job_save in
      render_output C job_id output_pnml_path
    else ret tt in
  (* Step 5: done *)
  let* _ := update_job (EventLogJob.set_status Done) in
  let* _ := update_job (EventLogJob.set_progress 100) in
  let* _ := update_job (EventLogJob.set_message "Processing complete!") in
  job_save.

(** The [except Exception as e] block of [process_job]. *)
Definition process_job_except (e : Exc) : M Frame unit :=
  let* job := gets fst in
  match job with
  | Some _ =>
      let* _ := update_job (EventLogJob.set_status Error) in
      let* _ := update_job (EventLogJob.set_progress 0) in
      let* _ := update_job (EventLogJob.set_message "Processing failed") in
      let* _ := update_job (EventLogJob.set_error_message
                              (exc_msg e +:+ nl +:+ nl +:+ format_exc e)) in
      job_save
  | None => ret tt
  end.

(** [process_job(job_id)]: [job = None], then the [try] statement. *)
Definition process_job (C : Collaborators) (job_id : Z) : M World.t unit :=
  fun w => match try_except (process_job_try C job_id) process_job_except (None, w) with
           | (r, fr) => (r, snd fr)
           end.

(** ** Vocabulary of the statements *)

(** What [create_job] reads from the form. *)
Definition mining_method_of (request : HttpRequest.t) : string :=
  default "alpha" (HttpRequest.POST request !! "mining_method").

Definition project_name_of (request : HttpRequest.t) : string :=
  Py.strip (default "" (HttpRequest.POST request !! "project_name")).

Definition extension_allowed (filename : string) : bool :=
  Py.endswith filename ".xes" || Py.endswith filename ".csv".

(** The request passes the four validations and carries [uploaded_file]. *)
Definition valid_request (request : HttpRequest.t) (uploaded_file : UploadedFile.t) : Prop :=
  HttpRequest.FILES request !! "file" = Some uploaded_file /\
  extension_allowed (UploadedFile.name uploaded_file) = true /\
  project_name_of request <> "" /\
  Py.contains (mining_method_of request) valid_methods = true.

(** Number of distinct non-empty project names among the user's jobs. *)
Definition project_count (u : User.t) (w : World.t) : Z :=
  Z.of_nat (size (distinct_project_names (User.id u) (World.jobs w))).

Definition project_limit_reached (u : User.t) (w : World.t) : Prop :=
  User.is_premium (World.now w) u = false /\
  User.max_projects u > 0 /\
  project_count u w >= User.max_projects u.

(** The row count the pre-scan observes, when it does not raise. *)
Definition prescan_row_count (C : Collaborators) (u : User.t) (f : UploadedFile.t) : option Z :=
  match pd_read_csv C (UploadedFile.content f) (Some (User.max_log_rows u + 1)) with
  | Ok df => Some (len df)
  | Raise _ => None
  end.

Definition row_limit_exceeded (C : Collaborators) (u : User.t) (w : World.t)
    (f : UploadedFile.t) (row_count : Z) : Prop :=
  Py.endswith (UploadedFile.name f) ".csv" = true /\
  User.is_premium (World.now w) u = false /\
  User.max_log_rows u > 0 /\
  prescan_row_count C u f = Some row_count /\
  row_count > User.max_log_rows u.

(** The row stored under [job_id] carries that key. *)
Definition stored_job (w : World.t) (job_id : Z) (j : EventLogJob.t) : Prop :=
  World.jobs w !! job_id = Some j /\ EventLogJob.id j = job_id.

(** A job as the job API leaves it: waiting, nothing produced. *)
Definition fresh_job (j : EventLogJob.t) : Prop :=
  EventLogJob.status j = Pending /\
  EventLogJob.progress j = 0 /\
  EventLogJob.output_map_svg j = None /\
  EventLogJob.output_map_image j = None.

(** The data frame that reaches the discovery stage of a run on job [j]:
    the loaded one, cleaned when cleaning was requested. *)
Inductive reaches_discovery (C : Collaborators) (w : World.t) (j : EventLogJob.t)
  : DataFrame -> Prop :=
| reach_raw df :
    fst (load_event_log C (World.files w) (EventLogJob.original_file j) (World.console w)) = Ok df ->
    EventLogJob.cleaning_enabled j = false ->
    reaches_discovery C w j df
| reach_cleaned df cleaned :
    fst (load_event_log C (World.files w) (EventLogJob.original_file j) (World.console w)) = Ok df ->
    EventLogJob.cleaning_enabled j = true ->
    run_smart_clean C df = Ok cleaned ->
    reaches_discovery C w j cleaned.

(** The load, clean or discover stage of a run on job [j] raises [e]. *)
Inductive stage_raises (C : Collaborators) (w : World.t) (j : EventLogJob.t) (e : Exc) : Prop :=
| load_raises :
    fst (load_event_log C (World.files w) (EventLogJob.original_file j) (World.console w)) = Raise e ->
    stage_raises C w j e
| clean_raises df :
    fst (load_event_log C (World.files w) (EventLogJob.original_file j) (World.console w)) = Ok df ->
    EventLogJob.cleaning_enabled j = true ->
    run_smart_clean C df = Raise e ->
    stage_raises C w j e
| discover_raises df :
    reaches_discovery C w j df ->
    run_process_mining C df (EventLogJob.mining_method j) (EventLogJob.id j) = Raise e ->
    stage_raises C w j e.

(** Where [convert_pnml_to_image] is asked to write the picture. *)
Definition output_image_path (job_id : Z) : string :=
  tempdir +:+ "/job_" +:+ Py.str job_id +:+ ".svg".

Definition strictly_increasing (l : list Z) : Prop := StronglySorted Z.lt l.

(** What [convert_pnml_to_image] prints before it calls the visualizer. *)
Definition graphviz_notice (C : Collaborators) : list string :=
  match graphviz_path_to_add C with
  | Some gv_path => ["✅ Added Graphviz path to environment: " +:+ gv_path]
  | None => []
  end.

(** What the handler of the rendering block prints for [e]. *)
Definition render_warning (e : Exc) : list string :=
  ["⚠️  Warning: Could not generate SVG image (Graphviz not available)";
   "   Error: " +:+ exc_msg e;
   "   The process map PNML file is still available"].

(** The row [process_job] writes when it handles [e] with the job at [j]. *)
Definition failed (now : Z) (e : Exc) (j : EventLogJob.t) : EventLogJob.t :=
  EventLogJob.set_updated_at now
    (EventLogJob.set_error_message (exc_msg e +:+ nl +:+ nl +:+ format_exc e)
       (EventLogJob.set_message "Processing failed"
          (EventLogJob.set_progress 0 (EventLogJob.set_status Error j)))).

(** The answers of [create_job] and the state each one leaves, one
    constructor per [return] of the [try] block. *)
Inductive answers (C : Collaborators) (request : HttpRequest.t) (u : User.t) (w : World.t)
  : HttpResponse -> World.t -> Prop :=
| answer_no_file :
    HttpRequest.FILES request !! "file" = None ->
    answers C request u w no_file_response w
| answer_bad_extension f :
    HttpRequest.FILES request !! "file" = Some f ->
    extension_allowed (UploadedFile.name f) = false ->
    answers C request u w bad_extension_response w
| answer_no_project_name f :
    HttpRequest.FILES request !! "file" = Some f ->
    extension_allowed (UploadedFile.name f) = true ->
    project_name_of request = "" ->
    answers C request u w no_project_name_response w
| answer_invalid_method f :
    HttpRequest.FILES request !! "file" = Some f ->
    extension_allowed (UploadedFile.name f) = true ->
    project_name_of request <> "" ->
    Py.contains (mining_method_of request) valid_methods = false ->
    answers C request u w invalid_method_response w
| answer_algorithm_denied f :
    valid_request request f ->
    User.can_use_algorithm (World.now w) u (mining_method_of request) = false ->
    answers C request u w
      (algorithm_denied_response (World.now w) u (mining_method_of request)) w
| answer_project_denied f :
    valid_request request f ->
    User.can_use_algorithm (World.now w) u (mining_method_of request) = true ->
    project_limit_reached u w ->
    answers C request u w (project_limit_response (User.max_projects u)) w
| answer_rows_denied f n :
    valid_request request f ->
    User.can_use_algorithm (World.now w) u (mining_method_of request) = true ->
    ~ project_limit_reached u w ->
    row_limit_exceeded C u w f n ->
    answers C request u w (row_limit_response n (User.max_log_rows u)) w
| answer_created f job w' :
    valid_request request f ->
    User.can_use_algorithm (World.now w) u (mining_method_of request) = true ->
    ~ project_limit_reached u w ->
    (forall n, ~ row_limit_exceeded C u w f n) ->
    stored_job w' (EventLogJob.id job) job ->
    fresh_job job ->
    EventLogJob.user job = User.id u ->
    World.jobs w' = <[EventLogJob.id job := job]> (World.jobs w) ->
    World.files w' = <[EventLogJob.original_file job := UploadedFile.content f]> (World.files w) ->
    World.journal w' = (World.journal w ++ [job])%list ->
    World.threads w' = (World.threads w ++ [EventLogJob.id job])%list ->
    answers C request u w (job_created_response (EventLogJob.id job)) w'.

(** ** A concrete installation, for examples *)

Module Demo.

(** Lines of a text, split at line feeds. *)
Fixpoint lines_from (acc : string) (s : string) : list string :=
  match s with
  | EmptyString => [Py.rev acc]
  | String c r =>
      if Ascii.eqb c (ascii_of_nat 10)
      then Py.rev acc :: lines_from "" r
      else lines_from (String c acc) r
  end.

(** A plain CSV reader: the first line is the header, every further
    non-empty line is a row of one cell; an empty content is an error. *)
Definition parse_csv (content : Blob) : Result DataFrame :=
  match content with
  | EmptyString => Raise (mkExc "EmptyDataError" "No columns to parse from file" "")
  | _ => Ok (map (fun l => [l])
               (filter (fun l => l <> "") (tl (lines_from "" content))))
  end.

Definition collaborators (graphviz : bool) : Collaborators := {|
  pd_parse_csv := parse_csv;
  pm4py_import := Ok tt;
  xes_import := fun _ => Ok [];
  storage_name := fun files _ upload_to name =>
    upload_to +:+ Py.str (Z.of_nat (size files)) +:+ "_" +:+ name;
  smart_clean := fun df => Ok df;
  alpha_miner_service := fun _ _ => Ok tt;
  heuristic_miner_service := fun _ _ => Ok tt;
  os_path_exists := fun _ => true;
  pn_visualize := fun _ _ =>
    if graphviz then Ok tt
    else Raise (mkExc "ExecutableNotFound" "failed to execute dot" "");
  open_rb := fun _ => Ok "<svg/>";
  graphviz_path_to_add := None
|}.

Definition empty_world : World.t := World.mk ∅ ∅ [] [] [] 1000.

Definition free_user : User.t := User.mk 1 "free" None 3 ["alpha"] 2.
Definition other_user : User.t := User.mk 2 "free" None 1000 [] 3.
Definition premium_user : User.t := User.mk 3 "premium" None 0 [] 0.

Definition csv (rows : list string) : Blob :=
  Py.join nl ("case,activity" :: rows).

Definition upload (filename : string) (content : Blob) (fields : list (string * string))
  : HttpRequest.t :=
  HttpRequest.mk "POST" "/jobs/create/" None (list_to_map fields)
    {["file" := UploadedFile.mk filename content]}.

Definition request_a : HttpRequest.t :=
  upload "log.csv" (csv ["1,a"; "1,b"; "2,a"])
    [("project_name", "orders"); ("mining_method", "alpha"); ("cleaning_enabled", "true")].

Definition file_a : UploadedFile.t := UploadedFile.mk "log.csv" (csv ["1,a"; "1,b"; "2,a"]).

(** The state after [other_user] and [free_user] each created a job. *)
Definition world_1 : World.t :=
  snd (create_job (collaborators true) request_a other_user empty_world).

Definition world_2 : World.t :=
  snd (create_job (collaborators true) request_a free_user world_1).

(** The row of the job of [other_user] in [world_1]. *)
Definition job_1 : EventLogJob.t :=
  EventLogJob.mk 1 2 "uploads/event_logs/%Y/%m/%d/0_log.csv" "log.csv" "orders" true "alpha"
    Pending 0 "Job created, waiting to start..." "" None None 1000 1000.

Definition frame_a : DataFrame := [["1,a"]; ["1,b"]; ["2,a"]].

Definition request_heuristics : HttpRequest.t :=
  upload "log.csv" (csv ["1,a"; "1,b"; "2,a"])
    [("project_name", "orders"); ("mining_method", "heuristics")].

(** Five rows, for a user limited to three. *)
Definition file_big : UploadedFile.t :=
  UploadedFile.mk "log.csv" (csv ["1,a"; "1,b"; "2,a"; "2,b"; "3,a"]).

Definition request_big : HttpRequest.t :=
  upload "log.csv" (csv ["1,a"; "1,b"; "2,a"; "2,b"; "3,a"])
    [("project_name", "orders"); ("mining_method", "alpha")].

(** An upload whose name ends in upper case. *)
Definition file_upper : UploadedFile.t := UploadedFile.mk "LOG.CSV" (csv ["1,a"]).

Definition request_upper : HttpRequest.t :=
  upload "LOG.CSV" (csv ["1,a"]) [("project_name", "orders"); ("mining_method", "alpha")].

(** A user allowed a single project. *)
Definition one_project_user : User.t := User.mk 1 "free" None 1000 [] 1.

(** An empty upload: the pre-scan raises and lets it pass, the load stage
    of the run raises again. *)
Definition request_empty : HttpRequest.t :=
  upload "empty.csv" "" [("project_name", "orders"); ("mining_method", "alpha")].

Definition world_empty_upload : World.t :=
  snd (create_job (collaborators true) request_empty free_user empty_world).

Definition job_empty_upload : EventLogJob.t :=
  EventLogJob.mk 1 1 "uploads/event_logs/%Y/%m/%d/0_empty.csv" "empty.csv" "orders" false "alpha"
    Pending 0 "Job created, waiting to start..." "" None None 1000 1000.

Definition EmptyDataError : Exc := mkExc "EmptyDataError" "No columns to parse from file" "".

Definition ExecutableNotFound : Exc := mkExc "ExecutableNotFound" "failed to execute dot" "".

End Demo.

(** ** Further vocabulary *)

(** The fields of a job that the runner is given and never assigns. *)
Definition same_inputs (a b : EventLogJob.t) : Prop :=
  EventLogJob.id a = EventLogJob.id b /\
  EventLogJob.user a = EventLogJob.user b /\
  EventLogJob.original_file a = EventLogJob.original_file b /\
  EventLogJob.original_filename a = EventLogJob.original_filename b /\
  EventLogJob.project_name a = EventLogJob.project_name b /\
  EventLogJob.cleaning_enabled a = EventLogJob.cleaning_enabled b /\
  EventLogJob.mining_method a = EventLogJob.mining_method b /\
  EventLogJob.output_map_image a = EventLogJob.output_map_image b /\
  EventLogJob.created_at a = EventLogJob.created_at b.

(** The answer of [job_status] for a failed job with error detail [detail]. *)
Definition failed_status_response (detail : string) : HttpResponse :=
  JsonResponse [("status", JStr "error"); ("progress", JInt 0);
                ("message", JStr "Processing failed");
                ("error_message", JStr detail)] 200.

(** The error detail [process_job] records for [e]. *)
Definition error_detail (e : Exc) : string :=
  exc_msg e +:+ nl +:+ nl +:+ format_exc e.

(** The four lines [load_event_log] prints before it re-raises [e]. *)
Definition load_failure_report (file_path : string) (e : Exc) : list string :=
  ["❌ Error loading event log from " +:+ file_path;
   "   Error type: " +:+ exc_type e;
   "   Error message: " +:+ exc_msg e;
   format_exc e].

(** The exception [load_event_log] raises when importing pm4py fails
    with [e]. *)
Definition pm4py_missing (e : Exc) : Exc :=
  ImportError ("pm4py is required to load XES files but is not installed. " +:+
               "Install it with: pip install pm4py" +:+ nl +:+
               "Original error: " +:+ exc_msg e).

(** ** Further examples *)

Module Fixtures.



(** A job whose stored file has an upper-case extension. *)
Definition job_upper : EventLogJob.t :=
  EventLogJob.mk 1 2 "uploads/event_logs/2/LOG.CSV" "LOG.CSV" "orders" false
    "alpha" Pending 0 "CSV imported, starting discovery..." "" None None 1000 1000.

Definition world_upper : World.t :=
  World.mk {[1 := job_upper]} {["uploads/event_logs/2/LOG.CSV" := Demo.csv ["1,a"]]}
    [] [] [] 1000.

(** An installation without pm4py. *)
Definition ModuleNotFoundError : Exc :=
  mkExc "ModuleNotFoundError" "No module named 'pm4py'" "".

Definition without_pm4py : Collaborators := {|
  pd_parse_csv := Demo.parse_csv;
  pm4py_import := Raise ModuleNotFoundError;
  xes_import := fun _ => Ok [];
  storage_name := fun files _ upload_to name =>
    upload_to +:+ Py.str (Z.of_nat (size files)) +:+ "_" +:+ name;
  smart_clean := fun df => Ok df;
  alpha_miner_service := fun _ _ => Ok tt;
  heuristic_miner_service := fun _ _ => Ok tt;
  os_path_exists := fun _ => true;
  pn_visualize := fun _ _ => Ok tt;
  open_rb := fun _ => Ok "<svg/>";
  graphviz_path_to_add := None
|}.

Definition job_xes : EventLogJob.t :=
  EventLogJob.mk 1 2 "uploads/event_logs/%Y/%m/%d/0_log.xes" "log.xes" "orders" false
    "alpha" Pending 0 "Job created, waiting to start..." "" None None 1000 1000.

Definition world_xes : World.t :=
  World.mk {[1 := job_xes]} {["uploads/event_logs/%Y/%m/%d/0_log.xes" := "<log/>"]}
    [] [] [] 1000.

End Fixtures.

(** The row [create_job] inserts for an accepted request that carries the
    upload [f], and the state it leaves. *)
Definition created_job (C : Collaborators) (request : HttpRequest.t) (u : User.t) (w : World.t)
    (f : UploadedFile.t) : EventLogJob.t :=
  EventLogJob.mk (next_id (World.jobs w)) (User.id u)
    (storage_name C (World.files w) (World.now w) "uploads/event_logs/%Y/%m/%d/"
       (UploadedFile.name f))
    (UploadedFile.name f) (project_name_of request)
    (String.eqb (Py.lower (default "false" (HttpRequest.POST request !! "cleaning_enabled"))) "true")
    (mining_method_of request) Pending 0 "Job created, waiting to start..." "" None None
    (World.now w) (World.now w).

Definition after_create (C : Collaborators) (request : HttpRequest.t) (u : User.t) (w : World.t)
    (f : UploadedFile.t) : World.t :=
  let job := created_job C request u w f in
  World.set_threads (World.threads w ++ [EventLogJob.id job])%list
    (write_row job
       (World.set_files (<[EventLogJob.original_file job := UploadedFile.content f]> (World.files w))
          w)).

(** The table stores every row under its own id. *)
Definition keyed_by_id (jobs : gmap Z EventLogJob.t) : Prop :=
  forall k j, jobs !! k = Some j -> EventLogJob.id j = k.

(** The clock moves; nothing else does. *)
Definition at_time (now : Z) (w : World.t) : World.t :=
  World.mk (World.jobs w) (World.files w) (World.console w) (World.threads w)
    (World.journal w) now.

(** What can happen to the state of an installation with the libraries
    [C] while the account [u] is served: [u] or another user calls
    [create_job], a runner works on some job, time passes. *)
Inductive happens (C : Collaborators) (u : User.t) : World.t -> World.t -> Prop :=
| happens_create_job request response w w' :
    create_job C request u w = (Ok response, w') -> happens C u w w'
| happens_create_job_of_other request other response w w' :
    User.id other <> User.id u ->
    create_job C request other w = (Ok response, w') -> happens C u w w'
| happens_process_job job_id w w' :
    process_job C job_id w = (Ok tt, w') -> happens C u w w'
| happens_time_passes now w :
    World.now w <= now -> happens C u w (at_time now w).

(** ** Licences ([accounts/models.py]) *)

(** [User] with the one license field that the quota checks do not read. *)
Module Account.

Record t := mk {
  user : User.t;
  license_activated_at : option Z
}.

Definition set_license_type (v : string) (a : t) : t :=
  mk (User.mk (User.id (user a)) v (User.license_expires_at (user a))
        (User.max_log_rows (user a)) (User.allowed_algorithms (user a))
        (User.max_projects (user a)))
     (license_activated_at a).

Definition set_license_activated_at (v : option Z) (a : t) : t := mk (user a) v.

Definition set_license_expires_at (v : option Z) (a : t) : t :=
  mk (User.mk (User.id (user a)) (User.license_type (user a)) v
        (User.max_log_rows (user a)) (User.allowed_algorithms (user a))
        (User.max_projects (user a)))
     (license_activated_at a).

Definition set_max_log_rows (v : Z) (a : t) : t :=
  mk (User.mk (User.id (user a)) (User.license_type (user a))
        (User.license_expires_at (user a)) v (User.allowed_algorithms (user a))
        (User.max_projects (user a)))
     (license_activated_at a).

Definition set_allowed_algorithms (v : list string) (a : t) : t :=
  mk (User.mk (User.id (user a)) (User.license_type (user a))
        (User.license_expires_at (user a)) (User.max_log_rows (user a)) v
        (User.max_projects (user a)))
     (license_activated_at a).

Definition set_max_projects (v : Z) (a : t) : t :=
  mk (User.mk (User.id (user a)) (User.license_type (user a))
        (User.license_expires_at (user a)) (User.max_log_rows (user a))
        (User.allowed_algorithms (user a)) v)
     (license_activated_at a).

(** The property [is_free]. *)
Definition is_free (now : Z) (self : t) : bool := negb (User.is_premium now (user self)).

End Account.

(** [LicenseCode], without the fields that only the admin pages use
    ([created_at], [created_by], [notes]). [used_by] holds the id of the
    user. *)
Module LicenseCode.

Record t := mk {
  code : string;
  is_active : bool;
  is_used : bool;
  used_by : option Z;
  used_at : option Z;
  duration_days : option Z
}.

Definition set_is_used (v : bool) (c : t) : t :=
  mk (code c) (is_active c) v (used_by c) (used_at c) (duration_days c).
Definition set_used_by (v : option Z) (c : t) : t :=
  mk (code c) (is_active c) (is_used c) v (used_at c) (duration_days c).
Definition set_used_at (v : option Z) (c : t) : t :=
  mk (code c) (is_active c) (is_used c) (used_by c) v (duration_days c).

End LicenseCode.

(** The tables of the accounts application and the clock. The table of
    codes is keyed by the code, which is unique. *)
Module Directory.
Record t := mk {
  accounts : gmap Z Account.t;
  codes : gmap string LicenseCode.t;
  now : Z
}.

Definition set_accounts (v : gmap Z Account.t) (d : t) : t := mk v (codes d) (now d).
Definition set_codes (v : gmap string LicenseCode.t) (d : t) : t := mk (accounts d) v (now d).
End Directory.

(** [now + timedelta(days=d)] of the [datetime] library, which raises
    [OverflowError] when the duration or the sum is out of range. *)
Record Calendar := {
  add_days : Z -> Z -> Result Z
}.

(** The state of a call of a method of [User]: the object [self] in memory
    and the database. *)
Definition UserCall : Type := Account.t * Directory.t.

(** [self.field = v] *)
Definition update_self (f : Account.t -> Account.t) : M UserCall unit :=
  modify (fun st => (f (fst st), snd st)).

(** [timezone.now()] *)
Definition timezone_now : M UserCall Z := gets (fun st => Directory.now (snd st)).

(** [self.save()] of a user. *)
Definition save_self : M UserCall unit :=
  modify (fun st =>
            (fst st,
             Directory.set_accounts
               (<[User.id (Account.user (fst st)) := fst st]> (Directory.accounts (snd st)))
               (snd st))).

(** [User.activate_premium_license(duration_days)]; [if duration_days:] is
    false for [None] and for 0. *)
Definition activate_premium_license (K : Calendar) (duration_days : option Z)
  : M UserCall unit :=
  let* _ := update_self (Account.set_license_type User.LICENSE_PREMIUM) in
  let* activated := timezone_now in
  let* _ := update_self (Account.set_license_activated_at (Some activated)) in
  let* _ :=
    match duration_days with
    | Some days =>
        if days =? 0 then update_self (Account.set_license_expires_at None)
        else
          let* now := timezone_now in
          let* expires := of_result (add_days K now days) in
          update_self (Account.set_license_expires_at (Some expires))
    | None => update_self (Account.set_license_expires_at None)
    end in
  let* _ := update_self (Account.set_max_log_rows 0) in
  let* _ := update_self (Account.set_allowed_algorithms []) in
  let* _ := update_self (Account.set_max_projects 0) in
  save_self.

(** The state of a call of [LicenseCode.use_code]: the code object [self],
    the object [user] and the database. *)
Definition CodeCall : Type := LicenseCode.t * UserCall.

Definition update_code (f : LicenseCode.t -> LicenseCode.t) : M CodeCall unit :=
  modify (fun st => (f (fst st), snd st)).

(** A method call on [user]. *)
Definition on_user {A : Type} (m : M UserCall A) : M CodeCall A :=
  fun st => match m (snd st) with
            | (r, uc) => (r, (fst st, uc))
            end.

(** [self.save()] of a code. *)
Definition save_code : M CodeCall unit :=
  modify (fun st =>
            match st with
            | (self, (user, d)) =>
                (self, (user, Directory.set_codes
                                (<[LicenseCode.code self := self]> (Directory.codes d)) d))
            end).

(** [LicenseCode.use_code(user)] *)
Definition use_code (K : Calendar) : M CodeCall bool :=
  let* self := gets fst in
  if LicenseCode.is_used self then raise (ValueError "This code has already been used")
  else if negb (LicenseCode.is_active self) then raise (ValueError "This code is not active")
  else
    let* _ := on_user (activate_premium_license K (LicenseCode.duration_days self)) in
    let* _ := update_code (LicenseCode.set_is_used true) in
    let* user := gets (fun st => fst (snd st)) in
    let* _ := update_code (LicenseCode.set_used_by (Some (User.id (Account.user user)))) in
    let* now := on_user timezone_now in
    let* _ := update_code (LicenseCode.set_used_at (Some now)) in
    let* _ := save_code in
    ret true.

Module LicenceFixtures.

(** A calendar that counts seconds and has no upper end. *)
Definition calendar : Calendar := {| add_days := fun now days => Ok (now + days * 86400) |}.

Definition account : Account.t := Account.mk Demo.free_user None.

Definition directory : Directory.t := Directory.mk {[1 := account]} ∅ 1000.

(** The account after a 30-day license was activated at time 1000. *)
Definition licensed : Account.t :=
  Account.mk (User.mk 1 "premium" (Some 2593000) 0 [] 0) (Some 1000).

Definition code_30 : LicenseCode.t :=
  LicenseCode.mk "PREMIUM-AAAA-BBBB" true false None None (Some 30).

(** The state long after the license expired, holding two projects of the
    account. *)
Definition later_world : World.t :=
  World.mk (World.jobs Demo.world_2) (World.files Demo.world_2) [] [] [] 10000000.

End LicenceFixtures.

(** ** The project API ([discovery/views.py]) *)






(** ** CSV import sessions ([discovery/models.py], [discovery/views.py]) *)

Module CSVImportSession.
Record t := mk {
  id : Z;
  user : Z;
  uploaded_file : string;
  original_filename : string;
  project_name : string;
  created_at : Z
}.
End CSVImportSession.

(** The state with the table of import sessions. *)
Module Site.
Record t := mk {
  world : World.t;
  sessions : gmap Z CSVImportSession.t
}.
End Site.

(** A computation on the state without the sessions. *)
Definition in_site {A : Type} (m : M World.t A) : M Site.t A :=
  fun st => match m (Site.world st) with
            | (r, w) => (r, Site.mk w (Site.sessions st))
            end.

(** [bytes.decode('utf-8')]; a text is held as its UTF-8 bytes. *)
Record Text := {
  decode_utf8 : Blob -> Result string
}.

(** [s.count(c)] for a single character. *)
Fixpoint count_char (c : ascii) (s : string) : Z :=
  match s with
  | EmptyString => 0
  | String a r => (if Ascii.eqb a c then 1 else 0) + count_char c r
  end.

(** On a reversed string: what follows the first dot. *)
Fixpoint after_first_dot (s : string) : option string :=
  match s with
  | EmptyString => None
  | String c r => if Ascii.eqb c "."%char then Some r else after_first_dot r
  end.

(** [s.rsplit('.', 1)[0]] *)
Definition rsplit_dot_head (s : string) : string :=
  match after_first_dot (Py.rev s) with
  | Some r => Py.rev r
  | None => s
  end.

(** The number of rows [create_csv_import_session] sees in a text. *)
Definition csv_line_count (content : string) : Z :=
  let line_count := count_char (ascii_of_nat 10) content in
  let line_count :=
    if (line_count >? 0) && negb (Py.endswith content nl) then line_count + 1 else line_count in
  line_count - 1.

Definition only_csv_response : HttpResponse :=
  JsonResponse [("error", JStr "Only .csv files are supported")] 400.

Definition csv_row_limit_response (line_count max_rows : Z) : HttpResponse :=
  JsonResponse
    [("error", JStr ("CSV file exceeds your limit of " +:+ Py.format_thousands max_rows +:+ " rows"));
     ("message", JStr ("Your file has " +:+ Py.format_thousands line_count +:+
                       " rows. Upgrade to Premium for unlimited log size."));
     upgrade_url] 403.

Definition csv_project_limit_response (max_projects : Z) : HttpResponse :=
  JsonResponse
    [("error", JStr ("You have reached your project limit (" +:+ Py.str max_projects +:+ " projects)"));
     ("message", JStr "Please upgrade to Premium for unlimited projects or delete an existing project.");
     upgrade_url] 403.

Definition session_created_response (session_id : Z) : HttpResponse :=
  JsonResponse
    [("session_id", JInt session_id);
     ("redirect_url", JStr ("/import/csv/" +:+ Py.str session_id +:+ "/"))] 200.

(** The log-size block of [create_csv_import_session]. *)
Definition check_csv_row_limit (T : Text) (now : Z) (u : User.t) (uploaded_file : UploadedFile.t)
  : M Site.t (option HttpResponse) :=
  if negb (User.is_premium now u) then
    let max_rows := User.max_log_rows u in
    if max_rows >? 0 then
      let* content := of_result (decode_utf8 T (UploadedFile.content uploaded_file)) in
      let line_count := csv_line_count content in
      if line_count >? max_rows
      then ret (Some (csv_row_limit_response line_count max_rows))
      else ret None
    else ret None
  else ret None.

(** The project-limit block of [create_csv_import_session]. *)
Definition check_csv_project_limit (now : Z) (u : User.t) : M Site.t (option HttpResponse) :=
  if negb (User.is_premium now u) then
    let max_projects := User.max_projects u in
    if max_projects >? 0 then
      let* current_count := in_site (count_distinct_projects (User.id u)) in
      if current_count >=? max_projects
      then ret (Some (csv_project_limit_response max_projects))
      else ret None
    else ret None
  else ret None.

(** The primary key of the next session. *)
Definition next_session_id (sessions : gmap Z CSVImportSession.t) : Z :=
  map_fold (fun k _ acc => Z.max k acc) 0 sessions + 1.

(** [CSVImportSession.objects.create(...)] *)
Definition sessions_create (C : Collaborators) (uid : Z) (uploaded_file : UploadedFile.t)
    (filename project_name : string) : M Site.t CSVImportSession.t :=
  let* stored := in_site (storage_save C "temp_csv_imports/%Y/%m/%d/"
                            (UploadedFile.name uploaded_file)
                            (UploadedFile.content uploaded_file)) in
  let* key := gets (fun st => next_session_id (Site.sessions st)) in
  let* now := in_site (gets World.now) in
  let session := CSVImportSession.mk key uid stored filename project_name now in
  let* _ := modify (fun st => Site.mk (Site.world st) (<[key := session]> (Site.sessions st))) in
  ret session.

(** The body of [create_csv_import_session] for the logged-in user [u]. *)
Definition create_csv_import_session (C : Collaborators) (T : Text) (request : HttpRequest.t)
    (u : User.t) : M Site.t HttpResponse :=
  try_except
    (match HttpRequest.FILES request !! "file" with
     | None => ret no_file_response
     | Some uploaded_file =>
         let filename := UploadedFile.name uploaded_file in
         if negb (Py.endswith (Py.lower filename) ".csv") then ret only_csv_response
         else
           let project_name := Py.strip (default "" (HttpRequest.POST request !! "project_name")) in
           let project_name :=
             if String.eqb project_name "" then rsplit_dot_head filename else project_name in
           let* now := in_site (gets World.now) in
           let* rows_denied := check_csv_row_limit T now u uploaded_file in
           match rows_denied with
           | Some response => ret response
           | None =>
               let* project_denied := check_csv_project_limit now u in
               match project_denied with
               | Some response => ret response
               | None =>
                   let* session := sessions_create C (User.id u) uploaded_file filename
                                     project_name in
                   ret (session_created_response (CSVImportSession.id session))
               end
           end
     end)
    (fun e =>
       let* _ := in_site (print ("CSV import session creation error: " +:+ exc_msg e)) in
       let* _ := in_site (print (format_exc e)) in
       ret (JsonResponse [("error", JStr (exc_msg e))] 500)).

(** The project name an import session gets for a request that carries
    the upload [f]. *)
Definition import_project_name (request : HttpRequest.t) (f : UploadedFile.t) : string :=
  if String.eqb (project_name_of request) "" then rsplit_dot_head (UploadedFile.name f)
  else project_name_of request.

(** The session and the state that [create_csv_import_session] leaves when
    it accepts the upload [f]. *)
Definition created_session (C : Collaborators) (request : HttpRequest.t) (u : User.t)
    (st : Site.t) (f : UploadedFile.t) : CSVImportSession.t :=
  CSVImportSession.mk (next_session_id (Site.sessions st)) (User.id u)
    (storage_name C (World.files (Site.world st)) (World.now (Site.world st))
       "temp_csv_imports/%Y/%m/%d/" (UploadedFile.name f))
    (UploadedFile.name f) (import_project_name request f) (World.now (Site.world st)).

Definition after_import (C : Collaborators) (request : HttpRequest.t) (u : User.t)
    (st : Site.t) (f : UploadedFile.t) : Site.t :=
  let session := created_session C request u st f in
  Site.mk
    (World.set_files (<[CSVImportSession.uploaded_file session := UploadedFile.content f]>
                        (World.files (Site.world st))) (Site.world st))
    (<[CSVImportSession.id session := session]> (Site.sessions st)).

(** The import sees more rows than the user may have. *)
Definition csv_rows_exceeded (T : Text) (u : User.t) (st : Site.t) (f : UploadedFile.t)
    (line_count : Z) : Prop :=
  User.is_premium (World.now (Site.world st)) u = false /\
  User.max_log_rows u > 0 /\
  (exists content, decode_utf8 T (UploadedFile.content f) = Ok content /\
                   line_count = csv_line_count content) /\
  line_count > User.max_log_rows u.

(** The size check of the import has to decode the upload and cannot. *)
Definition csv_undecodable (T : Text) (u : User.t) (st : Site.t) (f : UploadedFile.t)
    (e : Exc) : Prop :=
  User.is_premium (World.now (Site.world st)) u = false /\
  User.max_log_rows u > 0 /\
  decode_utf8 T (UploadedFile.content f) = Raise e.

(** A text without line feed. *)
Definition single_line (s : string) : Prop := count_char (ascii_of_nat 10) s = 0.

Module ImportFixtures.

(** Every upload decodes. *)
Definition utf8 : Text := {| decode_utf8 := fun content => Ok content |}.

(** A user allowed three rows and one project, with a project in
    [Demo.world_2]. *)
Definition tight_user : User.t := User.mk 1 "free" None 3 ["alpha"] 1.

Definition site : Site.t := Site.mk Demo.world_2 ∅.

End ImportFixtures.

(** ** Processing an import ([discovery/views.py]) *)

(** A value that [json.loads] returns, and that a JSON answer carries. A
    [float] is kept as its text, with whether it is zero. The keys of an
    object are distinct. *)
Unset Elimination Schemes.
Inductive JsonValue : Type :=
| JNull
| JBool (b : bool)
| JNumber (n : Z)
| JFloat (is_zero : bool) (text : string)
| JString (s : string)
| JArray (items : list JsonValue)
| JObject (fields : list (string * JsonValue)).
Set Elimination Schemes.

(** [type(v).__name__] *)
Definition type_name (v : JsonValue) : string :=
  match v with
  | JNull => "NoneType"
  | JBool _ => "bool"
  | JNumber _ => "int"
  | JFloat _ _ => "float"
  | JString _ => "str"
  | JArray _ => "list"
  | JObject _ => "dict"
  end.

(** [bool(v)] *)
Definition truthy (v : JsonValue) : bool :=
  match v with
  | JNull => false
  | JBool b => b
  | JNumber n => negb (n =? 0)
  | JFloat is_zero _ => negb is_zero
  | JString s => negb (String.eqb s "")
  | JArray items => match items with [] => false | _ => true end
  | JObject fields => match fields with [] => false | _ => true end
  end.

(** [d[key]] of a dictionary, if the key is there. *)
Fixpoint field (key : string) (fields : list (string * JsonValue)) : option JsonValue :=
  match fields with
  | [] => None
  | (k, v) :: rest => if String.eqb k key then Some v else field key rest
  end.

(** [v.get(key, default)]; only a dictionary has [get]. *)
Definition py_get (v : JsonValue) (key : string) (fallback : JsonValue) : Result JsonValue :=
  match v with
  | JObject fields => Ok (default fallback (field key fields))
  | _ => Raise (AttributeError ("'" +:+ type_name v +:+ "' object has no attribute 'get'"))
  end.

(** A JSON answer: body and status. *)
Record Reply := JsonReply { reply_data : list (string * JsonValue); reply_status : Z }.

(** What [process_csv_import] uses besides the libraries of the job
    pipeline. *)
Record ImportLibraries := {
  (** [json.loads] *)
  json_loads : string -> Result JsonValue;
  (** The dictionary [rename_map] made by the given assignments, in their
      order, then [df.rename(columns=rename_map)], the conversion of the
      column [time:timestamp] if there is one, whose failure is ignored,
      and [df.to_csv(path, index=False)]: the text written. *)
  export_renamed : DataFrame -> list (JsonValue * string) -> Result Blob;
  (** What the database layer stores for a value given to a [CharField]
      and to a [BooleanField], or the exception it raises. *)
  char_field_value : JsonValue -> Result string;
  boolean_field_value : JsonValue -> Result bool
}.

(** [s.replace('.csv', '')]: [skip] characters of a match are still to be
    dropped. *)
Fixpoint remove_csv (skip : nat) (s : string) : string :=
  match s with
  | EmptyString => EmptyString
  | String c r =>
      match skip with
      | S k => remove_csv k r
      | O => if Py.startswith s ".csv" then remove_csv 3 r else String c (remove_csv 0 r)
      end
  end.

Definition SessionDoesNotExist : Exc :=
  mkExc "DoesNotExist" "CSVImportSession matching query does not exist." "".

(** [CSVImportSession.objects.get(id=session_id, user=u)] *)
Definition sessions_get_owned (session_id uid : Z) : M Site.t CSVImportSession.t :=
  fun st => match Site.sessions st !! session_id with
            | Some s => if CSVImportSession.user s =? uid then (Ok s, st)
                        else (Raise SessionDoesNotExist, st)
            | None => (Raise SessionDoesNotExist, st)
            end.

(** The assignments to [rename_map], in the order of the source. *)
Definition rename_assignments (column_mappings : JsonValue) : Result (list (JsonValue * string)) :=
  match py_get column_mappings "caseId" JNull,
        py_get column_mappings "activity" JNull,
        py_get column_mappings "timestamp" JNull,
        py_get column_mappings "resource" JNull with
  | Ok case_id, Ok activity, Ok timestamp, Ok resource =>
      Ok ((if truthy case_id then [(case_id, "case:concept:name")] else []) ++
          (if truthy activity then [(activity, "concept:name")] else []) ++
          (if truthy timestamp then [(timestamp, "time:timestamp")] else []) ++
          (if truthy resource then [(resource, "org:resource")] else []))%list
  | Raise e, _, _, _ => Raise e
  | _, Raise e, _, _ => Raise e
  | _, _, Raise e, _ => Raise e
  | _, _, _, Raise e => Raise e
  end.

Definition mappings_required_reply : Reply :=
  JsonReply [("error", JString "Case ID and Activity columns are required")] 400.

Definition session_not_found_reply : Reply :=
  JsonReply [("error", JString "CSV import session not found")] 404.

Definition import_done_reply (job_id : Z) (project_name : string) : Reply :=
  JsonReply [("success", JBool true);
             ("job_id", JNumber job_id);
             ("project_name", JString project_name);
             ("redirect_url", JString ("/jobs/progress/" +:+ Py.str job_id +:+ "/"))] 200.

(** [EventLogJob.objects.create(...)] as [process_csv_import] calls it:
    the file field is given the name of a file that is already there. *)
Definition objects_create_for_file (L : ImportLibraries) (uid : Z) (original_file filename
    project_name : string) (cleaning_enabled mining_method : JsonValue) (status : Status)
    (progress : Z) (message : string) : M World.t EventLogJob.t :=
  let* cleaning := of_result (boolean_field_value L cleaning_enabled) in
  let* method := of_result (char_field_value L mining_method) in
  let* key := gets (fun w => next_id (World.jobs w)) in
  let* now := gets World.now in
  save (EventLogJob.mk key uid original_file filename project_name cleaning method
          status progress message "" None None now now).

(** The body of [process_csv_import] for the logged-in user [u], with the
    body of the request. *)
Definition process_csv_import (C : Collaborators) (L : ImportLibraries) (body : string)
    (u : User.t) (session_id : Z) : M Site.t Reply :=
  try_except
    (let* session := sessions_get_owned session_id (User.id u) in
     let* data := of_result (json_loads L body) in
     let* column_mappings := of_result (py_get data "columnMappings" (JObject [])) in
     let* mining_method := of_result (py_get data "miningMethod" (JString "alpha")) in
     let* cleaning_enabled := of_result (py_get data "cleaningEnabled" (JBool false)) in
     let* case_id := of_result (py_get column_mappings "caseId" JNull) in
     if negb (truthy case_id) then ret mappings_required_reply
     else
       let* activity := of_result (py_get column_mappings "activity" JNull) in
       if negb (truthy activity) then ret mappings_required_reply
       else
         let file_path := CSVImportSession.uploaded_file session in
         let* files := in_site (gets World.files) in
         let* df := match files !! file_path with
                    | Some content => of_result (pd_read_csv C content None)
                    | None => raise (FileNotFoundError
                                       ("[Errno 2] No such file or directory: '" +:+
                                        file_path +:+ "'"))
                    end in
         let* rename_map := of_result (rename_assignments column_mappings) in
         let* exported := of_result (export_renamed L df rename_map) in
         let project_name :=
           if negb (String.eqb (CSVImportSession.project_name session) "")
           then CSVImportSession.project_name session
           else remove_csv 0 (CSVImportSession.original_filename session) in
         let processed_filename :=
           "csv_mapped_" +:+ Py.str session_id +:+ "_" +:+
           CSVImportSession.original_filename session in
         let relative_path :=
           "uploads/event_logs/" +:+ Py.str (User.id u) +:+ "/" +:+ processed_filename in
         let* _ := in_site (modify (fun w => World.set_files
                                               (<[relative_path := exported]> (World.files w)) w)) in
         let* job := in_site (objects_create_for_file L (User.id u) relative_path
                                (CSVImportSession.original_filename session) project_name
                                cleaning_enabled mining_method Pending 0
                                "CSV imported, starting discovery...") in
         let* _ := in_site (modify (fun w => World.set_files
                                               (delete file_path (World.files w)) w)) in
         let* _ := modify (fun st => Site.mk (Site.world st)
                                       (delete (CSVImportSession.id session) (Site.sessions st))) in
         let* _ := in_site (thread_start (EventLogJob.id job)) in
         ret (import_done_reply (EventLogJob.id job) project_name))
    (fun e =>
       if isinstance e "DoesNotExist" then ret session_not_found_reply
       else
         let* _ := in_site (print ("CSV import processing error: " +:+ exc_msg e)) in
         let* _ := in_site (print (format_exc e)) in
         ret (JsonReply [("error", JString (exc_msg e))] 500)).

(** The body of a request as the import page sends it: an object, with the
    column mappings, the mining method and the cleaning flag it carries
    (or their defaults). *)
Definition import_body (L : ImportLibraries) (body : string)
    (column_mappings mining_method cleaning_enabled : JsonValue) : Prop :=
  exists fields,
    json_loads L body = Ok (JObject fields) /\
    column_mappings = default (JObject []) (field "columnMappings" fields) /\
    mining_method = default (JString "alpha") (field "miningMethod" fields) /\
    cleaning_enabled = default (JBool false) (field "cleaningEnabled" fields).

(** The mappings name a column for the case id and one for the activity. *)
Definition required_columns_mapped (column_mappings : JsonValue) : Prop :=
  exists fields,
    column_mappings = JObject fields /\
    truthy (default JNull (field "caseId" fields)) = true /\
    truthy (default JNull (field "activity" fields)) = true.

(** The session [session_id] is there, belongs to [u], and its file is in
    the storage. *)
Definition open_session (u : User.t) (st : Site.t) (session_id : Z)
    (session : CSVImportSession.t) (content : Blob) : Prop :=
  Site.sessions st !! session_id = Some session /\
  CSVImportSession.id session = session_id /\
  CSVImportSession.user session = User.id u /\
  World.files (Site.world st) !! CSVImportSession.uploaded_file session = Some content.

(** The project name [process_csv_import] gives the job. *)
Definition imported_project_name (session : CSVImportSession.t) : string :=
  if negb (String.eqb (CSVImportSession.project_name session) "")
  then CSVImportSession.project_name session
  else remove_csv 0 (CSVImportSession.original_filename session).

(** Where [process_csv_import] writes the renamed file. *)
Definition imported_file_name (u : User.t) (session_id : Z) (session : CSVImportSession.t)
  : string :=
  "uploads/event_logs/" +:+ Py.str (User.id u) +:+ "/" +:+
  ("csv_mapped_" +:+ Py.str session_id +:+ "_" +:+ CSVImportSession.original_filename session).

(** The job [process_csv_import] creates. *)
Definition imported_job (u : User.t) (st : Site.t) (session_id : Z)
    (session : CSVImportSession.t) (cleaning : bool) (method : string) : EventLogJob.t :=
  EventLogJob.mk (next_id (World.jobs (Site.world st))) (User.id u)
    (imported_file_name u session_id session)
    (CSVImportSession.original_filename session) (imported_project_name session)
    cleaning method Pending 0 "CSV imported, starting discovery..." "" None None
    (World.now (Site.world st)) (World.now (Site.world st)).

Module ProcessFixtures.

(** The body the import page sends for a log with the columns [case] and
    [activity], asking for the heuristics miner. *)
Definition body : string :=
  "{'columnMappings': {'caseId': 'case', 'activity': 'activity'}, 'miningMethod': 'heuristics'}".

Definition libraries : ImportLibraries := {|
  json_loads := fun text =>
    if String.eqb text body
    then Ok (JObject [("columnMappings",
                       JObject [("caseId", JString "case"); ("activity", JString "activity")]);
                      ("miningMethod", JString "heuristics")])
    else Raise (mkExc "JSONDecodeError" "Expecting value: line 1 column 1 (char 0)" "");
  export_renamed := fun df _ => Ok (Py.join nl ("case:concept:name,concept:name" :: concat df));
  char_field_value := fun v =>
    match v with
    | JString s => Ok s
    | _ => Raise (mkExc "DataError" "not a text" "")
    end;
  boolean_field_value := fun v =>
    match v with
    | JBool b => Ok b
    | _ => Raise (mkExc "ValidationError" "value must be either True or False." "")
    end
|}.

Definition session : CSVImportSession.t :=
  CSVImportSession.mk 1 1 "temp_csv_imports/%Y/%m/%d/2_log.csv" "log.csv" "invoices" 1000.

(** [Demo.world_2] with the upload of the session. *)
Definition site : Site.t :=
  Site.mk
    (World.set_files (<["temp_csv_imports/%Y/%m/%d/2_log.csv" := Demo.csv ["1,a"; "1,b"]]>
                        (World.files Demo.world_2)) Demo.world_2)
    {[1 := session]}.

End ProcessFixtures.


(** ** The activation form ([accounts/forms.py]) *)

(** [s.upper()] *)
Fixpoint upper (s : string) : string :=
  match s with
  | EmptyString => EmptyString
  | String c r => String (Py.to_upper c) (upper r)
  end.

Definition ValidationError (msg : string) : Exc := mkExc "ValidationError" msg "".

Definition LicenseCodeDoesNotExist : Exc :=
  mkExc "DoesNotExist" "LicenseCode matching query does not exist." "".

(** [LicenseCode.objects.get(code=code, is_active=True, is_used=False)] *)
Definition get_usable_code (code : string) (d : Directory.t) : Result LicenseCode.t :=
  match Directory.codes d !! code with
  | Some c => if LicenseCode.is_active c && negb (LicenseCode.is_used c) then Ok c
              else Raise LicenseCodeDoesNotExist
  | None => Raise LicenseCodeDoesNotExist
  end.

(** [LicenseActivationForm]: the user it was made for and, once a code
    has been validated, that code. *)
Module LicenseActivationForm.
Record t := mk {
  user : option Account.t;
  validated_license : option LicenseCode.t
}.
End LicenseActivationForm.

(** The state of a call of a method of the form: the form and the
    database. *)
Definition FormCall : Type := LicenseActivationForm.t * Directory.t.

Definition already_premium_message : string := "شما در حال حاضر کاربر پرمیوم هستید.".

Definition invalid_code_message : string :=
  "کد لایسنس نامعتبر است، قبلاً استفاده شده یا غیرفعال است.".

(** [clean_license_code()], on the text of the field. *)
Definition clean_license_code (license_code : string) : M FormCall string :=
  let code := upper (Py.strip license_code) in
  let* form := gets fst in
  let* now := gets (fun st => Directory.now (snd st)) in
  let premium := match LicenseActivationForm.user form with
                 | Some user => User.is_premium now (Account.user user)
                 | None => false
                 end in
  if premium then raise (ValidationError already_premium_message)
  else
    let* code_obj :=
      try_except (fun st => (get_usable_code code (snd st), st))
        (fun e => if isinstance e "DoesNotExist"
                  then raise (ValidationError invalid_code_message)
                  else raise e) in
    let* _ := modify (fun st => (LicenseActivationForm.mk
                                   (LicenseActivationForm.user (fst st)) (Some code_obj),
                                 snd st)) in
    ret code.

(** [activate()] *)
Definition activate (K : Calendar) : M FormCall bool :=
  fun st =>
    match LicenseActivationForm.validated_license (fst st),
          LicenseActivationForm.user (fst st) with
    | Some code_obj, Some user =>
        match use_code K (code_obj, (user, snd st)) with
        | (r, (code_obj', (user', d'))) =>
            (match r with Ok _ => Ok true | Raise e => Raise e end,
             (LicenseActivationForm.mk (Some user') (Some code_obj'), d'))
        end
    | _, _ => (Ok false, st)
    end.

(** The table of codes holds every code under its own text. *)
Definition codes_keyed (d : Directory.t) : Prop :=
  forall k c, Directory.codes d !! k = Some c -> LicenseCode.code c = k.

Module FormFixtures.

(** An office with one free account and one 30-day code. *)
Definition directory : Directory.t :=
  Directory.mk {[1 := LicenceFixtures.account]}
    {["PREMIUM-AAAA-BBBB" := LicenceFixtures.code_30]} 1000.

Definition form : LicenseActivationForm.t :=
  LicenseActivationForm.mk (Some LicenceFixtures.account) None.

End FormFixtures.

(** * Properties *)

(** ** The monad *)

Lemma bind_ok {S A B : Type} (m : M S A) (k : A -> M S B) s a s' :
  m s = (Ok a, s') -> bind m k s = k a s'.
Proof. intros H. unfold bind. rewrite H. reflexivity. Qed.

Lemma bind_raise {S A B : Type} (m : M S A) (k : A -> M S B) s e s' :
  m s = (Raise e, s') -> bind m k s = (Raise e, s').
Proof. intros H. unfold bind. rewrite H. reflexivity. Qed.

Lemma try_except_ok {S A : Type} (m : M S A) h s a s' :
  m s = (Ok a, s') -> try_except m h s = (Ok a, s').
Proof. intros H. unfold try_except. rewrite H. reflexivity. Qed.

Lemma try_except_raise {S A : Type} (m : M S A) h s e s' :
  m s = (Raise e, s') -> try_except m h s = h e s'.
Proof. intros H. unfold try_except. rewrite H. reflexivity. Qed.

(** ** The quota checks *)

Lemma check_project_limit_denies u w :
  project_limit_reached u w ->
  check_project_limit (World.now w) u w
  = (Ok (Some (project_limit_response (User.max_projects u))), w).
Proof.
  intros (Hp & Hmax & Hcount). unfold check_project_limit. rewrite Hp. simpl.
  destruct (Z.gtb_spec (User.max_projects u) 0) as [_|Hle]; [|lia].
  unfold bind, count_distinct_projects, gets. fold (project_count u w).
  destruct (Z.geb_spec (project_count u w) (User.max_projects u)) as [_|Hlt]; [|lia].
  reflexivity.
Qed.

Lemma check_project_limit_allows u w :
  ~ project_limit_reached u w ->
  check_project_limit (World.now w) u w = (Ok None, w).
Proof.
  intros Hn. unfold check_project_limit.
  destruct (User.is_premium (World.now w) u) eqn:Hp; simpl; [reflexivity|].
  destruct (Z.gtb_spec (User.max_projects u) 0) as [Hgt|Hle]; [|reflexivity].
  unfold bind, count_distinct_projects, gets. fold (project_count u w).
  destruct (Z.geb_spec (project_count u w) (User.max_projects u)) as [Hge|Hlt]; [|reflexivity].
  exfalso. apply Hn. unfold project_limit_reached. repeat split; [assumption|lia|lia].
Qed.

Lemma project_limit_reached_dec u w :
  project_limit_reached u w \/ ~ project_limit_reached u w.
Proof.
  unfold project_limit_reached.
  destruct (User.is_premium (World.now w) u); [right; intros (H & _); discriminate|].
  destruct (Z_gt_dec (User.max_projects u) 0) as [Hmax|Hmax]; [|right; tauto].
  destruct (Z_ge_dec (project_count u w) (User.max_projects u)) as [Hc|Hc]; [left|right]; tauto.
Qed.

Lemma check_row_limit_denies C u w f n :
  row_limit_exceeded C u w f n ->
  check_row_limit C (World.now w) u (UploadedFile.name f) f w
  = (Ok (Some (row_limit_response n (User.max_log_rows u))), w).
Proof.
  intros (Hcsv & Hp & Hmax & Hscan & Hn). unfold check_row_limit.
  rewrite Hcsv, Hp. simpl.
  destruct (Z.gtb_spec (User.max_log_rows u) 0) as [_|Hle]; [|lia].
  unfold prescan_row_count in Hscan. unfold try_except, bind, of_result.
  destruct (pd_read_csv C (UploadedFile.content f) (Some (User.max_log_rows u + 1)))
    as [df|e]; [|discriminate].
  injection Hscan as <-.
  destruct (Z.gtb_spec (len df) (User.max_log_rows u)) as [_|Hle]; [|lia].
  reflexivity.
Qed.

Lemma check_row_limit_allows C u w f :
  (forall n, ~ row_limit_exceeded C u w f n) ->
  check_row_limit C (World.now w) u (UploadedFile.name f) f w = (Ok None, w).
Proof.
  intros Hn. unfold check_row_limit.
  destruct (Py.endswith (UploadedFile.name f) ".csv") eqn:Hcsv; simpl; [|reflexivity].
  destruct (User.is_premium (World.now w) u) eqn:Hp; simpl; [reflexivity|].
  destruct (Z.gtb_spec (User.max_log_rows u) 0) as [Hgt|Hle]; [|reflexivity].
  unfold try_except, bind, of_result.
  destruct (pd_read_csv C (UploadedFile.content f) (Some (User.max_log_rows u + 1)))
    as [df|e] eqn:Hscan; [|reflexivity].
  destruct (Z.gtb_spec (len df) (User.max_log_rows u)) as [Hgt'|Hle]; [|reflexivity].
  exfalso. apply (Hn (len df)). unfold row_limit_exceeded, prescan_row_count.
  rewrite Hscan. repeat split; first [assumption | lia].
Qed.

Lemma row_limit_exceeded_dec C u w f :
  (exists n, row_limit_exceeded C u w f n) \/ (forall n, ~ row_limit_exceeded C u w f n).
Proof.
  unfold row_limit_exceeded.
  destruct (Py.endswith (UploadedFile.name f) ".csv");
    [|right; intros n (H & _); discriminate].
  destruct (User.is_premium (World.now w) u);
    [right; intros n (_ & H & _); discriminate|].
  destruct (Z_gt_dec (User.max_log_rows u) 0) as [Hmax|Hmax]; [|right; intros n; tauto].
  destruct (prescan_row_count C u f) as [k|];
    [|right; intros n (_ & _ & _ & H & _); discriminate].
  destruct (Z_gt_dec k (User.max_log_rows u)) as [Hk|Hk].
  - left. exists k. tauto.
  - right. intros m (_ & _ & _ & H & Hm). injection H as ->. contradiction.
Qed.

(** ** Every way [create_job] can answer *)

Ltac enter_create_job :=
  unfold create_job, try_except, valid_request, extension_allowed,
    mining_method_of, project_name_of in *.

Lemma create_job_no_file C request u w :
  HttpRequest.FILES request !! "file" = None ->
  create_job C request u w = (Ok no_file_response, w).
Proof. intros H. enter_create_job. rewrite H. reflexivity. Qed.

Lemma create_job_bad_extension C request u w f :
  HttpRequest.FILES request !! "file" = Some f ->
  extension_allowed (UploadedFile.name f) = false ->
  create_job C request u w = (Ok bad_extension_response, w).
Proof. intros H Hext. enter_create_job. rewrite H, Hext. reflexivity. Qed.

Lemma create_job_no_project_name C request u w f :
  HttpRequest.FILES request !! "file" = Some f ->
  extension_allowed (UploadedFile.name f) = true ->
  project_name_of request = "" ->
  create_job C request u w = (Ok no_project_name_response, w).
Proof. intros H Hext Hp. enter_create_job. rewrite H, Hext, Hp. reflexivity. Qed.

Lemma create_job_invalid_method C request u w f :
  HttpRequest.FILES request !! "file" = Some f ->
  extension_allowed (UploadedFile.name f) = true ->
  project_name_of request <> "" ->
  Py.contains (mining_method_of request) valid_methods = false ->
  create_job C request u w = (Ok invalid_method_response, w).
Proof.
  intros H Hext Hp Hm. enter_create_job. rewrite H, Hext.
  apply String.eqb_neq in Hp. rewrite Hp, Hm. reflexivity.
Qed.

Ltac pass_validation Hvalid :=
  let Hf := fresh "Hfile" in
  let Hext := fresh "Hext" in
  let Hp := fresh "Hproject" in
  let Hm := fresh "Hmethod" in
  destruct Hvalid as (Hf & Hext & Hp & Hm);
  enter_create_job; rewrite Hf, Hext;
  apply String.eqb_neq in Hp; rewrite Hp, Hm;
  cbn [negb]; unfold bind at 1, gets at 1.

Lemma create_job_algorithm_denied C request u w f :
  valid_request request f ->
  User.can_use_algorithm (World.now w) u (mining_method_of request) = false ->
  create_job C request u w
  = (Ok (algorithm_denied_response (World.now w) u (mining_method_of request)), w).
Proof.
  intros Hvalid Halg. pass_validation Hvalid. rewrite Halg. reflexivity.
Qed.

Lemma create_job_project_denied C request u w f :
  valid_request request f ->
  User.can_use_algorithm (World.now w) u (mining_method_of request) = true ->
  project_limit_reached u w ->
  create_job C request u w = (Ok (project_limit_response (User.max_projects u)), w).
Proof.
  intros Hvalid Halg Hproj. pass_validation Hvalid. rewrite Halg. cbn [negb].
  rewrite (bind_ok _ _ _ _ _ (check_project_limit_denies u w Hproj)). reflexivity.
Qed.

Lemma create_job_rows_denied C request u w f n :
  valid_request request f ->
  User.can_use_algorithm (World.now w) u (mining_method_of request) = true ->
  ~ project_limit_reached u w ->
  row_limit_exceeded C u w f n ->
  create_job C request u w = (Ok (row_limit_response n (User.max_log_rows u)), w).
Proof.
  intros Hvalid Halg Hproj Hrows. pass_validation Hvalid. rewrite Halg. cbn [negb].
  rewrite (bind_ok _ _ _ _ _ (check_project_limit_allows u w Hproj)).
  rewrite (bind_ok _ _ _ _ _ (check_row_limit_denies C u w f n Hrows)). reflexivity.
Qed.

Lemma create_job_accepts C request u w f :
  valid_request request f ->
  User.can_use_algorithm (World.now w) u (mining_method_of request) = true ->
  ~ project_limit_reached u w ->
  (forall n, ~ row_limit_exceeded C u w f n) ->
  exists job w',
    create_job C request u w = (Ok (job_created_response (EventLogJob.id job)), w') /\
    stored_job w' (EventLogJob.id job) job /\
    fresh_job job /\
    EventLogJob.user job = User.id u /\
    EventLogJob.project_name job = project_name_of request /\
    EventLogJob.mining_method job = mining_method_of request /\
    EventLogJob.original_filename job = UploadedFile.name f /\
    World.jobs w' = <[EventLogJob.id job := job]> (World.jobs w) /\
    World.files w' = <[EventLogJob.original_file job := UploadedFile.content f]> (World.files w) /\
    World.journal w' = (World.journal w ++ [job])%list /\
    World.threads w' = (World.threads w ++ [EventLogJob.id job])%list.
Proof.
  intros Hvalid Halg Hproj Hrows. pass_validation Hvalid. rewrite Halg. cbn [negb].
  rewrite (bind_ok _ _ _ _ _ (check_project_limit_allows u w Hproj)).
  rewrite (bind_ok _ _ _ _ _ (check_row_limit_allows C u w f Hrows)).
  eexists. eexists. split; [reflexivity|].
  unfold stored_job, fresh_job. cbn.
  repeat split. apply lookup_insert_eq.
Qed.

Lemma create_job_answers C request u w :
  exists r w', create_job C request u w = (Ok r, w') /\ answers C request u w r w'.
Proof.
  destruct (HttpRequest.FILES request !! "file") as [f|] eqn:Hfile.
  2:{ eexists _, _. split; [apply create_job_no_file; assumption|]. constructor; assumption. }
  destruct (extension_allowed (UploadedFile.name f)) eqn:Hext.
  2:{ eexists _, _. split; [eapply create_job_bad_extension; eassumption|].
      econstructor; eassumption. }
  destruct (String.string_dec (project_name_of request) "") as [Hp|Hp].
  { eexists _, _. split; [eapply create_job_no_project_name; eassumption|].
    econstructor; eassumption. }
  destruct (Py.contains (mining_method_of request) valid_methods) eqn:Hm.
  2:{ eexists _, _. split; [eapply create_job_invalid_method; eassumption|].
      eapply answer_invalid_method; eassumption. }
  assert (Hvalid : valid_request request f) by (repeat split; assumption).
  destruct (User.can_use_algorithm (World.now w) u (mining_method_of request)) eqn:Halg.
  2:{ eexists _, _. split; [eapply create_job_algorithm_denied; eassumption|].
      eapply answer_algorithm_denied; eassumption. }
  destruct (project_limit_reached_dec u w) as [Hproj|Hproj].
  { eexists _, _. split; [eapply create_job_project_denied; eassumption|].
    eapply answer_project_denied; eassumption. }
  destruct (row_limit_exceeded_dec C u w f) as [[n Hrows]|Hrows].
  { eexists _, _. split; [eapply create_job_rows_denied; eassumption|].
    eapply answer_rows_denied; eassumption. }
  destruct (create_job_accepts C request u w f Hvalid Halg Hproj Hrows)
    as (job & w' & Heq & Hst & Hfr & Hu & _ & _ & _ & Hj & Hf & Hjo & Ht).
  exists (job_created_response (EventLogJob.id job)), w'.
  split; [assumption|]. eapply answer_created; eassumption.
Qed.

(** Two different kinds of answer are never the same response. *)
Ltac clash H :=
  exfalso;
  unfold no_file_response, bad_extension_response, no_project_name_response,
    invalid_method_response, algorithm_denied_response, project_limit_response,
    row_limit_response, job_created_response in H;
  first [ discriminate H | injection H; intros; discriminate ].


Lemma contains_In x xs : Py.contains x xs = true <-> In x xs.
Proof.
  unfold Py.contains. rewrite existsb_exists. split.
  - intros (y & Hy & Heq). apply String.eqb_eq in Heq. subst. assumption.
  - intros H. exists x. split; [assumption|apply String.eqb_refl].
Qed.

Lemma valid_method_cases m :
  Py.contains m valid_methods = true -> m = "alpha" \/ m = "heuristics".
Proof.
  intros H. apply contains_In in H. simpl in H.
  destruct H as [H|[H|[]]]; [left|right]; symmetry; exact H.
Qed.

Lemma premium_can_use_algorithm now u m :
  Py.contains m valid_methods = true ->
  User.is_premium now u = true ->
  User.can_use_algorithm now u m = true.
Proof.
  intros Hm Hp. unfold User.can_use_algorithm, User.get_allowed_algorithms.
  rewrite Hp. simpl. destruct (valid_method_cases m Hm); subst; reflexivity.
Qed.

Lemma free_can_use_algorithm now u m :
  Py.contains m valid_methods = true ->
  User.is_premium now u = false ->
  (User.can_use_algorithm now u m = true <->
   In m (User.allowed_algorithms u) \/ User.allowed_algorithms u = []).
Proof.
  intros Hm Hp. unfold User.can_use_algorithm, User.get_allowed_algorithms.
  rewrite Hp. simpl. destruct (User.allowed_algorithms u) as [|a l] eqn:Ha.
  - split; [right; reflexivity|].
    intros _. destruct (valid_method_cases m Hm); subst; reflexivity.
  - rewrite contains_In. split; [left; assumption|].
    intros [H|H]; [assumption|discriminate].
Qed.

Lemma premium_not_limited C request u w f :
  valid_request request f ->
  User.is_premium (World.now w) u = true ->
  User.can_use_algorithm (World.now w) u (mining_method_of request) = true /\
  ~ project_limit_reached u w /\
  (forall n, ~ row_limit_exceeded C u w f n).
Proof.
  intros Hvalid Hp. split; [|split].
  - apply premium_can_use_algorithm; [apply Hvalid|assumption].
  - intros (H & _). congruence.
  - intros n (_ & H & _). congruence.
Qed.

(** ** The claims about [create_job] *)

(** C6. For a request that passes validation (so the mining method is one
    of the valid ones): a premium user passes the algorithm-access check; a
    free user passes it exactly when the method is in their
    [allowed_algorithms] or that list is empty; [create_job] answers with
    the algorithm denial exactly when the check fails, and then it is a 403,
    the state (job table, storage, everything) is untouched, and the message
    lists the user's permitted algorithms, title-cased and comma-separated. *)
Theorem algorithm_access_check C request u w f :
  valid_request request f ->
  let now := World.now w in
  let method := mining_method_of request in
  (User.is_premium now u = true -> User.can_use_algorithm now u method = true) /\
  (User.is_premium now u = false ->
   (User.can_use_algorithm now u method = true <->
    In method (User.allowed_algorithms u) \/ User.allowed_algorithms u = [])) /\
  (User.can_use_algorithm now u method = false <->
   create_job C request u w = (Ok (algorithm_denied_response now u method), w)) /\
  (User.can_use_algorithm now u method = false ->
   status_code (algorithm_denied_response now u method) = 403 /\
   exists error,
     algorithm_denied_response now u method =
     JsonResponse
       [("error", error);
        ("message",
         JStr ("Your plan allows: " +:+
               Py.join ", " (map Py.title (User.allowed_algorithms u)) +:+
               ". Please upgrade to Premium for access to all algorithms."));
        upgrade_url] 403).
Proof.
  intros Hvalid now method.
  assert (Hm : Py.contains method valid_methods = true) by apply Hvalid.
  split; [|split; [|split]].
  - apply premium_can_use_algorithm; assumption.
  - apply free_can_use_algorithm; assumption.
  - split.
    + intros Halg. eapply create_job_algorithm_denied; eassumption.
    + intros Heq.
      destruct (User.can_use_algorithm now u method) eqn:Halg; [|reflexivity].
      destruct (create_job_answers C request u w) as (r & w' & Heq' & Hans).
      rewrite Heq in Heq'. injection Heq' as <- <-.
      inversion Hans as [ | | | | f' Hv Hd Hr | f' Hv Ha Hp Hr | f' n Hv Ha Hp Hrw Hr
                        | f' job w'' Hv Ha Hp Hrw Hst Hfr Hu Hj Hf Hjo Ht Hr Hw ];
        try (clash Hr); try (clash H); try (clash H0); try (clash H1); try (clash H2);
        try (clash H3).
      fold now method in Hd. congruence.
  - intros Halg. split; [reflexivity|].
    eexists. unfold algorithm_denied_response.
    assert (Hl : User.get_allowed_algorithms now u = User.allowed_algorithms u).
    { unfold User.can_use_algorithm, User.get_allowed_algorithms in *.
      destruct (User.is_premium now u
                || match User.allowed_algorithms u with [] => true | _ => false end);
        [|reflexivity].
      destruct (valid_method_cases method Hm) as [Hx|Hx]; rewrite Hx in Halg; discriminate. }
    rewrite Hl. reflexivity.
Qed.

Lemma create_job_inv C request u w r w' :
  create_job C request u w = (Ok r, w') -> answers C request u w r w'.
Proof.
  intros Heq. destruct (create_job_answers C request u w) as (r0 & w0 & Heq0 & Hans).
  rewrite Heq in Heq0. injection Heq0 as <- <-. exact Hans.
Qed.

Lemma valid_request_file request f f' :
  valid_request request f -> valid_request request f' -> f = f'.
Proof. intros (H & _) (H' & _). congruence. Qed.

(** C7. For a request that passes validation and the algorithm check, made
    by a user who is not premium: [create_job] answers with the
    project-limit denial (a 403, with the state untouched, so no job record)
    exactly when [max_projects > 0] and the number of distinct non-empty
    project names among the user's jobs is at least [max_projects]. A
    premium user, and a user with [max_projects = 0], never gets that
    answer, whatever the request. *)
Theorem project_limit_check C request u w f :
  valid_request request f ->
  User.can_use_algorithm (World.now w) u (mining_method_of request) = true ->
  (User.is_premium (World.now w) u = false ->
   (create_job C request u w = (Ok (project_limit_response (User.max_projects u)), w) <->
    User.max_projects u > 0 /\ project_count u w >= User.max_projects u)) /\
  status_code (project_limit_response (User.max_projects u)) = 403 /\
  (User.is_premium (World.now w) u = true \/ User.max_projects u = 0 ->
   forall r w' m, create_job C request u w = (Ok r, w') -> r <> project_limit_response m).
Proof.
  intros Hvalid Halg. split; [|split; [reflexivity|]].
  - intros Hfree. split.
    + intros Heq. apply create_job_inv in Heq.
      inversion Heq as [ | | | | f' Hv Hd Hr | f' Hv Ha Hp Hr | f' n Hv Ha Hp Hrw Hr
                       | f' job w'' Hv Ha Hp Hrw Hst Hfr Hu Hj Hf Hjo Ht Hr Hw ];
        try (clash Hr); try (clash H); try (clash H0); try (clash H1); try (clash H2).
      destruct Hp as (_ & Hmax & Hcount). split; assumption.
    + intros (Hmax & Hcount). eapply create_job_project_denied; try eassumption.
      repeat split; assumption.
  - intros Hfreeof r w' m Heq Hr. subst r. apply create_job_inv in Heq.
    inversion Heq as [ | | | | f' Hv Hd Hr | f' Hv Ha Hp Hr | f' n Hv Ha Hp Hrw Hr
                     | f' job w'' Hv Ha Hp Hrw Hst Hfr Hu Hj Hf Hjo Ht Hr Hw ];
      try (clash Hr); try (clash H); try (clash H0); try (clash H1); try (clash H2).
    destruct Hp as (Hfree & Hmax & _). destruct Hfreeof as [Hprem|Hzero]; [congruence|lia].
Qed.

Lemma prescan_bounded C content n df :
  0 <= n -> pd_read_csv C content (Some n) = Ok df -> len df <= n.
Proof.
  intros Hn H. unfold pd_read_csv in H.
  destruct (pd_parse_csv C content) as [all|e]; [|discriminate].
  injection H as <-. unfold len.
  pose proof (firstn_le_length (Z.to_nat n) all). lia.
Qed.

Lemma prescan_short_file C content n df :
  pd_parse_csv C content = Ok df -> len df <= n ->
  pd_read_csv C content (Some n) = Ok df.
Proof.
  intros H Hlen. unfold pd_read_csv. rewrite H. f_equal.
  apply firstn_all2. unfold len in Hlen. lia.
Qed.

Lemma prescan_long_file C content n df :
  0 <= n -> pd_parse_csv C content = Ok df -> n <= len df ->
  exists seen, pd_read_csv C content (Some n) = Ok seen /\ len seen = n.
Proof.
  intros Hn H Hlen. unfold pd_read_csv. rewrite H. eexists. split; [reflexivity|].
  unfold len in *. rewrite length_firstn. lia.
Qed.

(** C5. For a CSV upload that passes validation and the two earlier checks,
    by a user who is not premium: [create_job] answers 403 exactly when
    [max_log_rows > 0] and the pre-scan, which reads with
    [nrows = max_log_rows + 1] and so sees at most that many rows, sees more
    than [max_log_rows] rows; the denial carries the row count the pre-scan
    saw and leaves the state untouched. A file of exactly [max_log_rows]
    rows is accepted, and so is any file on which the pre-scan raises. A
    premium user's upload is accepted whatever its size. *)
Theorem row_limit_check C request u w f :
  valid_request request f ->
  Py.endswith (UploadedFile.name f) ".csv" = true ->
  User.can_use_algorithm (World.now w) u (mining_method_of request) = true ->
  ~ project_limit_reached u w ->
  let max_rows := User.max_log_rows u in
  let prescan := pd_read_csv C (UploadedFile.content f) (Some (max_rows + 1)) in
  let accepted := exists job w',
      create_job C request u w = (Ok (job_created_response (EventLogJob.id job)), w') /\
      stored_job w' (EventLogJob.id job) job in
  (User.is_premium (World.now w) u = false ->
   ((exists r w', create_job C request u w = (Ok r, w') /\ status_code r = 403) <->
    max_rows > 0 /\ exists seen, prescan = Ok seen /\ len seen > max_rows) /\
   (forall seen, max_rows > 0 -> prescan = Ok seen ->
      len seen <= max_rows + 1 /\
      (len seen > max_rows ->
       create_job C request u w = (Ok (row_limit_response (len seen) max_rows), w) /\
       exists message,
         row_limit_response (len seen) max_rows =
         JsonResponse
           [("error", JStr ("⚠️ Log size limit exceeded (" +:+
                            Py.format_thousands (len seen) +:+ " rows)."));
            ("message", message); upgrade_url] 403)) /\
   (forall df, pd_parse_csv C (UploadedFile.content f) = Ok df -> len df = max_rows ->
      accepted) /\
   (forall e, prescan = Raise e -> accepted)) /\
  (User.is_premium (World.now w) u = true -> accepted).
Proof.
  intros Hvalid Hcsv Halg Hproj max_rows prescan accepted.
  assert (Haccept : (forall n, ~ row_limit_exceeded C u w f n) -> accepted).
  { intros Hrows.
    destruct (create_job_accepts C request u w f Hvalid Halg Hproj Hrows)
      as (job & w' & Heq & Hst & _).
    exists job, w'. split; assumption. }
  split.
  - intros Hfree. split; [|split; [|split]].
    + split.
      * intros (r & w' & Heq & Hcode). apply create_job_inv in Heq.
        inversion Heq as [ | | | | f' Hv Hd Hr | f' Hv Ha Hp Hr | f' n Hv Ha Hp Hrw Hr
                         | f' job w'' Hv Ha Hp Hrw Hst Hfr Hu Hj Hf Hjo Ht Hr Hw ];
          subst r; try discriminate Hcode; try congruence; try contradiction.
        rewrite <- (valid_request_file _ _ _ Hvalid Hv) in Hrw.
        destruct Hrw as (_ & _ & Hmax & Hscan & Hn). split; [assumption|].
        unfold prescan_row_count in Hscan. fold max_rows prescan in Hscan.
        destruct prescan as [seen|e]; [|discriminate].
        injection Hscan as <-. exists seen. split; [reflexivity|assumption].
      * intros (Hmax & seen & Hscan & Hn).
        exists (row_limit_response (len seen) max_rows), w. split; [|reflexivity].
        eapply create_job_rows_denied; try eassumption.
        unfold row_limit_exceeded, prescan_row_count. fold max_rows prescan.
        rewrite Hscan. repeat split; assumption.
    + intros seen Hmax Hscan. split.
      * apply (prescan_bounded C (UploadedFile.content f)); [lia|assumption].
      * intros Hn. split; [|eexists; reflexivity].
        eapply create_job_rows_denied; try eassumption.
        unfold row_limit_exceeded, prescan_row_count. fold max_rows prescan.
        rewrite Hscan. repeat split; assumption.
    + intros df Hparse Hlen. apply Haccept.
      intros n (_ & _ & Hmax & Hscan & Hn).
      unfold prescan_row_count in Hscan. fold max_rows in Hscan.
      rewrite (prescan_short_file C _ _ df Hparse) in Hscan by lia.
      injection Hscan as <-. lia.
    + intros e Hscan. apply Haccept.
      intros n (_ & _ & _ & Hs & _).
      unfold prescan_row_count in Hs. fold max_rows prescan in Hs.
      rewrite Hscan in Hs. discriminate.
  - intros Hprem. apply Haccept. intros n (_ & H & _). congruence.
Qed.

(** C1. For a request of a logged-in user that passes validation, the
    quota checks decide in the order algorithm access, project limit, row
    limit: a failing algorithm check gives the algorithm denial whatever the
    other two would say, a failing project check gives the project denial
    whatever the row check would say, and the row denial comes last. Every
    denial is a 403. Whatever the request, a 403 leaves the whole state as
    it was (no job row, no stored file), and the state changes only when all
    three checks allowed. *)
Theorem quota_checks_order_and_atomicity C request u w f :
  valid_request request f ->
  let now := World.now w in
  let method := mining_method_of request in
  let algorithm_allowed := User.can_use_algorithm now u method in
  (algorithm_allowed = false ->
   create_job C request u w = (Ok (algorithm_denied_response now u method), w)) /\
  (algorithm_allowed = true -> project_limit_reached u w ->
   create_job C request u w = (Ok (project_limit_response (User.max_projects u)), w)) /\
  (algorithm_allowed = true -> ~ project_limit_reached u w ->
   forall n, row_limit_exceeded C u w f n ->
   create_job C request u w = (Ok (row_limit_response n (User.max_log_rows u)), w)) /\
  (status_code (algorithm_denied_response now u method) = 403 /\
   status_code (project_limit_response (User.max_projects u)) = 403 /\
   forall n, status_code (row_limit_response n (User.max_log_rows u)) = 403) /\
  (forall r w', create_job C request u w = (Ok r, w') ->
   (status_code r = 403 -> w' = w) /\
   (World.jobs w' <> World.jobs w \/ World.files w' <> World.files w ->
    algorithm_allowed = true /\
    ~ project_limit_reached u w /\
    (forall n, ~ row_limit_exceeded C u w f n))).
Proof.
  intros Hvalid now method algorithm_allowed.
  split; [|split; [|split; [|split]]].
  - intros Halg. eapply create_job_algorithm_denied; eassumption.
  - intros Halg Hproj. eapply create_job_project_denied; eassumption.
  - intros Halg Hproj n Hrows. eapply create_job_rows_denied; eassumption.
  - repeat split.
  - intros r w' Heq. apply create_job_inv in Heq.
    inversion Heq as [ | | | | f' Hv Hd Hr | f' Hv Ha Hp Hr | f' n Hv Ha Hp Hrw Hr
                     | f' job w'' Hv Ha Hp Hrw Hst Hfr Hu Hj Hf Hjo Ht Hr Hw ];
      subst; (split; [intros Hcode; try reflexivity; try discriminate Hcode
                     | intros [Hch|Hch]; try (exfalso; apply Hch; reflexivity)]).
    1,2: rewrite <- (valid_request_file _ _ _ Hvalid Hv) in Hrw;
         split; [assumption|split; assumption].
Qed.

(** ** Suffixes and letter case *)

Lemma list_ascii_of_string_app a b :
  list_ascii_of_string (a +:+ b) = (list_ascii_of_string a ++ list_ascii_of_string b)%list.
Proof. induction a as [|c a IH]; simpl; [reflexivity|]. rewrite <- IH. reflexivity. Qed.

Lemma string_of_list_ascii_app x y :
  string_of_list_ascii (x ++ y) = string_of_list_ascii x +:+ string_of_list_ascii y.
Proof. induction x as [|c x IH]; simpl; [reflexivity|]. rewrite IH. reflexivity. Qed.

Lemma rev_app a b : Py.rev (a +:+ b) = Py.rev b +:+ Py.rev a.
Proof.
  unfold Py.rev. rewrite list_ascii_of_string_app, rev_app_distr.
  apply string_of_list_ascii_app.
Qed.

Lemma rev_rev s : Py.rev (Py.rev s) = s.
Proof.
  unfold Py.rev. rewrite list_ascii_of_string_of_list_ascii, rev_involutive.
  apply string_of_list_ascii_of_string.
Qed.

Lemma length_string_of_list_ascii l :
  String.length (string_of_list_ascii l) = length l.
Proof. induction l as [|c l IH]; simpl; congruence. Qed.

Lemma length_list_ascii_of_string s :
  length (list_ascii_of_string s) = String.length s.
Proof. induction s as [|c s IH]; simpl; congruence. Qed.

Lemma length_rev s : String.length (Py.rev s) = String.length s.
Proof.
  unfold Py.rev.
  rewrite length_string_of_list_ascii, length_rev. apply length_list_ascii_of_string.
Qed.

Lemma length_lower s : String.length (Py.lower s) = String.length s.
Proof. induction s as [|c s IH]; simpl; congruence. Qed.

Lemma startswith_app x y p :
  String.length x = String.length p ->
  Py.startswith (x +:+ y) p = String.eqb x p.
Proof.
  revert p. induction x as [|c x IH]; intros [|d p] Hlen; try discriminate Hlen.
  - change ("" +:+ y) with y. destruct y; reflexivity.
  - change (String c x +:+ y) with (String c (x +:+ y)). simpl.
    rewrite IH by (simpl in Hlen; congruence). rewrite (Ascii.eqb_sym d c).
    destruct (Ascii.eqb c d); reflexivity.
Qed.

(** A name [stem ++ s] ends with [suffix], of the length of [s], exactly
    when [s] is [suffix]. *)
Lemma endswith_app stem s suffix :
  String.length s = String.length suffix ->
  Py.endswith (stem +:+ s) suffix = String.eqb s suffix.
Proof.
  intros Hlen. unfold Py.endswith. rewrite rev_app.
  rewrite startswith_app by (rewrite !length_rev; exact Hlen).
  destruct (String.eqb_spec s suffix) as [->|Hne].
  - apply String.eqb_refl.
  - apply String.eqb_neq. intros H. apply Hne.
    rewrite <- (rev_rev s), <- (rev_rev suffix). congruence.
Qed.

Lemma case_variant_rejected stem ext ext' :
  ext = ".csv" \/ ext = ".xes" ->
  Py.lower ext' = ext -> ext' <> ext ->
  extension_allowed (stem +:+ ext') = false /\ extension_allowed (stem +:+ ext) = true.
Proof.
  intros Hext Hlow Hne.
  assert (Hlen : String.length ext' = 4%nat).
  { rewrite <- (length_lower ext'), Hlow. destruct Hext; subst ext; reflexivity. }
  unfold extension_allowed.
  rewrite !endswith_app by (first [exact Hlen | destruct Hext; subst ext; reflexivity]).
  split.
  - apply orb_false_iff. split; apply String.eqb_neq; intros ->;
      destruct Hext; subst ext;
      first [ apply Hne; reflexivity | vm_compute in Hlow; discriminate Hlow ].
  - destruct Hext; subst ext; reflexivity.
Qed.

(** C9. The extension check of [create_job] compares the name as it is:
    an upload whose name ends in an upper- or mixed-case spelling [ext'] of
    [.csv] or [.xes] is answered with the 400 of the extension check and
    nothing is created, while the same upload named with the lower-case
    extension passes that check. *)
Theorem extension_check_case_sensitive C request u w f stem ext ext' :
  HttpRequest.FILES request !! "file" = Some f ->
  ext = ".csv" \/ ext = ".xes" ->
  Py.lower ext' = ext -> ext' <> ext ->
  UploadedFile.name f = stem +:+ ext' ->
  create_job C request u w = (Ok bad_extension_response, w) /\
  bad_extension_response =
    JsonResponse [("error", JStr "Only .xes and .csv files are supported")] 400 /\
  let renamed := UploadedFile.mk (stem +:+ ext) (UploadedFile.content f) in
  extension_allowed (UploadedFile.name renamed) = true /\
  forall r w',
    create_job C (HttpRequest.with_FILES {["file" := renamed]} request) u w = (Ok r, w') ->
    r <> bad_extension_response.
Proof.
  intros Hfile Hext Hlow Hne Hname.
  destruct (case_variant_rejected stem ext ext' Hext Hlow Hne) as (Hbad & Hgood).
  split; [|split; [reflexivity|split; [exact Hgood|]]].
  - eapply create_job_bad_extension; [eassumption|]. rewrite Hname. exact Hbad.
  - intros r w' Heq Hr. subst r. apply create_job_inv in Heq.
    inversion Heq as [ Hnone Hr | f' Hsome Hx Hr | | | f' Hv Hd Hr | f' Hv Ha Hp Hr
                     | f' n Hv Ha Hp Hrw Hr
                     | f' job w'' Hv Ha Hp Hrw Hst Hfr Hu Hj Hf Hjo Ht Hr Hw ];
      try (clash Hr); try (clash H); try (clash H0); try (clash H1); try (clash H2);
      try (clash H3).
    simpl in Hsome. rewrite lookup_singleton_eq in Hsome. injection Hsome as <-.
    simpl in Hx. congruence.
Qed.

Lemma create_job_reads_three_fields C request request' u :
  HttpRequest.FILES request' = HttpRequest.FILES request ->
  HttpRequest.POST request' !! "cleaning_enabled" = HttpRequest.POST request !! "cleaning_enabled" ->
  default "alpha" (HttpRequest.POST request' !! "mining_method") = mining_method_of request ->
  HttpRequest.POST request' !! "project_name" = HttpRequest.POST request !! "project_name" ->
  create_job C request' u = create_job C request u.
Proof.
  intros Hf Hc Hm Hp. unfold create_job, mining_method_of in *.
  rewrite Hf, Hc, Hm, Hp. reflexivity.
Qed.

(** C10. A request without a [mining_method] field is handled exactly as
    the same request with [mining_method = alpha] (so it is subject to the
    algorithm check for alpha) and is never answered with the 400 for an
    invalid mining method; that 400 is given only when the field is present
    with a value other than [alpha] and [heuristics], and it is given for
    every such value once the file and the project name are in order. *)
Theorem mining_method_defaults_to_alpha C request u w :
  (HttpRequest.POST request !! "mining_method" = None ->
   mining_method_of request = "alpha" /\
   create_job C request u w
   = create_job C (HttpRequest.with_POST
                     (<["mining_method" := "alpha"]> (HttpRequest.POST request)) request) u w /\
   forall r w', create_job C request u w = (Ok r, w') -> r <> invalid_method_response) /\
  (forall w', create_job C request u w = (Ok invalid_method_response, w') ->
   exists v, HttpRequest.POST request !! "mining_method" = Some v /\
             v <> "alpha" /\ v <> "heuristics") /\
  (forall f v, HttpRequest.FILES request !! "file" = Some f ->
   extension_allowed (UploadedFile.name f) = true ->
   project_name_of request <> "" ->
   HttpRequest.POST request !! "mining_method" = Some v ->
   v <> "alpha" -> v <> "heuristics" ->
   create_job C request u w = (Ok invalid_method_response, w)).
Proof.
  assert (Hinv : forall w', create_job C request u w = (Ok invalid_method_response, w') ->
                 Py.contains (mining_method_of request) valid_methods = false).
  { intros w' Heq. apply create_job_inv in Heq.
    inversion Heq as [ | | | f' Hsome Hx Hpn Hm Hr | f' Hv Hd Hr | f' Hv Ha Hp Hr
                     | f' n Hv Ha Hp Hrw Hr
                     | f' job w'' Hv Ha Hp Hrw Hst Hfr Hu Hj Hf Hjo Ht Hr Hw ];
      try (clash Hr); try (clash H); try (clash H0); try (clash H1); try (clash H2);
      try (clash H3).
    exact Hm. }
  split; [|split].
  - intros Hnone.
    assert (Hdef : mining_method_of request = "alpha")
      by (unfold mining_method_of; rewrite Hnone; reflexivity).
    split; [exact Hdef|split].
    + symmetry. apply (f_equal (fun m => m w)).
      apply create_job_reads_three_fields; simpl.
      * reflexivity.
      * apply lookup_insert_ne. discriminate.
      * rewrite lookup_insert_eq. symmetry. exact Hdef.
      * apply lookup_insert_ne. discriminate.
    + intros r w' Heq Hr. subst r. apply Hinv in Heq. rewrite Hdef in Heq. discriminate.
  - intros w' Heq. apply Hinv in Heq. unfold mining_method_of in Heq.
    destruct (HttpRequest.POST request !! "mining_method") as [v|]; [|discriminate].
    exists v. split; [reflexivity|]. simpl in Heq.
    split; intros ->; discriminate.
  - intros f v Hfile Hext Hpn Hsome Ha Hh.
    eapply create_job_invalid_method; try eassumption.
    unfold mining_method_of. rewrite Hsome. simpl.
    apply String.eqb_neq in Ha, Hh. unfold Py.contains. simpl.
    rewrite Ha, Hh. reflexivity.
Qed.

(** ** The claim about [job_status] *)

Lemma job_status_cases request u job_id w :
  (exists j, World.jobs w !! job_id = Some j /\ EventLogJob.user j = User.id u /\
             exists data, job_status request u job_id w = (Ok (JsonResponse data 200), w)) \/
  job_status request u job_id w = (Ok not_found_response, w).
Proof.
  unfold job_status, try_except, bind, objects_get_owned, ret.
  destruct (World.jobs w !! job_id) as [j|] eqn:Hj; [|right; reflexivity].
  destruct (Z.eqb_spec (EventLogJob.user j) (User.id u)) as [Hu|Hu]; [|right; reflexivity].
  left. exists j. split; [reflexivity|split; [assumption|]]. eexists. reflexivity.
Qed.

(** C8. [job_status] gives one and the same answer, the 404 whose body is
    only the generic error, with the state untouched, when no job has the
    id and when the job with the id belongs to another user; and it never
    answers 403. *)
Theorem job_status_not_found_for_foreign_jobs request u job_id w_absent w_foreign j :
  World.jobs w_absent !! job_id = None ->
  World.jobs w_foreign !! job_id = Some j ->
  EventLogJob.user j <> User.id u ->
  job_status request u job_id w_absent = (Ok not_found_response, w_absent) /\
  job_status request u job_id w_foreign = (Ok not_found_response, w_foreign) /\
  not_found_response = JsonResponse [("error", JStr "Job not found")] 404 /\
  (forall w r w', job_status request u job_id w = (r, w') ->
   exists response, r = Ok response /\ status_code response <> 403 /\ w' = w).
Proof.
  intros Habsent Hforeign Howner. split; [|split; [|split; [reflexivity|]]].
  - unfold job_status, try_except, bind, objects_get_owned. rewrite Habsent. reflexivity.
  - unfold job_status, try_except, bind, objects_get_owned. rewrite Hforeign.
    apply Z.eqb_neq in Howner. rewrite Howner. reflexivity.
  - intros w r w' Heq.
    destruct (job_status_cases request u job_id w)
      as [(j' & _ & _ & data & Hok)|Hnf]; rewrite Heq in *.
    + injection Hok as -> ->. eexists. split; [reflexivity|]. split; [discriminate|reflexivity].
    + injection Hnf as -> ->. eexists. split; [reflexivity|]. split; [discriminate|reflexivity].
Qed.

Lemma job_status_view_logged_in request u job_id :
  HttpRequest.method request = "GET" ->
  HttpRequest.user request = Some u ->
  job_status_view request job_id = job_status request u job_id.
Proof.
  intros Hm Hu. unfold job_status_view, require_http_methods, login_required.
  rewrite Hm, Hu. reflexivity.
Qed.

Lemma create_job_view_logged_in C request u :
  HttpRequest.method request = "POST" ->
  HttpRequest.user request = Some u ->
  create_job_view C request tt = create_job C request u.
Proof.
  intros Hm Hu. unfold create_job_view, require_http_methods, login_required.
  rewrite Hm, Hu. reflexivity.
Qed.

(** ** The job runner *)



Lemma convert_pnml_to_image_cases C pnml_path image_path out :
  convert_pnml_to_image C pnml_path image_path out =
  match pn_visualize C pnml_path image_path with
  | Ok _ => (Ok image_path, (out ++ graphviz_notice C)%list)
  | Raise e => (Raise (mkExc "Exception" ("Failed to convert PNML to SVG: " +:+ exc_msg e) ""),
                (out ++ graphviz_notice C)%list)
  end.
Proof.
  unfold convert_pnml_to_image, graphviz_notice, try_except, bind, of_result, echo, modify, ret, raise.
  destruct (graphviz_path_to_add C); destruct (pn_visualize C pnml_path image_path);
    rewrite ?app_nil_r; reflexivity.
Qed.

Lemma render_output_failed C job_id pnml_path j w e :
  pn_visualize C pnml_path (output_image_path job_id) = Raise e ->
  render_output C job_id pnml_path (Some j, w) =
  (Ok tt,
   (Some j,
    World.set_console
      (World.console w ++ graphviz_notice C ++
       render_warning (mkExc "Exception" ("Failed to convert PNML to SVG: " +:+ exc_msg e) ""))%list
      w)).
Proof.
  intros Hviz. unfold render_output, try_except.
  unfold bind at 1, in_world at 1, on_console at 1. cbn [fst snd].
  fold (output_image_path job_id).
  rewrite convert_pnml_to_image_cases, Hviz.
  unfold bind, in_world, print, on_console, echo, modify. cbn.
  rewrite <- !app_assoc. reflexivity.
Qed.

Lemma render_output_safe C job_id pnml_path j w :
  exists j' w',
    render_output C job_id pnml_path (Some j, w) = (Ok tt, (Some j', w')) /\
    World.jobs w' = World.jobs w /\
    World.journal w' = World.journal w /\
    World.now w' = World.now w /\
    (j' = j \/ exists stored, j' = EventLogJob.set_output_map_svg (Some stored) j).
Proof.
  unfold render_output, try_except.
  unfold bind at 1, in_world at 1, on_console at 1. cbn [fst snd].
  rewrite convert_pnml_to_image_cases.
  destruct (pn_visualize C pnml_path _) as [[]|e].
  - destruct (os_path_exists C _).
    + unfold bind at 1, of_result at 1.
      destruct (open_rb C _) as [content|e].
      * eexists _, _. split; [reflexivity|]. cbn. repeat split. right. eexists. reflexivity.
      * eexists _, _. split; [reflexivity|]. cbn. repeat split. left. reflexivity.
    + eexists _, _. split; [reflexivity|]. cbn. repeat split. left. reflexivity.
  - eexists _, _. split; [reflexivity|]. cbn. repeat split. left. reflexivity.
Qed.

Lemma bind_assoc {S A B D : Type} (m : M S A) (f : A -> M S B) (g : B -> M S D) s :
  bind (bind m f) g s = bind m (fun x => bind (f x) g) s.
Proof. unfold bind. destruct (m s) as [[a|e] s']; reflexivity. Qed.

Lemma bind_ret {S A B : Type} (a : A) (k : A -> M S B) s : bind (ret a) k s = k a s.
Proof. reflexivity. Qed.

Lemma bind_of_result_ok {S A B : Type} (r : Result A) (k : A -> M S B) s a :
  r = Ok a -> bind (of_result r) k s = k a s.
Proof. intros ->. reflexivity. Qed.

Lemma bind_of_result_raise {S A B : Type} (r : Result A) (k : A -> M S B) s e :
  r = Raise e -> bind (of_result r) k s = (Raise e, s).
Proof. intros ->. reflexivity. Qed.

Lemma bind_on_console {A B : Type} (m : M (list string) A) (k : A -> M Frame B) oj w r out :
  m (World.console w) = (r, out) ->
  bind (in_world (on_console m)) k (oj, w) =
  match r with
  | Ok a => k a (oj, World.set_console out w)
  | Raise e => (Raise e, (oj, World.set_console out w))
  end.
Proof. intros H. unfold bind, in_world, on_console. simpl. rewrite H. destruct r; reflexivity. Qed.

Lemma bind_update_job {B : Type} f (k : unit -> M Frame B) j w :
  bind (update_job f) k (Some j, w) = k tt (Some (f j), w).
Proof. reflexivity. Qed.

Lemma bind_job_save {B : Type} (k : unit -> M Frame B) j w :
  bind job_save k (Some j, w) =
  k tt (Some (EventLogJob.set_updated_at (World.now w) j),
        write_row (EventLogJob.set_updated_at (World.now w) j) w).
Proof. reflexivity. Qed.

Lemma job_save_last j w :
  job_save (Some j, w) =
  (Ok tt, (Some (EventLogJob.set_updated_at (World.now w) j),
           write_row (EventLogJob.set_updated_at (World.now w) j) w)).
Proof. reflexivity. Qed.

Lemma bind_the_job {B : Type} (k : EventLogJob.t -> M Frame B) j w :
  bind the_job k (Some j, w) = k j (Some j, w).
Proof. reflexivity. Qed.

Lemma bind_assign_job {B : Type} (k : unit -> M Frame B) j oj w :
  bind (assign_job j) k (oj, w) = k tt (Some j, w).
Proof. reflexivity. Qed.

Lemma bind_world_gets {A B : Type} (f : World.t -> A) (k : A -> M Frame B) oj w :
  bind (in_world (gets f)) k (oj, w) = k (f w) (oj, w).
Proof. reflexivity. Qed.

Lemma bind_objects_get {B : Type} job_id (k : EventLogJob.t -> M Frame B) oj w j :
  World.jobs w !! job_id = Some j ->
  bind (in_world (objects_get job_id)) k (oj, w) = k j (oj, w).
Proof. intros H. unfold bind, in_world, objects_get. simpl. rewrite H. reflexivity. Qed.


Lemma process_job_of_raise C job_id w e j w1 :
  process_job_try C job_id (None, w) = (Raise e, (Some j, w1)) ->
  process_job C job_id w = (Ok tt, write_row (failed (World.now w1) e j) w1).
Proof. intros H. unfold process_job, try_except. rewrite H. reflexivity. Qed.

Lemma process_job_of_ok C job_id w fr :
  process_job_try C job_id (None, w) = (Ok tt, fr) ->
  process_job C job_id w = (Ok tt, snd fr).
Proof. intros H. unfold process_job, try_except. rewrite H. reflexivity. Qed.

Lemma process_job_absent C job_id w :
  World.jobs w !! job_id = None -> process_job C job_id w = (Ok tt, w).
Proof.
  intros H. unfold process_job, try_except, process_job_try.
  unfold bind at 1, in_world at 1, objects_get. simpl. rewrite H. reflexivity.
Qed.

Lemma error_detail_not_empty a b : a +:+ nl +:+ b <> "".
Proof. destruct a; intros H; discriminate H. Qed.

Ltac tidy H :=
  cbv beta zeta in H;
  cbn [fst snd World.now World.files World.console World.jobs World.journal World.threads
       write_row World.set_journal World.set_jobs World.set_console World.set_files
       EventLogJob.id EventLogJob.user EventLogJob.original_file
       EventLogJob.original_filename EventLogJob.cleaning_enabled
       EventLogJob.mining_method
       EventLogJob.set_status EventLogJob.set_progress EventLogJob.set_message
       EventLogJob.set_error_message EventLogJob.set_output_map_svg
       EventLogJob.set_updated_at] in H.

Ltac step H :=
  first [ rewrite bind_update_job in H
        | rewrite bind_job_save in H
        | rewrite bind_the_job in H
        | rewrite bind_assign_job in H
        | rewrite bind_world_gets in H
        | rewrite bind_ret in H
        | rewrite job_save_last in H
        | rewrite bind_assoc in H ];
  tidy H.

(** Symbolic execution of [process_job_try] on a stored job, in a
    hypothesis [Hrun : result = process_job_try ...]. *)
Ltac enter_pipeline j w Hj Hdef Hrun loaded out Hload :=
  match goal with
  | |- context [process_job ?C ?job_id w] =>
      remember (process_job_try C job_id (None, w)) as result eqn:Hdef;
      pose proof Hdef as Hrun;
      unfold process_job_try in Hrun;
      rewrite (bind_objects_get _ _ _ _ _ Hj) in Hrun;
      repeat step Hrun;
      destruct (load_event_log C (World.files w) (EventLogJob.original_file j) (World.console w))
        as [loaded out] eqn:Hload;
      erewrite bind_on_console in Hrun by (exact Hload)
  end.

Ltac tidy_goal :=
  cbn [fst snd World.now World.files World.console World.jobs World.journal World.threads
       write_row World.set_journal World.set_jobs World.set_console World.set_files
       failed EventLogJob.id
       EventLogJob.set_status EventLogJob.set_progress EventLogJob.set_message
       EventLogJob.set_error_message EventLogJob.set_output_map_svg
       EventLogJob.set_updated_at].

Ltac other_rows_untouched :=
  intros; rewrite !lookup_insert_ne by congruence; reflexivity.

Ltac conclude_failed Hdef Hrun :=
  rewrite Hdef in Hrun; apply process_job_of_raise in Hrun;
  eexists _, _; split; [exact Hrun|];
  tidy_goal; split; [apply lookup_insert_eq|];
  split; [reflexivity|]; split; [reflexivity|]; split; [reflexivity|];
  split; [apply error_detail_not_empty | other_rows_untouched].

(** C3. When the load, clean or discover stage of a run on an existing job
    raises [e], [process_job] still returns normally (the exception does
    not leave it), the job's row ends in state [error] with progress 0 and
    an error message made of [str(e)], a blank line and the traceback of
    [e], which is never empty, and no row of another job is changed. *)
Theorem stage_exception_recorded C w job_id j e :
  stored_job w job_id j -> stage_raises C w j e ->
  exists w' j',
    process_job C job_id w = (Ok tt, w') /\
    World.jobs w' !! job_id = Some j' /\
    EventLogJob.status j' = Error /\
    EventLogJob.progress j' = 0 /\
    EventLogJob.error_message j' = exc_msg e +:+ nl +:+ nl +:+ format_exc e /\
    EventLogJob.error_message j' <> "" /\
    (forall other, other <> job_id -> World.jobs w' !! other = World.jobs w !! other).
Proof.
  intros (Hj & Hid) Hraise. subst job_id.
  enter_pipeline j w Hj Hdef Hrun loaded out Hload.
  inversion Hraise as [Hl | df Hl Hc Hr | df Hreach Hr].
  - rewrite Hload in Hl. simpl in Hl. subst loaded. conclude_failed Hdef Hrun.
  - rewrite Hload in Hl. simpl in Hl. subst loaded. repeat step Hrun. rewrite Hc in Hrun. repeat step Hrun.
    rewrite (bind_of_result_raise _ _ _ _ Hr) in Hrun. conclude_failed Hdef Hrun.
  - inversion Hreach as [df0 Hl Hc | df0 cleaned Hl Hc Hclean];
      rewrite Hload in Hl; simpl in Hl; subst loaded; try subst df0; try subst cleaned; repeat step Hrun; rewrite Hc in Hrun; repeat step Hrun.
    + rewrite (bind_of_result_raise _ _ _ _ Hr) in Hrun. conclude_failed Hdef Hrun.
    + rewrite (bind_of_result_ok _ _ _ _ Hclean) in Hrun. repeat step Hrun.
      rewrite (bind_of_result_raise _ _ _ _ Hr) in Hrun. conclude_failed Hdef Hrun.
Qed.

Lemma run_process_mining_ok C df method job_id pnml :
  run_process_mining C df method job_id = Ok pnml ->
  negb (String.eqb pnml "") && os_path_exists C pnml = true.
Proof.
  unfold run_process_mining.
  destruct (String.eqb method "alpha").
  - destruct (alpha_miner_service C df _); [|discriminate].
    destruct (os_path_exists C _) eqn:Hex; [|discriminate].
    intros H. injection H as <-. rewrite Hex. reflexivity.
  - destruct (String.eqb method "heuristics"); [|discriminate].
    destruct (heuristic_miner_service C df _); [|discriminate].
    destruct (os_path_exists C _) eqn:Hex; [|discriminate].
    intros H. injection H as <-. rewrite Hex. reflexivity.
Qed.

Lemma job_status_done request u job_id w j :
  World.jobs w !! job_id = Some j ->
  EventLogJob.user j = User.id u ->
  EventLogJob.status j = Done ->
  EventLogJob.get_output_url j = None ->
  job_status request u job_id w =
  (Ok (JsonResponse [("status", JStr "done");
                     ("progress", JInt (EventLogJob.progress j));
                     ("message", JStr (EventLogJob.message j));
                     ("redirect_url", JStr "/dashboard/")] 200), w).
Proof.
  intros Hj Hu Hs Hurl. unfold job_status, try_except, bind, objects_get_owned, ret.
  rewrite Hj, Hu, Z.eqb_refl, Hs, Hurl. reflexivity.
Qed.

Ltac job_field_through_setters :=
  cbn [EventLogJob.output_map_svg EventLogJob.output_map_image EventLogJob.user
       EventLogJob.status EventLogJob.progress EventLogJob.message
       EventLogJob.set_status EventLogJob.set_progress EventLogJob.set_message
       EventLogJob.set_error_message EventLogJob.set_output_map_svg
       EventLogJob.set_updated_at].

(** C4. A run on a job as the API created it, in which loading, cleaning
    (if requested) and discovery succeed, the PNML file opens, and the
    PNML-to-SVG conversion raises [e]: [process_job] returns normally, the
    warning with the text of the exception is printed, the row ends in
    state [done] with progress 100 and without an output image, nothing is
    written to the media storage, and [job_status] for the owner then
    answers 200 with status [done] and no [output_url]. *)
Theorem render_failure_tolerated C request u w job_id j df pnml content e :
  stored_job w job_id j ->
  fresh_job j ->
  EventLogJob.user j = User.id u ->
  reaches_discovery C w j df ->
  run_process_mining C df (EventLogJob.mining_method j) job_id = Ok pnml ->
  open_rb C pnml = Ok content ->
  pn_visualize C pnml (output_image_path job_id) = Raise e ->
  exists w' j',
    process_job C job_id w = (Ok tt, w') /\
    World.jobs w' !! job_id = Some j' /\
    EventLogJob.status j' = Done /\
    EventLogJob.progress j' = 100 /\
    EventLogJob.output_map_svg j' = None /\
    EventLogJob.output_map_image j' = None /\
    World.files w' = World.files w /\
    (exists before,
       World.console w' =
       (before ++ render_warning
                    (mkExc "Exception" ("Failed to convert PNML to SVG: " +:+ exc_msg e) ""))%list) /\
    let response :=
      JsonResponse [("status", JStr "done"); ("progress", JInt 100);
                    ("message", JStr "Processing complete!");
                    ("redirect_url", JStr "/dashboard/")] 200 in
    job_status request u job_id w' = (Ok response, w') /\
    has_key "output_url" response = false /\
    has_key "error_message" response = false.
Proof.
  intros (Hj & Hid) (_ & _ & Hsvg & Himg) Hu Hreach Hmine Hopen Hviz. subst job_id.
  pose proof (run_process_mining_ok _ _ _ _ _ Hmine) as Hexists.
  enter_pipeline j w Hj Hdef Hrun loaded out Hload.
  inversion Hreach as [df0 Hl Hc | df0 cleaned Hl Hc Hclean];
    rewrite Hload in Hl; simpl in Hl; subst loaded; try subst df0; try subst cleaned;
    repeat step Hrun; rewrite Hc in Hrun; repeat step Hrun;
    [|rewrite (bind_of_result_ok _ _ _ _ Hclean) in Hrun; repeat step Hrun].
  all: rewrite (bind_of_result_ok _ _ _ _ Hmine) in Hrun; repeat step Hrun;
    rewrite Hexists in Hrun; repeat step Hrun;
    rewrite (bind_of_result_ok _ _ _ _ Hopen) in Hrun; repeat step Hrun;
    rewrite (bind_ok _ _ _ _ _ (render_output_failed _ _ _ _ _ _ Hviz)) in Hrun;
    repeat step Hrun;
    rewrite Hdef in Hrun; apply process_job_of_ok in Hrun;
    match type of Hrun with
    | _ = (_, snd (Some ?jn, ?wn)) =>
        assert (Hrow : World.jobs wn !! EventLogJob.id j = Some jn)
          by (tidy_goal; apply lookup_insert_eq);
        assert (Hnone : EventLogJob.get_output_url jn = None)
          by (unfold EventLogJob.get_output_url; job_field_through_setters;
              rewrite Hsvg, Himg; reflexivity);
        exists wn, jn
    end;
    (split; [exact Hrun|]); (split; [exact Hrow|]);
    (split; [reflexivity|]); (split; [reflexivity|]);
    (split; [exact Hsvg|]); (split; [exact Himg|]);
    (split; [reflexivity|]);
    (split; [eexists; tidy_goal; rewrite app_assoc; reflexivity|]);
    (split; [|split; reflexivity]);
    rewrite (job_status_done request u _ _ _ Hrow Hu eq_refl Hnone); reflexivity.
Qed.

Ltac split_journal :=
  tidy_goal; rewrite (app_assoc (World.journal _) _ [_]); f_equal;
  rewrite <- ?app_assoc; reflexivity.

Ltac running_versions :=
  try match goal with
      | H : EventLogJob.progress _ = 0 |- _ => rewrite H
      end;
  cbn [app map]; job_field_through_setters; repeat constructor.

Ltac conclude_run_failed Hdef Hrun :=
  rewrite Hdef in Hrun; apply process_job_of_raise in Hrun;
  eexists _, _, _; split; [exact Hrun|];
  split; [split_journal|];
  split; [tidy_goal; apply lookup_insert_eq|];
  split; [running_versions|];
  split; [running_versions|];
  right; split; [reflexivity|]; split; [reflexivity|]; apply error_detail_not_empty.

Ltac conclude_run_done Hdef Hrun Hjournal Hj' :=
  rewrite Hdef in Hrun; apply process_job_of_ok in Hrun;
  destruct Hj' as [->|[stored ->]];
  (eexists _, _, _; split; [exact Hrun|];
   split; [tidy_goal; rewrite Hjournal; split_journal|];
   split; [tidy_goal; apply lookup_insert_eq|];
   split; [running_versions|];
   split; [running_versions|];
   left; split; [reflexivity|]; split; [reflexivity|];
   split; [reflexivity|running_versions]).

Ltac open_and_render C Hdef Hrun :=
  match type of Hrun with
  | context [of_result (open_rb C ?pnml)] =>
      let Hopen := fresh "Hopen" in
      destruct (open_rb C pnml) as [content|e] eqn:Hopen;
      [ first [rewrite (bind_of_result_ok _ _ _ _ Hopen) in Hrun | rewrite (bind_of_result_ok _ _ _ _ eq_refl) in Hrun]; repeat step Hrun;
        match type of Hrun with
        | context [bind (render_output C ?id pnml) _ (Some ?jk, ?wk)] =>
            let Hrender := fresh "Hrender" in
            let Hjournal := fresh "Hjournal" in
            let Hj' := fresh "Hj'" in
            destruct (render_output_safe C id pnml jk wk)
              as (j' & w2 & Hrender & _ & Hjournal & _ & Hj');
            rewrite (bind_ok _ _ _ _ _ Hrender) in Hrun; repeat step Hrun;
            conclude_run_done Hdef Hrun Hjournal Hj'
        end
      | first [rewrite (bind_of_result_raise _ _ _ _ Hopen) in Hrun | rewrite (bind_of_result_raise _ _ _ _ eq_refl) in Hrun];
        conclude_run_failed Hdef Hrun ]
  end.

Ltac discover C Hdef Hrun :=
  match type of Hrun with
  | context [of_result (run_process_mining C ?df ?method ?id)] =>
      let Hmine := fresh "Hmine" in
      destruct (run_process_mining C df method id) as [pnml|e] eqn:Hmine;
      [ first [rewrite (bind_of_result_ok _ _ _ _ Hmine) in Hrun | rewrite (bind_of_result_ok _ _ _ _ eq_refl) in Hrun]; repeat step Hrun;
        rewrite (run_process_mining_ok _ _ _ _ _ Hmine) in Hrun; repeat step Hrun;
        open_and_render C Hdef Hrun
      | first [rewrite (bind_of_result_raise _ _ _ _ Hmine) in Hrun | rewrite (bind_of_result_raise _ _ _ _ eq_refl) in Hrun];
        conclude_run_failed Hdef Hrun ]
  end.

(** C2. A run of [process_job] on a job as the API created it (pending,
    progress 0) writes the row a number of times in state [running] and
    then once more in a terminal state. The progress values written while
    running are strictly increasing, starting above the 0 of creation. The
    terminal write is either [done] with progress exactly 100, after the
    checkpoints 10, 30, (40, 60 when cleaning was requested,) 70, 90, which
    with the final 100 are strictly increasing; or [error] with progress
    exactly 0 and a non-empty error message. *)
Theorem progress_checkpoints C w job_id j :
  stored_job w job_id j ->
  fresh_job j ->
  exists w' running last,
    process_job C job_id w = (Ok tt, w') /\
    World.journal w' = (World.journal w ++ running ++ [last])%list /\
    World.jobs w' !! job_id = Some last /\
    Forall (fun v => EventLogJob.status v = Running) running /\
    strictly_increasing (EventLogJob.progress j :: map EventLogJob.progress running) /\
    ((EventLogJob.status last = Done /\
      EventLogJob.progress last = 100 /\
      map EventLogJob.progress running =
        ([10; 30] ++ (if EventLogJob.cleaning_enabled j then [40; 60] else []) ++ [70; 90])%list /\
      strictly_increasing (map EventLogJob.progress (running ++ [last]))) \/
     (EventLogJob.status last = Error /\
      EventLogJob.progress last = 0 /\
      EventLogJob.error_message last <> "")).
Proof.
  intros (Hj & Hid) (Hpending & Hzero & _). subst job_id.
  enter_pipeline j w Hj Hdef Hrun loaded out Hload.
  destruct loaded as [df|e]; [|conclude_run_failed Hdef Hrun].
  repeat step Hrun.
  destruct (EventLogJob.cleaning_enabled j) eqn:Hc; repeat step Hrun.
  - destruct (run_smart_clean C df) as [cleaned|e] eqn:Hclean.
    + first [rewrite (bind_of_result_ok _ _ _ _ Hclean) in Hrun | rewrite (bind_of_result_ok _ _ _ _ eq_refl) in Hrun]. repeat step Hrun.
      discover C Hdef Hrun.
    + first [rewrite (bind_of_result_raise _ _ _ _ Hclean) in Hrun | rewrite (bind_of_result_raise _ _ _ _ eq_refl) in Hrun].
      conclude_run_failed Hdef Hrun.
  - discover C Hdef Hrun.
Qed.

(** ** The claims on a concrete installation *)

Ltac evaluate :=
  first [ vm_compute; reflexivity
        | vm_compute; discriminate
        | let H := fresh in intros H; vm_compute in H; discriminate H
        | let H := fresh in intros H; vm_compute in H; apply H; reflexivity ].

Lemma demo_request_heuristics_valid : valid_request Demo.request_heuristics Demo.file_a.
Proof. repeat split; evaluate. Defined.

Lemma demo_request_big_valid : valid_request Demo.request_big Demo.file_big.
Proof. repeat split; evaluate. Defined.

Lemma demo_request_a_valid : valid_request Demo.request_a Demo.file_a.
Proof. repeat split; evaluate. Defined.

Lemma demo_job_1_stored : stored_job Demo.world_1 1 Demo.job_1.
Proof. split; evaluate. Defined.

Lemma demo_job_1_fresh : fresh_job Demo.job_1.
Proof. repeat split. Defined.

Lemma demo_free_user_below_project_limit : ~ project_limit_reached Demo.free_user Demo.world_1.
Proof. intros (_ & _ & H). vm_compute in H. apply H. reflexivity. Defined.

Lemma demo_job_1_reaches_discovery :
  reaches_discovery (Demo.collaborators false) Demo.world_1 Demo.job_1 Demo.frame_a.
Proof. apply reach_cleaned with (df := Demo.frame_a); evaluate. Defined.

Lemma quota_checks_order_and_atomicity_witness :
  valid_request Demo.request_heuristics Demo.file_a /\
  create_job (Demo.collaborators true) Demo.request_heuristics Demo.free_user Demo.world_1
  = (Ok (algorithm_denied_response 1000 Demo.free_user "heuristics"), Demo.world_1).
Proof.
  split; [exact demo_request_heuristics_valid|].
  destruct (quota_checks_order_and_atomicity (Demo.collaborators true)
              Demo.request_heuristics Demo.free_user Demo.world_1 Demo.file_a
              demo_request_heuristics_valid) as (Hfirst & _).
  apply Hfirst. vm_compute. reflexivity.
Defined.

Lemma progress_checkpoints_witness :
  stored_job Demo.world_1 1 Demo.job_1 /\ fresh_job Demo.job_1 /\
  exists w' running last,
    process_job (Demo.collaborators true) 1 Demo.world_1 = (Ok tt, w') /\
    World.journal w' = (World.journal Demo.world_1 ++ running ++ [last])%list /\
    strictly_increasing (0 :: map EventLogJob.progress running).
Proof.
  split; [exact demo_job_1_stored|]. split; [exact demo_job_1_fresh|].
  destruct (progress_checkpoints (Demo.collaborators true) Demo.world_1 1 Demo.job_1
              demo_job_1_stored demo_job_1_fresh)
    as (w' & running & last & Hrun & Hjournal & _ & _ & Hsorted & _).
  exists w', running, last. split; [exact Hrun|]. split; [exact Hjournal|exact Hsorted].
Defined.

Lemma stage_exception_recorded_witness :
  stored_job Demo.world_empty_upload 1 Demo.job_empty_upload /\
  stage_raises (Demo.collaborators true) Demo.world_empty_upload Demo.job_empty_upload
    Demo.EmptyDataError /\
  exists w' j',
    process_job (Demo.collaborators true) 1 Demo.world_empty_upload = (Ok tt, w') /\
    World.jobs w' !! 1 = Some j' /\
    EventLogJob.status j' = Error /\
    EventLogJob.progress j' = 0.
Proof.
  assert (Hstored : stored_job Demo.world_empty_upload 1 Demo.job_empty_upload)
    by (split; evaluate).
  assert (Hraises : stage_raises (Demo.collaborators true) Demo.world_empty_upload
                      Demo.job_empty_upload Demo.EmptyDataError)
    by (apply load_raises; evaluate).
  split; [exact Hstored|]. split; [exact Hraises|].
  destruct (stage_exception_recorded _ _ _ _ _ Hstored Hraises)
    as (w' & j' & Hrun & Hrow & Hstatus & Hprogress & _).
  exists w', j'. repeat split; assumption.
Defined.

Lemma render_failure_tolerated_witness :
  stored_job Demo.world_1 1 Demo.job_1 /\
  pn_visualize (Demo.collaborators false) "media/process_maps/1/alpha_job_1.pnml"
    (output_image_path 1) = Raise Demo.ExecutableNotFound /\
  exists w' j',
    process_job (Demo.collaborators false) 1 Demo.world_1 = (Ok tt, w') /\
    World.jobs w' !! 1 = Some j' /\
    EventLogJob.status j' = Done /\
    EventLogJob.progress j' = 100 /\
    EventLogJob.output_map_svg j' = None.
Proof.
  split; [exact demo_job_1_stored|]. split; [evaluate|].
  destruct (render_failure_tolerated (Demo.collaborators false) Demo.request_a
              Demo.other_user Demo.world_1 1 Demo.job_1 Demo.frame_a
              "media/process_maps/1/alpha_job_1.pnml" "<svg/>" Demo.ExecutableNotFound
              demo_job_1_stored demo_job_1_fresh)
    as (w' & j' & Hrun & Hrow & Hstatus & Hprogress & Hsvg & _);
    [evaluate | exact demo_job_1_reaches_discovery | evaluate | evaluate | evaluate |].
  exists w', j'. repeat split; assumption.
Defined.

Lemma row_limit_check_witness :
  valid_request Demo.request_big Demo.file_big /\
  create_job (Demo.collaborators true) Demo.request_big Demo.free_user Demo.world_1
  = (Ok (row_limit_response 4 3), Demo.world_1).
Proof.
  split; [exact demo_request_big_valid|].
  destruct (row_limit_check (Demo.collaborators true) Demo.request_big Demo.free_user
              Demo.world_1 Demo.file_big demo_request_big_valid)
    as (Hfree & _); [evaluate | evaluate | exact demo_free_user_below_project_limit |].
  destruct Hfree as (_ & Hdenied & _); [evaluate|].
  destruct (Hdenied [["1,a"]; ["1,b"]; ["2,a"]; ["2,b"]]) as (_ & Hrows);
    [vm_compute; reflexivity | evaluate |].
  apply Hrows. vm_compute. reflexivity.
Defined.

Lemma algorithm_access_check_witness :
  valid_request Demo.request_heuristics Demo.file_a /\
  User.can_use_algorithm 1000 Demo.free_user "heuristics" = false /\
  User.can_use_algorithm 1000 Demo.premium_user "heuristics" = true.
Proof.
  split; [exact demo_request_heuristics_valid|]. split; [evaluate|].
  destruct (algorithm_access_check (Demo.collaborators true) Demo.request_heuristics
              Demo.premium_user Demo.world_1 Demo.file_a demo_request_heuristics_valid)
    as (Hpremium & _).
  apply Hpremium. vm_compute. reflexivity.
Defined.

Lemma project_limit_check_witness :
  valid_request Demo.request_a Demo.file_a /\
  create_job (Demo.collaborators true) Demo.request_a Demo.one_project_user Demo.world_2
  = (Ok (project_limit_response 1), Demo.world_2).
Proof.
  split; [exact demo_request_a_valid|].
  destruct (project_limit_check (Demo.collaborators true) Demo.request_a
              Demo.one_project_user Demo.world_2 Demo.file_a demo_request_a_valid)
    as (Hfree & _); [evaluate|].
  apply Hfree; [evaluate|]. split; evaluate.
Defined.

Lemma job_status_not_found_for_foreign_jobs_witness :
  World.jobs Demo.empty_world !! 1 = None /\
  World.jobs Demo.world_1 !! 1 = Some Demo.job_1 /\
  EventLogJob.user Demo.job_1 <> User.id Demo.free_user /\
  fst (job_status Demo.request_a Demo.free_user 1 Demo.empty_world)
  = fst (job_status Demo.request_a Demo.free_user 1 Demo.world_1).
Proof.
  assert (Habsent : World.jobs Demo.empty_world !! 1 = None) by evaluate.
  assert (Hforeign : World.jobs Demo.world_1 !! 1 = Some Demo.job_1) by evaluate.
  assert (Howner : EventLogJob.user Demo.job_1 <> User.id Demo.free_user) by evaluate.
  split; [exact Habsent|]. split; [exact Hforeign|]. split; [exact Howner|].
  destruct (job_status_not_found_for_foreign_jobs Demo.request_a Demo.free_user 1
              Demo.empty_world Demo.world_1 Demo.job_1 Habsent Hforeign Howner)
    as (H1 & H2 & _).
  rewrite H1, H2. reflexivity.
Defined.

Lemma extension_check_case_sensitive_witness :
  HttpRequest.FILES Demo.request_upper !! "file" = Some Demo.file_upper /\
  create_job (Demo.collaborators true) Demo.request_upper Demo.premium_user Demo.empty_world
  = (Ok bad_extension_response, Demo.empty_world).
Proof.
  assert (Hfile : HttpRequest.FILES Demo.request_upper !! "file" = Some Demo.file_upper)
    by evaluate.
  split; [exact Hfile|].
  destruct (extension_check_case_sensitive (Demo.collaborators true) Demo.request_upper
              Demo.premium_user Demo.empty_world Demo.file_upper "LOG" ".csv" ".CSV" Hfile)
    as (Hrejected & _); [left; reflexivity | evaluate | evaluate | evaluate |].
  exact Hrejected.
Defined.

(** ** Evaluations *)

Example title_alpha : Py.title "alpha" = "Alpha".
Proof. reflexivity. Qed.

Example title_words : Py.title "heuRistics miner" = "Heuristics Miner".
Proof. reflexivity. Qed.

Example strip_spaces : Py.strip "  my project  " = "my project".
Proof. reflexivity. Qed.

Example endswith_csv : Py.endswith "log.csv" ".csv" = true.
Proof. reflexivity. Qed.

Example endswith_CSV : Py.endswith "LOG.CSV" ".csv" = false.
Proof. reflexivity. Qed.

Example thousands_1001 : Py.format_thousands 1001 = "1,001".
Proof. vm_compute. reflexivity. Qed.

Example thousands_million : Py.format_thousands 1234567 = "1,234,567".
Proof. vm_compute. reflexivity. Qed.

Example thousands_small : Py.format_thousands 999 = "999".
Proof. vm_compute. reflexivity. Qed.

Example repr_methods : Py.repr_list ["alpha"; "heuristics"] = "['alpha', 'heuristics']".
Proof. reflexivity. Qed.

(** A free user with the default limit of 1000 rows: 1001 rows are
    refused with the count in the message, 1000 rows are accepted. *)
Example upload_1001_rows :
  fst (create_job (Demo.collaborators true)
         (Demo.upload "log.csv" (Demo.csv (repeat "1,a" 1001))
            [("project_name", "orders"); ("mining_method", "alpha")])
         Demo.other_user Demo.empty_world)
  = Ok (JsonResponse
          [("error", JStr "⚠️ Log size limit exceeded (1,001 rows).");
           ("message", JStr "Your plan allows up to 1,000 rows. Please upgrade to Premium for unlimited log size.");
           ("upgrade_url", JStr "/accounts/activate-license/")] 403).
Proof. vm_compute. reflexivity. Qed.

Example upload_1000_rows :
  fst (create_job (Demo.collaborators true)
         (Demo.upload "log.csv" (Demo.csv (repeat "1,a" 1000))
            [("project_name", "orders"); ("mining_method", "alpha")])
         Demo.other_user Demo.empty_world)
  = Ok (job_created_response 1).
Proof. vm_compute. reflexivity. Qed.

(** A file far above the limit is reported with the rows the pre-scan
    read, one more than the limit. *)
Example upload_5_rows_limit_3 :
  fst (create_job (Demo.collaborators true) Demo.request_big Demo.free_user Demo.world_1)
  = Ok (row_limit_response 4 3).
Proof. vm_compute. reflexivity. Qed.

(** A run with cleaning and a working renderer passes every checkpoint
    and stores the picture. *)
Example full_run_checkpoints :
  map EventLogJob.progress
    (World.journal (snd (process_job (Demo.collaborators true) 1 Demo.world_1)))
  = [0; 10; 30; 40; 60; 70; 90; 100].
Proof. vm_compute. reflexivity. Qed.

Example full_run_status :
  fst (job_status Demo.request_a Demo.other_user 1
         (snd (process_job (Demo.collaborators true) 1 Demo.world_1)))
  = Ok (JsonResponse
          [("status", JStr "done"); ("progress", JInt 100);
           ("message", JStr "Processing complete!");
           ("redirect_url", JStr "/dashboard/");
           ("output_url", JStr "/media/outputs/process_maps/%Y/%m/%d/1_alpha_job_1.svg")] 200).
Proof. vm_compute. reflexivity. Qed.

Example failed_run_checkpoints :
  map (fun v => (EventLogJob.status v, EventLogJob.progress v))
    (World.journal (snd (process_job (Demo.collaborators true) 1 Demo.world_empty_upload)))
  = [(Pending, 0); (Running, 10); (Error, 0)].
Proof. vm_compute. reflexivity. Qed.

Example upper_case_extension_rejected :
  fst (create_job (Demo.collaborators true) Demo.request_upper Demo.premium_user Demo.empty_world)
  = Ok bad_extension_response.
Proof. vm_compute. reflexivity. Qed.

Example missing_method_accepted :
  fst (create_job (Demo.collaborators true)
         (Demo.upload "log.csv" (Demo.csv ["1,a"]) [("project_name", "orders")])
         Demo.free_user Demo.empty_world)
  = Ok (job_created_response 1).
Proof. vm_compute. reflexivity. Qed.

Example empty_method_rejected :
  fst (create_job (Demo.collaborators true)
         (Demo.upload "log.csv" (Demo.csv ["1,a"])
            [("project_name", "orders"); ("mining_method", "")])
         Demo.free_user Demo.empty_world)
  = Ok invalid_method_response.
Proof. vm_compute. reflexivity. Qed.

(** * Further properties of the modelled code *)

(** ** [process_job] on any row *)

Lemma render_output_keeps C job_id pnml_path j w :
  exists j' w',
    render_output C job_id pnml_path (Some j, w) = (Ok tt, (Some j', w')) /\
    (World.jobs w' = World.jobs w /\
     World.journal w' = World.journal w /\
     World.now w' = World.now w /\
     World.threads w' = World.threads w) /\
    (j' = j \/ exists stored, j' = EventLogJob.set_output_map_svg (Some stored) j).
Proof.
  unfold render_output, try_except.
  unfold bind at 1, in_world at 1, on_console at 1. cbn [fst snd].
  rewrite convert_pnml_to_image_cases.
  destruct (pn_visualize C pnml_path _) as [[]|e].
  - destruct (os_path_exists C _).
    + unfold bind at 1, of_result at 1.
      destruct (open_rb C _) as [content|e].
      * eexists _, _. split; [reflexivity|]. cbn. repeat split. right. eexists. reflexivity.
      * eexists _, _. split; [reflexivity|]. cbn. repeat split. left. reflexivity.
    + eexists _, _. split; [reflexivity|]. cbn. repeat split. left. reflexivity.
  - eexists _, _. split; [reflexivity|]. cbn. repeat split. left. reflexivity.
Qed.

(** Every path of a run on the row [j] found under [job_id]: [failed] closes
    the goal from [Hrun] when the [try] block raised, [finished] when it
    ran to its end ([Hkeep], [Hj'] describe what the rendering block did). *)
Ltac rewrite_ok Hrun H :=
  first [ rewrite (bind_of_result_ok _ _ _ _ H) in Hrun
        | rewrite (bind_of_result_ok _ _ _ _ eq_refl) in Hrun ].

Ltac rewrite_raise Hrun H :=
  first [ rewrite (bind_of_result_raise _ _ _ _ H) in Hrun
        | rewrite (bind_of_result_raise _ _ _ _ eq_refl) in Hrun ].

Ltac explore_render C Hrun failed finished :=
  match type of Hrun with
  | context [of_result (open_rb C ?pnml)] =>
      let Hopen := fresh "Hopen" in
      destruct (open_rb C pnml) as [content|e] eqn:Hopen;
      [ rewrite_ok Hrun Hopen; repeat step Hrun;
        match type of Hrun with
        | context [bind (render_output C ?id pnml) _ (Some ?jk, ?wk)] =>
            let Hrender := fresh "Hrender" in
            let Hkeep := fresh "Hkeep" in
            let Hj' := fresh "Hj'" in
            destruct (render_output_keeps C id pnml jk wk)
              as (j' & w2 & Hrender & Hkeep & Hj');
            rewrite (bind_ok _ _ _ _ _ Hrender) in Hrun; repeat step Hrun;
            finished Hkeep Hj'
        end
      | rewrite_raise Hrun Hopen; failed ]
  end.

Ltac explore_discovery C Hrun failed finished :=
  match type of Hrun with
  | context [of_result (run_process_mining C ?df ?method ?id)] =>
      let Hmine := fresh "Hmine" in
      destruct (run_process_mining C df method id) as [pnml|e] eqn:Hmine;
      [ rewrite_ok Hrun Hmine; repeat step Hrun;
        rewrite (run_process_mining_ok _ _ _ _ _ Hmine) in Hrun; repeat step Hrun;
        explore_render C Hrun failed finished
      | rewrite_raise Hrun Hmine; failed ]
  end.

Ltac explore_run C j w Hj Hdef Hrun failed finished :=
  let loaded := fresh "loaded" in
  let out := fresh "out" in
  let Hload := fresh "Hload" in
  let Hc := fresh "Hc" in
  let Hclean := fresh "Hclean" in
  enter_pipeline j w Hj Hdef Hrun loaded out Hload;
  destruct loaded as [df|e]; [|failed];
  repeat step Hrun;
  destruct (EventLogJob.cleaning_enabled j) eqn:Hc; repeat step Hrun;
  [ destruct (run_smart_clean C df) as [cleaned|e] eqn:Hclean;
    [ rewrite_ok Hrun Hclean; repeat step Hrun; explore_discovery C Hrun failed finished
    | rewrite_raise Hrun Hclean; failed ]
  | explore_discovery C Hrun failed finished ].

Ltac collapse_writes :=
  tidy_goal; rewrite ?insert_insert_eq; reflexivity.

(** X1. Whatever the collaborators do and whatever the table holds,
    [process_job] returns normally: no exception leaves it. It starts no
    thread, leaves the clock alone, and changes at most the row whose key
    is the id of the job it loaded; when no job has the id it changes
    nothing at all. *)
Theorem process_job_always_returns C job_id w :
  exists w',
    process_job C job_id w = (Ok tt, w') /\
    World.threads w' = World.threads w /\
    World.now w' = World.now w /\
    (World.jobs w !! job_id = None -> w' = w) /\
    (forall j, World.jobs w !! job_id = Some j ->
     forall other, other <> EventLogJob.id j ->
     World.jobs w' !! other = World.jobs w !! other).
Proof.
  destruct (World.jobs w !! job_id) as [j|] eqn:Hj.
  2:{ exists w. split; [apply process_job_absent; exact Hj|].
      repeat split; intros; discriminate. }
  assert (Hgoal : exists w', process_job C job_id w = (Ok tt, w') /\
            World.threads w' = World.threads w /\
            World.now w' = World.now w /\
            forall other, other <> EventLogJob.id j ->
                          World.jobs w' !! other = World.jobs w !! other).
  { explore_run C j w Hj Hdef Hrun
      ltac:(rewrite Hdef in Hrun; apply process_job_of_raise in Hrun;
            eexists; split; [exact Hrun|];
            split; [reflexivity|]; split; [reflexivity|];
            tidy_goal; other_rows_untouched)
      ltac:(fun Hkeep Hj' =>
            rewrite Hdef in Hrun; apply process_job_of_ok in Hrun;
            destruct Hkeep as (Hjobs & _ & Hnow & Hthreads);
            destruct Hj' as [->|[stored ->]];
            (eexists; split; [exact Hrun|];
             split; [tidy_goal; rewrite Hthreads; reflexivity|];
             split; [tidy_goal; rewrite Hnow; reflexivity|];
             tidy_goal; rewrite Hjobs; tidy_goal; other_rows_untouched)). }
  destruct Hgoal as (w' & Hrun & Hthreads & Hnow & Hother).
  exists w'. split; [exact Hrun|]. split; [exact Hthreads|]. split; [exact Hnow|].
  split; [intros; discriminate|].
  intros j0 Hj0. injection Hj0 as <-. exact Hother.
Qed.

Ltac inputs_kept := repeat split; reflexivity.

(** A run rewrites the row it is given and keeps its owner and project. *)
Lemma process_job_on_row C job_id w j :
  World.jobs w !! job_id = Some j ->
  exists w' last,
    process_job C job_id w = (Ok tt, w') /\
    World.jobs w' = <[EventLogJob.id j := last]> (World.jobs w) /\
    EventLogJob.id last = EventLogJob.id j /\
    EventLogJob.user last = EventLogJob.user j /\
    EventLogJob.project_name last = EventLogJob.project_name j.
Proof.
  intros Hj.
  explore_run C j w Hj Hdef Hrun
    ltac:(rewrite Hdef in Hrun; apply process_job_of_raise in Hrun;
          eexists _, _; split; [exact Hrun|];
          split; [collapse_writes|];
          repeat split; reflexivity)
    ltac:(fun Hkeep Hj' =>
          rewrite Hdef in Hrun; apply process_job_of_ok in Hrun;
          destruct Hkeep as (Hjobs & _ & _ & _);
          destruct Hj' as [->|[stored ->]];
          (eexists _, _; split; [exact Hrun|];
           split; [tidy_goal; rewrite Hjobs; collapse_writes|];
           repeat split; reflexivity)).
Qed.

(** X2. A run on an existing row, in whatever state that row is, leaves
    the table as it was except for that row, which ends in a terminal
    state: [done] with progress 100 or [error] with progress 0 and the
    message [Processing failed]. Owner, stored file, file name, project
    name, cleaning flag, mining method, PNG output and creation time of
    the row are those it had before. *)
Theorem process_job_keeps_inputs C job_id w j :
  World.jobs w !! job_id = Some j ->
  exists w' last,
    process_job C job_id w = (Ok tt, w') /\
    World.jobs w' = <[EventLogJob.id j := last]> (World.jobs w) /\
    same_inputs last j /\
    ((EventLogJob.status last = Done /\ EventLogJob.progress last = 100 /\
      EventLogJob.message last = "Processing complete!" /\
      EventLogJob.error_message last = EventLogJob.error_message j) \/
     (EventLogJob.status last = Error /\ EventLogJob.progress last = 0 /\
      EventLogJob.message last = "Processing failed" /\
      EventLogJob.output_map_svg last = EventLogJob.output_map_svg j)).
Proof.
  intros Hj.
  explore_run C j w Hj Hdef Hrun
    ltac:(rewrite Hdef in Hrun; apply process_job_of_raise in Hrun;
          eexists _, _; split; [exact Hrun|];
          split; [collapse_writes|];
          split; [inputs_kept|];
          right; repeat split; reflexivity)
    ltac:(fun Hkeep Hj' =>
          rewrite Hdef in Hrun; apply process_job_of_ok in Hrun;
          destruct Hkeep as (Hjobs & _ & _ & _);
          destruct Hj' as [->|[stored ->]];
          (eexists _, _; split; [exact Hrun|];
           split; [tidy_goal; rewrite Hjobs; collapse_writes|];
           split; [inputs_kept|];
           left; repeat split; reflexivity)).
Qed.

(** X3. [process_job] does not look at the state of the job it is given:
    also on a row that is already [done], [error] or [running] it first
    writes the row as [running] with progress 10, and then at least once
    more. A second run on a finished job therefore takes its progress back
    from 100 (or 0) to 10. *)
Theorem process_job_starts_over C job_id w j :
  World.jobs w !! job_id = Some j ->
  exists w' rest,
    process_job C job_id w = (Ok tt, w') /\
    World.journal w' =
      (World.journal w ++
       EventLogJob.set_updated_at (World.now w)
         (EventLogJob.set_message "Loading event log file..."
            (EventLogJob.set_progress 10 (EventLogJob.set_status Running j))) :: rest)%list /\
    rest <> [].
Proof.
  intros Hj.
  explore_run C j w Hj Hdef Hrun
    ltac:(rewrite Hdef in Hrun; apply process_job_of_raise in Hrun;
          eexists _, _; split; [exact Hrun|];
          split; [tidy_goal; rewrite <- ?app_assoc; cbn [app]; reflexivity|discriminate])
    ltac:(fun Hkeep Hj' =>
          rewrite Hdef in Hrun; apply process_job_of_ok in Hrun;
          destruct Hkeep as (_ & Hjournal & _ & _);
          (eexists _, _; split; [exact Hrun|];
           split; [tidy_goal; rewrite Hjournal; tidy_goal;
                   rewrite <- ?app_assoc; cbn [app]; reflexivity|discriminate])).
Qed.

(** ** Defence in depth of the runner *)


Lemma job_status_error request u job_id w j :
  World.jobs w !! job_id = Some j ->
  EventLogJob.user j = User.id u ->
  EventLogJob.status j = Error ->
  job_status request u job_id w =
  (Ok (JsonResponse [("status", JStr "error");
                     ("progress", JInt (EventLogJob.progress j));
                     ("message", JStr (EventLogJob.message j));
                     ("error_message", JStr (EventLogJob.error_message j))] 200), w).
Proof.
  intros Hj Hu Hs. unfold job_status, try_except, bind, objects_get_owned, ret.
  rewrite Hj, Hu, Z.eqb_refl, Hs. reflexivity.
Qed.



Lemma load_event_log_unsupported C files file_path out :
  extension_allowed file_path = false ->
  load_event_log C files file_path out =
  (Raise (ValueError ("Unsupported file format: " +:+ file_path)),
   (out ++ load_failure_report file_path
             (ValueError ("Unsupported file format: " +:+ file_path)))%list).
Proof.
  intros Hext. unfold extension_allowed in Hext. apply orb_false_iff in Hext.
  destruct Hext as (Hxes & Hcsv).
  unfold load_event_log, try_except. rewrite Hcsv, Hxes.
  unfold raise, bind, echo, modify, load_failure_report. cbn.
  rewrite <- !app_assoc. reflexivity.
Qed.

(** X5. The runner checks the extension again, on the name of the stored
    file and as strictly as the upload check: for a job whose stored file
    ends in neither [.csv] nor [.xes] (an upper-case [.CSV] included) the
    load stage raises, the failure is printed, and the run writes the row
    twice, as running with progress 10 and as [error] with progress 0 and
    the detail [Unsupported file format:] followed by the name. *)
Theorem unsupported_stored_extension_fails C request u w job_id j :
  stored_job w job_id j ->
  EventLogJob.user j = User.id u ->
  extension_allowed (EventLogJob.original_file j) = false ->
  let e := ValueError ("Unsupported file format: " +:+ EventLogJob.original_file j) in
  exists w' last,
    process_job C job_id w = (Ok tt, w') /\
    World.jobs w' !! job_id = Some last /\
    EventLogJob.status last = Error /\
    EventLogJob.progress last = 0 /\
    EventLogJob.error_message last = error_detail e /\
    job_status request u job_id w' = (Ok (failed_status_response (error_detail e)), w') /\
    map (fun v => (EventLogJob.status v, EventLogJob.progress v))
      (skipn (length (World.journal w)) (World.journal w'))
      = [(Running, 10); (Error, 0)] /\
    World.console w' =
      (World.console w ++ load_failure_report (EventLogJob.original_file j) e)%list.
Proof.
  intros (Hj & Hid) Hu Hext e. subst job_id.
  enter_pipeline j w Hj Hdef Hrun loaded out Hload.
  rewrite (load_event_log_unsupported _ _ _ _ Hext) in Hload.
  injection Hload as <- <-.
  rewrite Hdef in Hrun; apply process_job_of_raise in Hrun.
  match type of Hrun with
  | _ = (_, write_row ?jn ?wn) =>
      assert (Hrow : World.jobs (write_row jn wn) !! EventLogJob.id j = Some jn)
        by (tidy_goal; apply lookup_insert_eq);
      exists (write_row jn wn), jn
  end.
  split; [exact Hrun|]. split; [exact Hrow|].
  split; [reflexivity|]. split; [reflexivity|]. split; [reflexivity|].
  split; [rewrite (job_status_error request _ _ _ _ Hrow Hu eq_refl); reflexivity|].
  split; [|reflexivity].
  tidy_goal. rewrite <- app_assoc, skipn_app, skipn_all, Nat.sub_diag. reflexivity.
Qed.

(** ** Views behind their decorators *)

(** X7. The decorators run before the views and in the order method,
    then login: a request with another method than the routed one is
    answered 405, logged in or not; an anonymous [POST] to [create_job] is
    redirected to the login page; and whatever an anonymous request is,
    neither view changes the state for it (no job, no file, no thread). *)
Theorem views_guarded C request job_id w :
  (HttpRequest.method request <> "POST" ->
   create_job_view C request tt w = (Ok (HttpResponseNotAllowed ["POST"]), w)) /\
  (HttpRequest.method request <> "GET" ->
   job_status_view request job_id w = (Ok (HttpResponseNotAllowed ["GET"]), w)) /\
  (HttpRequest.method request = "POST" -> HttpRequest.user request = None ->
   exists url,
     create_job_view C request tt w = (Ok (HttpResponseRedirect url), w) /\
     Py.startswith url "/login/?next=" = true) /\
  (HttpRequest.user request = None ->
   forall response w',
     create_job_view C request tt w = (Ok response, w') \/
     job_status_view request job_id w = (Ok response, w') ->
     w' = w /\ (status_code response = 405 \/ status_code response = 302)).
Proof.
  unfold create_job_view, job_status_view, require_http_methods, login_required, Py.contains.
  cbn [existsb]. rewrite !orb_false_r.
  split; [|split; [|split]].
  - intros Hm. apply String.eqb_neq in Hm. rewrite Hm. reflexivity.
  - intros Hm. apply String.eqb_neq in Hm. rewrite Hm. reflexivity.
  - intros -> ->. eexists. split; [reflexivity|]. apply startswith_app. reflexivity.
  - intros Hu response w' H. rewrite Hu in H.
    destruct (HttpRequest.method request =? "POST")%string,
             (HttpRequest.method request =? "GET")%string;
      destruct H as [H|H]; injection H as <- <-; split; auto.
Qed.

(** ** [load_event_log] *)

(** X8. [load_event_log] prints nothing when it returns a data frame, and
    when it raises [e] it has printed exactly four lines: the path, the
    class of [e], its text and its traceback. A [.csv] path that is not in
    the storage raises [FileNotFoundError]. *)
Theorem load_event_log_reports C files file_path out :
  (forall df out', load_event_log C files file_path out = (Ok df, out') -> out' = out) /\
  (forall e out', load_event_log C files file_path out = (Raise e, out') ->
     out' = (out ++ load_failure_report file_path e)%list) /\
  (files !! file_path = None -> Py.endswith file_path ".csv" = true ->
   exists e, fst (load_event_log C files file_path out) = Raise e /\
             exc_type e = "FileNotFoundError").
Proof.
  unfold load_event_log, try_except, load_failure_report.
  split; [|split].
  - intros df out'.
    destruct (Py.endswith file_path ".csv").
    + destruct (files !! file_path) as [content|].
      * unfold of_result. destruct (pd_read_csv C content None); cbn; intros H; first [discriminate H | injection H; intros; congruence].
      * cbn. discriminate.
    + destruct (Py.endswith file_path ".xes"); [|cbn; discriminate].
      unfold bind, try_except, of_result.
      destruct (pm4py_import C) as [[]|e0].
      * destruct (xes_import C _); cbn; intros H; first [discriminate H | injection H; intros; congruence].
      * destruct (isinstance e0 "ImportError"); cbn; discriminate.
  - intros e out'.
    destruct (Py.endswith file_path ".csv").
    + destruct (files !! file_path) as [content|].
      * unfold of_result. destruct (pd_read_csv C content None); cbn; [discriminate|].
        intros H. injection H as <- <-. rewrite <- !app_assoc. reflexivity.
      * cbn. intros H. injection H as <- <-. rewrite <- !app_assoc. reflexivity.
    + destruct (Py.endswith file_path ".xes").
      * unfold bind at 1, try_except, of_result.
        destruct (pm4py_import C) as [[]|e0].
        -- destruct (xes_import C _); cbn; [discriminate|].
           intros H. injection H as <- <-. rewrite <- !app_assoc. reflexivity.
        -- destruct (isinstance e0 "ImportError"); cbn;
             intros H; injection H as <- <-; rewrite <- !app_assoc; reflexivity.
      * cbn. intros H. injection H as <- <-. rewrite <- !app_assoc. reflexivity.
  - intros Hnone Hcsv. rewrite Hcsv, Hnone. cbn. eexists. split; reflexivity.
Qed.

Lemma load_event_log_without_pm4py C files file_path out e :
  Py.endswith file_path ".csv" = false ->
  Py.endswith file_path ".xes" = true ->
  pm4py_import C = Raise e ->
  isinstance e "ImportError" = true ->
  load_event_log C files file_path out =
  (Raise (pm4py_missing e), (out ++ load_failure_report file_path (pm4py_missing e))%list).
Proof.
  intros Hcsv Hxes Himport Hkind.
  unfold load_event_log, try_except. rewrite Hcsv, Hxes.
  unfold bind at 1, try_except, of_result. rewrite Himport, Hkind.
  cbn. rewrite <- !app_assoc. reflexivity.
Qed.

Lemma occurs_in_middle a s b : Py.occurs_in s (a +:+ s +:+ b).
Proof. exists a, b. reflexivity. Qed.

(** X9. A run on a job whose stored file is an XES file, on an
    installation where importing pm4py fails with an [ImportError] (or
    [ModuleNotFoundError]): the job ends in state [error] with progress 0,
    and the error detail, which [job_status] shows to the owner, tells how
    to install pm4py and quotes the original error. *)
Theorem xes_job_without_pm4py_fails C request u w job_id j e :
  stored_job w job_id j ->
  EventLogJob.user j = User.id u ->
  Py.endswith (EventLogJob.original_file j) ".csv" = false ->
  Py.endswith (EventLogJob.original_file j) ".xes" = true ->
  pm4py_import C = Raise e ->
  isinstance e "ImportError" = true ->
  exists w' last,
    process_job C job_id w = (Ok tt, w') /\
    World.jobs w' !! job_id = Some last /\
    EventLogJob.status last = Error /\
    EventLogJob.progress last = 0 /\
    EventLogJob.error_message last = error_detail (pm4py_missing e) /\
    Py.occurs_in "Install it with: pip install pm4py" (EventLogJob.error_message last) /\
    Py.occurs_in ("Original error: " +:+ exc_msg e) (EventLogJob.error_message last) /\
    job_status request u job_id w' =
      (Ok (failed_status_response (error_detail (pm4py_missing e))), w').
Proof.
  intros (Hj & Hid) Hu Hcsv Hxes Himport Hkind. subst job_id.
  enter_pipeline j w Hj Hdef Hrun loaded out Hload.
  rewrite (load_event_log_without_pm4py _ _ _ _ _ Hcsv Hxes Himport Hkind) in Hload.
  injection Hload as <- <-.
  rewrite Hdef in Hrun; apply process_job_of_raise in Hrun.
  match type of Hrun with
  | _ = (_, write_row ?jn ?wn) =>
      assert (Hrow : World.jobs (write_row jn wn) !! EventLogJob.id j = Some jn)
        by (tidy_goal; apply lookup_insert_eq);
      exists (write_row jn wn), jn
  end.
  split; [exact Hrun|]. split; [exact Hrow|].
  split; [reflexivity|]. split; [reflexivity|]. split; [reflexivity|].
  split.
  { exists ("pm4py is required to load XES files but is not installed. "),
      (nl +:+ "Original error: " +:+ exc_msg e +:+ nl +:+ nl +:+ format_exc (pm4py_missing e)).
    cbn [failed EventLogJob.error_message EventLogJob.set_updated_at EventLogJob.set_error_message].
    unfold pm4py_missing, ImportError. cbn [exc_msg].
    reflexivity. }
  split.
  { exists ("pm4py is required to load XES files but is not installed. " +:+
            "Install it with: pip install pm4py" +:+ nl),
      (nl +:+ nl +:+ format_exc (pm4py_missing e)).
    cbn [failed EventLogJob.error_message EventLogJob.set_updated_at EventLogJob.set_error_message].
    unfold pm4py_missing, ImportError. cbn [exc_msg].
    reflexivity. }
  rewrite (job_status_error request _ _ _ _ Hrow Hu eq_refl); reflexivity.
Qed.

(** ** A run that renders *)


Lemma get_output_url_not_empty j u :
  EventLogJob.get_output_url j = Some u -> String.eqb u "" = false.
Proof.
  unfold EventLogJob.get_output_url.
  destruct (EventLogJob.has_file (EventLogJob.output_map_svg j)).
  - intros H. injection H as <-. reflexivity.
  - destruct (EventLogJob.has_file (EventLogJob.output_map_image j)); [|discriminate].
    intros H. injection H as <-. reflexivity.
Qed.

Ltac payload_facts :=
  repeat match goal with
         | H : _ \/ _ |- _ => destruct H
         | H : (_, _) = (_, _) |- _ => first [discriminate H | injection H as ->]
         | H : _ /\ _ |- _ => destruct H
         | H : False |- _ => destruct H
         | H : Some _ = Some _ |- _ => injection H as ->
         end;
  try discriminate; try congruence; try (split; congruence);
  try (repeat first [left; reflexivity | right]).

(** X6. What [job_status] tells the owner of a job: a 200 whose body
    starts with the status, the progress and the message of the row, and
    which carries [redirect_url] exactly when the job is done,
    [error_message] (the stored one) exactly when it is in error, and
    [output_url] exactly when it is done and [get_output_url] has a URL to
    give, which is then the one sent. The state is not changed. *)
Theorem job_status_payload request u job_id w j :
  World.jobs w !! job_id = Some j ->
  EventLogJob.user j = User.id u ->
  exists data,
    let response := JsonResponse data 200 in
    job_status request u job_id w = (Ok response, w) /\
    firstn 3 data = [("status", JStr (status_str (EventLogJob.status j)));
                     ("progress", JInt (EventLogJob.progress j));
                     ("message", JStr (EventLogJob.message j))] /\
    (has_key "redirect_url" response = true <-> EventLogJob.status j = Done) /\
    (has_key "error_message" response = true <-> EventLogJob.status j = Error) /\
    (In ("error_message", JStr (EventLogJob.error_message j)) data <->
     EventLogJob.status j = Error) /\
    (forall output_url, In ("output_url", JStr output_url) data <->
       EventLogJob.status j = Done /\ EventLogJob.get_output_url j = Some output_url) /\
    (has_key "output_url" response = true <->
       EventLogJob.status j = Done /\ EventLogJob.get_output_url j <> None).
Proof.
  intros Hj Hu. unfold job_status, try_except, bind, objects_get_owned, ret.
  rewrite Hj, Hu, Z.eqb_refl.
  destruct (EventLogJob.status j) eqn:Hs;
    [| |destruct (EventLogJob.get_output_url j) as [url|] eqn:Hurl;
        [rewrite (get_output_url_not_empty _ _ Hurl)|]|].
  all: eexists; split; [reflexivity|]; split; [reflexivity|]; cbn.
  all: repeat split; intros; payload_facts.
Qed.



(** ** The further properties on concrete installations *)

Lemma process_job_keeps_inputs_witness :
  World.jobs Demo.world_1 !! 1 = Some Demo.job_1 /\
  exists w' last,
    process_job (Demo.collaborators true) 1 Demo.world_1 = (Ok tt, w') /\
    World.jobs w' = <[1 := last]> (World.jobs Demo.world_1) /\
    same_inputs last Demo.job_1.
Proof.
  assert (Hrow : World.jobs Demo.world_1 !! 1 = Some Demo.job_1) by evaluate.
  split; [exact Hrow|].
  destruct (process_job_keeps_inputs (Demo.collaborators true) 1 Demo.world_1 Demo.job_1 Hrow)
    as (w' & last & Hrun & Hjobs & Hsame & _).
  exists w', last. split; [exact Hrun|]. split; [exact Hjobs|]. exact Hsame.
Defined.

Lemma process_job_starts_over_witness :
  World.jobs Demo.world_1 !! 1 = Some Demo.job_1 /\
  exists w' (rest : list EventLogJob.t),
    process_job (Demo.collaborators true) 1 Demo.world_1 = (Ok tt, w') /\
    rest <> [].
Proof.
  assert (Hrow : World.jobs Demo.world_1 !! 1 = Some Demo.job_1) by evaluate.
  split; [exact Hrow|].
  destruct (process_job_starts_over (Demo.collaborators true) 1 Demo.world_1 Demo.job_1 Hrow)
    as (w' & rest & Hrun & _ & Hrest).
  exists w', rest. split; [exact Hrun|exact Hrest].
Defined.



Lemma fixture_job_upper_stored : stored_job Fixtures.world_upper 1 Fixtures.job_upper.
Proof. split; evaluate. Defined.

Lemma unsupported_stored_extension_fails_witness :
  stored_job Fixtures.world_upper 1 Fixtures.job_upper /\
  extension_allowed (EventLogJob.original_file Fixtures.job_upper) = false /\
  exists w' last,
    process_job (Demo.collaborators true) 1 Fixtures.world_upper = (Ok tt, w') /\
    World.jobs w' !! 1 = Some last /\
    EventLogJob.status last = Error /\
    EventLogJob.progress last = 0.
Proof.
  split; [exact fixture_job_upper_stored|]. split; [evaluate|].
  destruct (unsupported_stored_extension_fails (Demo.collaborators true) Demo.request_a
              Demo.other_user Fixtures.world_upper 1 Fixtures.job_upper
              fixture_job_upper_stored)
    as (w' & last & Hrun & Hrow & Hstatus & Hprogress & _); [evaluate | evaluate |].
  exists w', last. repeat split; assumption.
Defined.

Lemma job_status_payload_witness :
  World.jobs Demo.world_1 !! 1 = Some Demo.job_1 /\
  EventLogJob.user Demo.job_1 = User.id Demo.other_user /\
  exists data,
    job_status Demo.request_a Demo.other_user 1 Demo.world_1
      = (Ok (JsonResponse data 200), Demo.world_1) /\
    firstn 3 data = [("status", JStr "pending"); ("progress", JInt 0);
                     ("message", JStr "Job created, waiting to start...")].
Proof.
  assert (Hrow : World.jobs Demo.world_1 !! 1 = Some Demo.job_1) by evaluate.
  split; [exact Hrow|]. split; [reflexivity|].
  destruct (job_status_payload Demo.request_a Demo.other_user 1 Demo.world_1 Demo.job_1
              Hrow eq_refl) as (data & Hanswer & Hfirst & _).
  exists data. split; [exact Hanswer|exact Hfirst].
Defined.

Lemma fixture_job_xes_stored : stored_job Fixtures.world_xes 1 Fixtures.job_xes.
Proof. split; evaluate. Defined.

Lemma xes_job_without_pm4py_fails_witness :
  stored_job Fixtures.world_xes 1 Fixtures.job_xes /\
  pm4py_import Fixtures.without_pm4py = Raise Fixtures.ModuleNotFoundError /\
  isinstance Fixtures.ModuleNotFoundError "ImportError" = true /\
  exists w' last,
    process_job Fixtures.without_pm4py 1 Fixtures.world_xes = (Ok tt, w') /\
    World.jobs w' !! 1 = Some last /\
    EventLogJob.status last = Error /\
    Py.occurs_in "Install it with: pip install pm4py" (EventLogJob.error_message last).
Proof.
  split; [exact fixture_job_xes_stored|]. split; [reflexivity|]. split; [reflexivity|].
  destruct (xes_job_without_pm4py_fails Fixtures.without_pm4py Demo.request_a
              Demo.other_user Fixtures.world_xes 1 Fixtures.job_xes Fixtures.ModuleNotFoundError
              fixture_job_xes_stored)
    as (w' & last & Hrun & Hrow & Hstatus & _ & _ & Hhint & _);
    [evaluate | evaluate | evaluate | reflexivity | reflexivity |].
  exists w', last. repeat split; assumption.
Defined.


(** ** The key of a new row *)


Lemma next_id_above (jobs : gmap Z EventLogJob.t) k :
  jobs !! k <> None -> k < next_id jobs.
Proof.
  unfold next_id.
  assert (H : forall m : gmap Z EventLogJob.t,
             forall k, m !! k <> None -> k <= map_fold (fun k _ acc => Z.max k acc) 0 m).
  { intros m. apply (map_fold_weak_ind (fun r (m : gmap Z EventLogJob.t) => forall k, m !! k <> None -> k <= r)).
    - intros k0 H0. rewrite lookup_empty in H0. congruence.
    - intros i x m0 r Hi IH k0 Hk0.
      destruct (decide (k0 = i)) as [->|Hne]; [lia|].
      rewrite lookup_insert_ne in Hk0 by congruence.
      specialize (IH k0 Hk0). lia. }
  intros Hk. specialize (H jobs k Hk). lia.
Qed.

Lemma next_id_fresh (jobs : gmap Z EventLogJob.t) : jobs !! next_id jobs = None.
Proof.
  destruct (jobs !! next_id jobs) eqn:H; [|reflexivity].
  assert (Hlt : next_id jobs < next_id jobs) by (apply next_id_above; congruence). lia.
Qed.

Lemma distinct_project_names_insert uid (jobs : gmap Z EventLogJob.t) k job :
  jobs !! k = None ->
  distinct_project_names uid (<[k := job]> jobs) =
  (if decide (EventLogJob.user job = uid /\ EventLogJob.project_name job <> "")
   then {[EventLogJob.project_name job]} else ∅) ∪ distinct_project_names uid jobs.
Proof.
  intros Hk. unfold distinct_project_names.
  apply set_eq. intros p.
  rewrite elem_of_union, !elem_of_list_to_set.
  rewrite !list_elem_of_filter, !list_elem_of_fmap.
  split.
  - intros (Hp & j & -> & Hj).
    apply list_elem_of_filter in Hj as (Hu & Hj).
    apply list_elem_of_fmap in Hj as ([k0 j0] & -> & Hin).
    apply elem_of_map_to_list in Hin.
    destruct (decide (k0 = k)) as [->|Hne].
    + rewrite lookup_insert_eq in Hin. injection Hin as <-.
      left. rewrite decide_True by (split; assumption). set_solver.
    + rewrite lookup_insert_ne in Hin by congruence.
      right. split; [assumption|]. exists j0. split; [reflexivity|].
      apply list_elem_of_filter. split; [assumption|].
      apply list_elem_of_fmap. exists (k0, j0). split; [reflexivity|].
      apply elem_of_map_to_list. assumption.
  - intros [Hnew|(Hp & j & -> & Hj)].
    + destruct (decide _) as [(Hu & Hp)|]; [|set_solver].
      apply elem_of_singleton in Hnew as ->.
      split; [assumption|]. exists job. split; [reflexivity|].
      apply list_elem_of_filter. split; [assumption|].
      apply list_elem_of_fmap. exists (k, job). split; [reflexivity|].
      apply elem_of_map_to_list. apply lookup_insert_eq.
    + split; [assumption|]. exists j. split; [reflexivity|].
      apply list_elem_of_filter in Hj as (Hu & Hj).
      apply list_elem_of_fmap in Hj as ([k0 j0] & -> & Hin).
      apply elem_of_map_to_list in Hin.
      apply list_elem_of_filter. split; [assumption|].
      apply list_elem_of_fmap. exists (k0, j0). split; [reflexivity|].
      apply elem_of_map_to_list.
      rewrite lookup_insert_ne; [assumption|]. intros ->. congruence.
Qed.

Lemma create_job_creates C request u w f :
  valid_request request f ->
  User.can_use_algorithm (World.now w) u (mining_method_of request) = true ->
  ~ project_limit_reached u w ->
  (forall n, ~ row_limit_exceeded C u w f n) ->
  create_job C request u w =
  (Ok (job_created_response (next_id (World.jobs w))), after_create C request u w f).
Proof.
  intros Hvalid Halg Hproj Hrows. pass_validation Hvalid. rewrite Halg. cbn [negb].
  rewrite (bind_ok _ _ _ _ _ (check_project_limit_allows u w Hproj)).
  rewrite (bind_ok _ _ _ _ _ (check_row_limit_allows C u w f Hrows)).
  reflexivity.
Qed.

(** The answers of [create_job], with the row and the state of the
    accepted case spelled out. *)
Lemma create_job_outcome C request u w response w' :
  create_job C request u w = (Ok response, w') ->
  (status_code response <> 200 /\ w' = w) \/
  (exists f,
     valid_request request f /\
     User.can_use_algorithm (World.now w) u (mining_method_of request) = true /\
     ~ project_limit_reached u w /\
     (forall n, ~ row_limit_exceeded C u w f n) /\
     response = job_created_response (next_id (World.jobs w)) /\
     w' = after_create C request u w f).
Proof.
  intros Heq. pose proof (create_job_inv _ _ _ _ _ _ Heq) as Hans.
  inversion Hans; subst; try (left; split; [discriminate|reflexivity]).
  right. exists f.
  match goal with
  | Hv : valid_request _ _, Ha : User.can_use_algorithm _ _ _ = true,
    Hp : ~ project_limit_reached _ _, Hr : forall n, ~ row_limit_exceeded _ _ _ _ n |- _ =>
      pose proof (create_job_creates C request u w f Hv Ha Hp Hr) as Hc;
      rewrite Heq in Hc; injection Hc as Hresp Hw;
      split; [exact Hv|]; split; [exact Ha|]; split; [exact Hp|]; split; [exact Hr|];
      split; congruence
  end.
Qed.

(** ** What [create_job] adds *)


(** ** The project limit as an invariant *)

Lemma distinct_project_names_replace uid (jobs : gmap Z EventLogJob.t) k j j' :
  jobs !! k = Some j ->
  EventLogJob.user j' = EventLogJob.user j ->
  EventLogJob.project_name j' = EventLogJob.project_name j ->
  distinct_project_names uid (<[k := j']> jobs) = distinct_project_names uid jobs.
Proof.
  intros Hk Hu Hp.
  rewrite <- (insert_delete_id jobs k j Hk) at 2.
  rewrite <- (insert_delete_eq jobs k j').
  rewrite !distinct_project_names_insert by apply lookup_delete_eq.
  rewrite Hu, Hp. reflexivity.
Qed.

Lemma free_never_premium now u :
  User.license_type u <> User.LICENSE_PREMIUM -> User.is_premium now u = false.
Proof.
  intros H. unfold User.is_premium. apply String.eqb_neq in H. rewrite H. reflexivity.
Qed.

Lemma size_union_singleton_le (p : string) (X : gset string) :
  (size ({[p]} ∪ X) <= S (size X))%nat.
Proof.
  rewrite size_union_alt, size_singleton.
  assert (Hle : (size (X ∖ {[p]}) <= size X)%nat) by (apply subseteq_size, subseteq_difference_l; reflexivity). lia.
Qed.

Lemma happens_keeps_project_limit C u w w' :
  User.license_type u <> User.LICENSE_PREMIUM ->
  User.max_projects u > 0 ->
  happens C u w w' ->
  keyed_by_id (World.jobs w) ->
  project_count u w <= User.max_projects u ->
  keyed_by_id (World.jobs w') /\ project_count u w' <= User.max_projects u.
Proof.
  intros Hfree Hmax Hstep Hkeyed Hcount.
  destruct Hstep as [request response w w' Heq | request other response w w' Hother Heq
                    | job_id w w' Heq | now w Hnow].
  - destruct (create_job_outcome _ _ _ _ _ _ Heq)
      as [(_ & ->)|(f & _ & _ & Hroom & _ & _ & ->)]; [split; assumption|].
    split.
    + intros k j. unfold after_create. cbn.
      destruct (decide (k = next_id (World.jobs w))) as [->|Hne].
      * rewrite lookup_insert_eq. intros H. injection H as <-. reflexivity.
      * rewrite lookup_insert_ne by congruence. apply Hkeyed.
    + assert (Hlt : project_count u w < User.max_projects u).
      { destruct (Z_lt_dec (project_count u w) (User.max_projects u)) as [Hlt|Hge];
          [exact Hlt|].
        exfalso. apply Hroom. split; [apply free_never_premium; exact Hfree|].
        split; [exact Hmax|lia]. }
      unfold project_count in *. unfold after_create. cbn.
      rewrite distinct_project_names_insert by apply next_id_fresh.
      destruct (decide _).
      * pose proof (size_union_singleton_le
                      (EventLogJob.project_name (created_job C request u w f))
                      (distinct_project_names (User.id u) (World.jobs w))). lia.
      * rewrite (left_id_L ∅ (∪)). lia.
  - destruct (create_job_outcome _ _ _ _ _ _ Heq)
      as [(_ & ->)|(f & _ & _ & _ & _ & _ & ->)]; [split; assumption|].
    split.
    + intros k j. unfold after_create. cbn.
      destruct (decide (k = next_id (World.jobs w))) as [->|Hne].
      * rewrite lookup_insert_eq. intros H. injection H as <-. reflexivity.
      * rewrite lookup_insert_ne by congruence. apply Hkeyed.
    + unfold project_count in *. unfold after_create. cbn.
      rewrite distinct_project_names_insert by apply next_id_fresh.
      rewrite decide_False by (cbn; intros (H & _); congruence).
      rewrite (left_id_L ∅ (∪)). exact Hcount.
  - destruct (World.jobs w !! job_id) as [j|] eqn:Hj.
    + destruct (process_job_on_row C job_id w j Hj)
        as (w2 & last & Hrun & Hjobs & Hid & Huser & Hproject).
      rewrite Heq in Hrun. injection Hrun as <-.
      pose proof (Hkeyed _ _ Hj) as Hkey.
      split.
      * intros k j0. rewrite Hjobs, Hkey.
        destruct (decide (k = job_id)) as [->|Hne].
        -- rewrite lookup_insert_eq. intros H. injection H as <-. congruence.
        -- rewrite lookup_insert_ne by congruence. apply Hkeyed.
      * unfold project_count in *. rewrite Hjobs, Hkey.
        rewrite (distinct_project_names_replace _ _ _ j) by assumption. exact Hcount.
    + rewrite (process_job_absent C job_id w Hj) in Heq. injection Heq as <-.
      split; assumption.
  - split; assumption.
Qed.

(** X12. The project limit is an invariant. For an account that is not
    premium and has [max_projects > 0]: if the number of its projects is
    within the limit in a state whose table holds every row under its own
    id, it is within the limit after any sequence of [create_job] calls by
    this account and by others, of runs of [process_job] on any id, and of
    time passing. *)
Theorem project_limit_is_invariant C u w w' :
  User.license_type u <> User.LICENSE_PREMIUM ->
  User.max_projects u > 0 ->
  keyed_by_id (World.jobs w) ->
  project_count u w <= User.max_projects u ->
  rtc (happens C u) w w' ->
  project_count u w' <= User.max_projects u.
Proof.
  intros Hfree Hmax Hkeyed Hcount Hsteps.
  induction Hsteps as [w|w w1 w2 Hstep _ IH]; [exact Hcount|].
  destruct (happens_keeps_project_limit C u w w1 Hfree Hmax Hstep Hkeyed Hcount).
  apply IH; assumption.
Qed.

(** ** The row limit, from upload to run *)

(** X13. The row limit holds for every accepted file that can be read.
    When [create_job] accepts a [.csv] upload from a user who is not
    premium and has [max_log_rows > 0], and the parser can read the file,
    the file has at most [max_log_rows] rows: reading one row more than
    allowed is enough for the pre-scan to refuse every longer file. *)
Theorem accepted_csv_within_row_limit C request u w f job_id w' df :
  HttpRequest.FILES request !! "file" = Some f ->
  create_job C request u w = (Ok (job_created_response job_id), w') ->
  User.is_premium (World.now w) u = false ->
  User.max_log_rows u > 0 ->
  Py.endswith (UploadedFile.name f) ".csv" = true ->
  pd_parse_csv C (UploadedFile.content f) = Ok df ->
  len df <= User.max_log_rows u.
Proof.
  intros Hfile Heq Hfree Hmax Hcsv Hparse.
  destruct (create_job_outcome _ _ _ _ _ _ Heq)
    as [(Hcode & _)|(f' & Hvalid & _ & _ & Hrows & _ & _)];
    [exfalso; apply Hcode; reflexivity|].
  assert (f' = f) as -> by (destruct Hvalid as (H & _); congruence).
  destruct (Z_le_gt_dec (len df) (User.max_log_rows u)) as [Hle|Hgt]; [exact Hle|].
  exfalso.
  destruct (prescan_long_file C (UploadedFile.content f) (User.max_log_rows u + 1) df)
    as (seen & Hscan & Hseen); [lia | exact Hparse | lia |].
  apply (Hrows (len seen)). unfold row_limit_exceeded, prescan_row_count.
  rewrite Hscan. repeat split; first [assumption | lia].
Qed.



(** ** On concrete installations *)


Lemma project_limit_is_invariant_witness :
  User.license_type Demo.free_user <> User.LICENSE_PREMIUM /\
  User.max_projects Demo.free_user > 0 /\
  keyed_by_id (World.jobs Demo.empty_world) /\
  project_count Demo.free_user Demo.empty_world <= User.max_projects Demo.free_user /\
  rtc (happens (Demo.collaborators true) Demo.free_user) Demo.empty_world Demo.world_2 /\
  project_count Demo.free_user Demo.world_2 <= 2.
Proof.
  assert (Hfree : User.license_type Demo.free_user <> User.LICENSE_PREMIUM) by evaluate.
  assert (Hmax : User.max_projects Demo.free_user > 0) by reflexivity.
  assert (Hkeyed : keyed_by_id (World.jobs Demo.empty_world))
    by (intros k j H; cbn in H; rewrite lookup_empty in H; discriminate H).
  assert (Hcount : project_count Demo.free_user Demo.empty_world
                   <= User.max_projects Demo.free_user) by evaluate.
  assert (Hsteps : rtc (happens (Demo.collaborators true) Demo.free_user)
                     Demo.empty_world Demo.world_2).
  { apply rtc_l with (y := Demo.world_1).
    - apply happens_create_job_of_other
        with (request := Demo.request_a) (other := Demo.other_user)
             (response := job_created_response 1); evaluate.
    - apply rtc_once.
      apply happens_create_job
        with (request := Demo.request_a) (response := job_created_response 2); evaluate. }
  split; [exact Hfree|]. split; [exact Hmax|]. split; [exact Hkeyed|].
  split; [exact Hcount|]. split; [exact Hsteps|].
  exact (project_limit_is_invariant _ _ _ _ Hfree Hmax Hkeyed Hcount Hsteps).
Defined.

Lemma accepted_csv_within_row_limit_witness :
  HttpRequest.FILES Demo.request_a !! "file" = Some Demo.file_a /\
  create_job (Demo.collaborators true) Demo.request_a Demo.free_user Demo.world_1
    = (Ok (job_created_response 2), Demo.world_2) /\
  User.is_premium (World.now Demo.world_1) Demo.free_user = false /\
  User.max_log_rows Demo.free_user > 0 /\
  Py.endswith (UploadedFile.name Demo.file_a) ".csv" = true /\
  pd_parse_csv (Demo.collaborators true) (UploadedFile.content Demo.file_a) = Ok Demo.frame_a /\
  len Demo.frame_a <= 3.
Proof.
  assert (Hfile : HttpRequest.FILES Demo.request_a !! "file" = Some Demo.file_a) by evaluate.
  assert (Hcreate : create_job (Demo.collaborators true) Demo.request_a Demo.free_user
                      Demo.world_1 = (Ok (job_created_response 2), Demo.world_2)) by evaluate.
  assert (Hfree : User.is_premium (World.now Demo.world_1) Demo.free_user = false) by evaluate.
  assert (Hmax : User.max_log_rows Demo.free_user > 0) by reflexivity.
  assert (Hcsv : Py.endswith (UploadedFile.name Demo.file_a) ".csv" = true) by evaluate.
  assert (Hparse : pd_parse_csv (Demo.collaborators true) (UploadedFile.content Demo.file_a)
                   = Ok Demo.frame_a) by evaluate.
  repeat (split; [assumption|]).
  exact (accepted_csv_within_row_limit _ _ _ _ _ _ _ _ Hfile Hcreate Hfree Hmax Hcsv Hparse).
Defined.


(** ** Licences *)

Lemma activate_premium_license_runs K duration_days self d :
  activate_premium_license K duration_days (self, d) =
  let expiry : Result (option Z) :=
    match duration_days with
    | Some days => if days =? 0 then Ok None
                   else match add_days K (Directory.now d) days with
                        | Ok expires => Ok (Some expires)
                        | Raise e => Raise e
                        end
    | None => Ok None
    end in
  let started :=
    Account.set_license_activated_at (Some (Directory.now d))
      (Account.set_license_type User.LICENSE_PREMIUM self) in
  match expiry with
  | Ok expires =>
      let self' :=
        Account.mk (User.mk (User.id (Account.user self)) User.LICENSE_PREMIUM expires 0 [] 0)
          (Some (Directory.now d)) in
      (Ok tt, (self', Directory.set_accounts
                        (<[User.id (Account.user self) := self']> (Directory.accounts d)) d))
  | Raise e => (Raise e, (started, d))
  end.
Proof.
  unfold activate_premium_license.
  destruct duration_days as [days|]; [destruct (Z.eqb_spec days 0)|].
  1,3: reflexivity.
  cbn -[Z.eqb]. destruct (days =? 0) eqn:H0; [apply Z.eqb_eq in H0; contradiction|].
  unfold bind, update_self, modify, timezone_now, gets, of_result. cbn.
  destruct (add_days K (Directory.now d) days); reflexivity.
Qed.

Lemma is_premium_lifetime t u :
  User.license_type u = User.LICENSE_PREMIUM -> User.license_expires_at u = None ->
  User.is_premium t u = true.
Proof. intros Ht He. unfold User.is_premium. rewrite Ht, He. reflexivity. Qed.

Lemma is_premium_until t u expires :
  User.license_type u = User.LICENSE_PREMIUM -> User.license_expires_at u = Some expires ->
  User.is_premium t u = true <-> t <= expires.
Proof.
  intros Ht He. unfold User.is_premium. rewrite Ht, He. cbn.
  destruct (Z.ltb_spec expires t); split; intros; first [lia | discriminate | reflexivity].
Qed.

(** X15. [activate_premium_license] saves the account, and the license it
    gives is active exactly until it expires: for ever when
    [duration_days] is [None] or 0, and otherwise at every time up to and
    including [now + duration_days] days, and at no later time. This does
    not depend on what the account was before: a timed activation of a
    lifetime account makes it expire. A negative duration gives a license
    that expired before it was activated. *)
Theorem license_window K duration_days self d self' d' :
  activate_premium_license K duration_days (self, d) = (Ok tt, (self', d')) ->
  Directory.accounts d' !! User.id (Account.user self) = Some self' /\
  Account.license_activated_at self' = Some (Directory.now d) /\
  match duration_days with
  | None | Some 0 => forall t, User.is_premium t (Account.user self') = true
  | Some days =>
      exists expires,
        add_days K (Directory.now d) days = Ok expires /\
        forall t, User.is_premium t (Account.user self') = true <-> t <= expires
  end.
Proof.
  rewrite activate_premium_license_runs. cbv zeta.
  destruct duration_days as [days|].
  - destruct (Z.eqb_spec days 0) as [->|Hdays].
    + intros H. injection H as <- <-.
      split; [apply lookup_insert_eq|]. split; [reflexivity|].
      intros t. apply is_premium_lifetime; reflexivity.
    + destruct (add_days K (Directory.now d) days) as [expires|e] eqn:Hadd; [|discriminate].
      intros H. injection H as <- <-.
      split; [apply lookup_insert_eq|]. split; [reflexivity|].
      destruct days; [contradiction| |]; exists expires; (split; [reflexivity|]);
        intros t; apply is_premium_until; reflexivity.
  - intros H. injection H as <- <-.
    split; [apply lookup_insert_eq|]. split; [reflexivity|].
    intros t. apply is_premium_lifetime; reflexivity.
Qed.

Lemma unlimited_can_use_algorithm now u m :
  User.allowed_algorithms u = [] ->
  Py.contains m valid_methods = true ->
  User.can_use_algorithm now u m = true.
Proof.
  intros Hall Hm. unfold User.can_use_algorithm, User.get_allowed_algorithms.
  rewrite Hall, orb_true_r.
  apply contains_In in Hm. apply contains_In.
  destruct Hm as [<-|[<-|[]]]; cbn; auto.
Qed.

(** X16. [activate_premium_license] removes the limits themselves, not
    only while the license lasts: it sets [max_log_rows] and
    [max_projects] to 0 and empties [allowed_algorithms], so all three
    algorithms are allowed at any time, and [create_job] never answers 403
    to the account again, in whatever state and at whatever time, also
    after the license has expired. *)
Theorem activated_account_is_unlimited K C duration_days self d self' d' request w response w' :
  activate_premium_license K duration_days (self, d) = (Ok tt, (self', d')) ->
  create_job C request (Account.user self') w = (Ok response, w') ->
  User.max_log_rows (Account.user self') = 0 /\
  User.max_projects (Account.user self') = 0 /\
  (forall t, User.get_allowed_algorithms t (Account.user self') = map fst User.ALGORITHM_CHOICES) /\
  status_code response <> 403.
Proof.
  rewrite activate_premium_license_runs. cbv zeta. intros Hact Hcreate.
  assert (Hlimits : User.max_log_rows (Account.user self') = 0 /\
                    User.max_projects (Account.user self') = 0 /\
                    User.allowed_algorithms (Account.user self') = []).
  { destruct duration_days as [days|];
      [destruct (days =? 0); [|destruct (add_days K (Directory.now d) days); [|discriminate]]|];
      injection Hact as <- <-; repeat split. }
  destruct Hlimits as (Hrows & Hprojects & Halgorithms).
  split; [exact Hrows|]. split; [exact Hprojects|].
  split.
  { intros t. unfold User.get_allowed_algorithms. rewrite Halgorithms, orb_true_r. reflexivity. }
  pose proof (create_job_inv _ _ _ _ _ _ Hcreate) as Hans.
  inversion Hans; subst; try discriminate.
  - match goal with
    | Hv : valid_request _ _, Hd : User.can_use_algorithm _ _ _ = false |- _ =>
        destruct Hv as (_ & _ & _ & Hm);
        rewrite (unlimited_can_use_algorithm _ _ _ Halgorithms Hm) in Hd; discriminate Hd
    end.
  - match goal with
    | Hp : project_limit_reached _ _ |- _ => destruct Hp as (_ & Hp & _); lia
    end.
  - match goal with
    | Hr : row_limit_exceeded _ _ _ _ _ |- _ => destruct Hr as (_ & _ & Hr & _); lia
    end.
Qed.

Lemma use_code_runs K self user d :
  use_code K (self, (user, d)) =
  if LicenseCode.is_used self
  then (Raise (ValueError "This code has already been used"), (self, (user, d)))
  else if negb (LicenseCode.is_active self)
  then (Raise (ValueError "This code is not active"), (self, (user, d)))
  else
    match activate_premium_license K (LicenseCode.duration_days self) (user, d) with
    | (Ok _, (user', d')) =>
        let self' :=
          LicenseCode.mk (LicenseCode.code self) (LicenseCode.is_active self) true
            (Some (User.id (Account.user user'))) (Some (Directory.now d'))
            (LicenseCode.duration_days self) in
        (Ok true,
         (self', (user', Directory.set_codes
                           (<[LicenseCode.code self := self']> (Directory.codes d')) d')))
    | (Raise e, call) => (Raise e, (self, call))
    end.
Proof.
  destruct self as [code active used used_by used_at days].
  unfold use_code. unfold bind at 1, gets at 1.
  cbn [fst LicenseCode.is_used LicenseCode.is_active LicenseCode.duration_days LicenseCode.code].
  destruct used; [reflexivity|]. destruct active; [|reflexivity]. cbn [negb].
  unfold bind at 1, on_user at 1. cbn [snd fst].
  destruct (activate_premium_license K days (user, d)) as [[[]|e] [user' d']]; reflexivity.
Qed.

(** X17. [use_code] refuses a used code with [This code has already been
    used], also when the code is inactive as well, and an unused inactive
    code with [This code is not active]; neither changes the code, the user
    or the database. Whenever [use_code] raises, also because the expiry
    date cannot be computed, the database and the code object are as
    before. *)
Theorem use_code_rejects K self user d :
  (LicenseCode.is_used self = true ->
   use_code K (self, (user, d)) =
   (Raise (ValueError "This code has already been used"), (self, (user, d)))) /\
  (LicenseCode.is_used self = false -> LicenseCode.is_active self = false ->
   use_code K (self, (user, d)) =
   (Raise (ValueError "This code is not active"), (self, (user, d)))) /\
  (forall e self' user' d',
     use_code K (self, (user, d)) = (Raise e, (self', (user', d'))) ->
     d' = d /\ self' = self).
Proof.
  rewrite use_code_runs. split; [|split].
  - intros ->. reflexivity.
  - intros -> ->. reflexivity.
  - intros e self' user' d'.
    destruct (LicenseCode.is_used self); [intros H; injection H as <- <- <- <-; split; reflexivity|].
    destruct (LicenseCode.is_active self); cbn [negb];
      [|intros H; injection H as <- <- <- <-; split; reflexivity].
    rewrite activate_premium_license_runs. cbv zeta.
    destruct (LicenseCode.duration_days self) as [days|];
      [destruct (days =? 0); [|destruct (add_days K (Directory.now d) days)]|];
      intros H; first [discriminate H | injection H as <- <- <- <-; split; reflexivity].
Qed.

(** X18. A license code works once. When [use_code] returns, it returns
    [True], the code was active and unused, it is now stored as used by
    that user at the current time, the user is stored with a premium
    license, and every later [use_code] on the code, for any user and in any
    state of the database, raises [This code has already been used] and
    changes nothing. *)
Theorem license_code_single_use K self user d answer self' user' d' :
  use_code K (self, (user, d)) = (Ok answer, (self', (user', d'))) ->
  answer = true /\
  LicenseCode.is_used self = false /\
  LicenseCode.is_active self = true /\
  LicenseCode.is_used self' = true /\
  LicenseCode.used_by self' = Some (User.id (Account.user user)) /\
  LicenseCode.used_at self' = Some (Directory.now d) /\
  Directory.codes d' !! LicenseCode.code self = Some self' /\
  Directory.accounts d' !! User.id (Account.user user) = Some user' /\
  User.license_type (Account.user user') = User.LICENSE_PREMIUM /\
  (forall other d2,
     use_code K (self', (other, d2)) =
     (Raise (ValueError "This code has already been used"), (self', (other, d2)))).
Proof.
  rewrite use_code_runs.
  destruct (LicenseCode.is_used self) eqn:Hused; [discriminate|].
  destruct (LicenseCode.is_active self) eqn:Hactive; [|discriminate]. cbn [negb].
  rewrite activate_premium_license_runs. cbv zeta.
  destruct (LicenseCode.duration_days self) as [days|];
    [destruct (days =? 0); [|destruct (add_days K (Directory.now d) days); [|discriminate]]|];
    intros H; injection H as <- <- <- <-;
    (split; [reflexivity|]); (split; [reflexivity|]); (split; [reflexivity|]);
    (split; [reflexivity|]); (split; [reflexivity|]); (split; [reflexivity|]);
    (split; [apply lookup_insert_eq|]); (split; [apply lookup_insert_eq|]);
    (split; [reflexivity|]);
    intros other d2; rewrite use_code_runs; reflexivity.
Qed.

Lemma license_window_witness :
  activate_premium_license LicenceFixtures.calendar (Some 30)
    (LicenceFixtures.account, LicenceFixtures.directory)
  = (Ok tt, (LicenceFixtures.licensed,
             Directory.set_accounts {[1 := LicenceFixtures.licensed]} LicenceFixtures.directory)) /\
  User.is_premium 2593000 (Account.user LicenceFixtures.licensed) = true /\
  User.is_premium 2593001 (Account.user LicenceFixtures.licensed) = false.
Proof.
  assert (Hact : activate_premium_license LicenceFixtures.calendar (Some 30)
                   (LicenceFixtures.account, LicenceFixtures.directory)
                 = (Ok tt, (LicenceFixtures.licensed,
                            Directory.set_accounts {[1 := LicenceFixtures.licensed]}
                              LicenceFixtures.directory))) by evaluate.
  split; [exact Hact|].
  destruct (license_window _ _ _ _ _ _ Hact) as (_ & _ & expires & Hadd & Hwindow).
  injection Hadd as <-.
  split.
  - apply Hwindow. evaluate.
  - destruct (User.is_premium 2593001 (Account.user LicenceFixtures.licensed)) eqn:H;
      [|reflexivity].
    apply Hwindow in H. exfalso. revert H. evaluate.
Defined.

Lemma activated_account_is_unlimited_witness :
  activate_premium_license LicenceFixtures.calendar (Some 30)
    (LicenceFixtures.account, LicenceFixtures.directory)
  = (Ok tt, (LicenceFixtures.licensed,
             Directory.set_accounts {[1 := LicenceFixtures.licensed]} LicenceFixtures.directory)) /\
  User.is_premium (World.now LicenceFixtures.later_world)
    (Account.user LicenceFixtures.licensed) = false /\
  exists response w',
    create_job (Demo.collaborators true) Demo.request_big
      (Account.user LicenceFixtures.licensed) LicenceFixtures.later_world = (Ok response, w') /\
    status_code response <> 403.
Proof.
  assert (Hact : activate_premium_license LicenceFixtures.calendar (Some 30)
                   (LicenceFixtures.account, LicenceFixtures.directory)
                 = (Ok tt, (LicenceFixtures.licensed,
                            Directory.set_accounts {[1 := LicenceFixtures.licensed]}
                              LicenceFixtures.directory))) by evaluate.
  split; [exact Hact|]. split; [evaluate|].
  destruct (create_job (Demo.collaborators true) Demo.request_big
              (Account.user LicenceFixtures.licensed) LicenceFixtures.later_world)
    as [[response|e] w'] eqn:Hcreate; [|revert Hcreate; evaluate].
  exists response, w'. split; [reflexivity|].
  exact (proj2 (proj2 (proj2 (activated_account_is_unlimited _ _ _ _ _ _ _ _ _ _ _ Hact Hcreate)))).
Defined.

Lemma license_code_single_use_witness :
  exists self' user' d',
    use_code LicenceFixtures.calendar
      (LicenceFixtures.code_30, (LicenceFixtures.account, LicenceFixtures.directory))
    = (Ok true, (self', (user', d'))) /\
    LicenseCode.used_by self' = Some 1 /\
    use_code LicenceFixtures.calendar (self', (user', d'))
    = (Raise (ValueError "This code has already been used"), (self', (user', d'))).
Proof.
  destruct (use_code LicenceFixtures.calendar
              (LicenceFixtures.code_30, (LicenceFixtures.account, LicenceFixtures.directory)))
    as [[answer|e] [self' [user' d']]] eqn:Huse; [|exfalso; revert Huse; evaluate].
  destruct (license_code_single_use _ _ _ _ _ _ _ _ Huse)
    as (-> & _ & _ & _ & Hby & _ & _ & _ & _ & Hagain).
  exists self', user', d'. split; [reflexivity|]. split; [exact Hby|]. apply Hagain.
Defined.

(** ** The project API *)




(** ** CSV import sessions *)



Lemma check_csv_row_limit_denies T u st f n :
  csv_rows_exceeded T u st f n ->
  check_csv_row_limit T (World.now (Site.world st)) u f st
  = (Ok (Some (csv_row_limit_response n (User.max_log_rows u))), st).
Proof.
  intros (Hfree & Hmax & (content & Hdecode & ->) & Hn). unfold check_csv_row_limit.
  rewrite Hfree. cbn [negb].
  destruct (Z.gtb_spec (User.max_log_rows u) 0) as [_|Hle]; [|lia].
  unfold bind, of_result. rewrite Hdecode.
  destruct (Z.gtb_spec (csv_line_count content) (User.max_log_rows u)) as [_|Hle]; [|lia].
  reflexivity.
Qed.

Lemma check_csv_row_limit_allows T u st f :
  (forall n, ~ csv_rows_exceeded T u st f n) ->
  (forall e, ~ csv_undecodable T u st f e) ->
  check_csv_row_limit T (World.now (Site.world st)) u f st = (Ok None, st).
Proof.
  intros Hrows Hdecodable. unfold check_csv_row_limit.
  destruct (User.is_premium (World.now (Site.world st)) u) eqn:Hfree; [reflexivity|].
  cbn [negb].
  destruct (Z.gtb_spec (User.max_log_rows u) 0) as [Hmax|Hle]; [|reflexivity].
  unfold bind, of_result.
  destruct (decode_utf8 T (UploadedFile.content f)) as [content|e] eqn:Hdecode.
  - destruct (Z.gtb_spec (csv_line_count content) (User.max_log_rows u)) as [Hgt|Hle];
      [|reflexivity].
    exfalso. apply (Hrows (csv_line_count content)).
    split; [exact Hfree|]. split; [lia|]. split; [|lia].
    exists content. split; [exact Hdecode|reflexivity].
  - exfalso. apply (Hdecodable e). split; [exact Hfree|]. split; [lia|exact Hdecode].
Qed.

Lemma check_csv_row_limit_fails T u st f e :
  csv_undecodable T u st f e ->
  check_csv_row_limit T (World.now (Site.world st)) u f st = (Raise e, st).
Proof.
  intros (Hfree & Hmax & Hdecode). unfold check_csv_row_limit.
  rewrite Hfree. cbn [negb].
  destruct (Z.gtb_spec (User.max_log_rows u) 0) as [_|Hle]; [|lia].
  unfold bind, of_result. rewrite Hdecode. reflexivity.
Qed.

Lemma check_csv_project_limit_denies u st :
  project_limit_reached u (Site.world st) ->
  check_csv_project_limit (World.now (Site.world st)) u st
  = (Ok (Some (csv_project_limit_response (User.max_projects u))), st).
Proof.
  intros (Hp & Hmax & Hcount). unfold check_csv_project_limit. rewrite Hp. cbn [negb].
  destruct (Z.gtb_spec (User.max_projects u) 0) as [_|Hle]; [|lia].
  unfold bind, in_site, count_distinct_projects, gets. cbn [fst snd].
  fold (project_count u (Site.world st)).
  destruct (Z.geb_spec (project_count u (Site.world st)) (User.max_projects u)) as [_|Hlt]; [|lia].
  destruct st; reflexivity.
Qed.

Lemma check_csv_project_limit_allows u st :
  ~ project_limit_reached u (Site.world st) ->
  check_csv_project_limit (World.now (Site.world st)) u st = (Ok None, st).
Proof.
  intros Hn. unfold check_csv_project_limit.
  destruct (User.is_premium (World.now (Site.world st)) u) eqn:Hp; [reflexivity|]. cbn [negb].
  destruct (Z.gtb_spec (User.max_projects u) 0) as [Hgt|Hle]; [|reflexivity].
  unfold bind, in_site, count_distinct_projects, gets. cbn [fst snd].
  fold (project_count u (Site.world st)).
  destruct (Z.geb_spec (project_count u (Site.world st)) (User.max_projects u)) as [Hge|Hlt];
    [|destruct st; reflexivity].
  exfalso. apply Hn. unfold project_limit_reached. repeat split; [assumption|lia|lia].
Qed.

Lemma in_site_now st : in_site (gets World.now) st = (Ok (World.now (Site.world st)), st).
Proof. destruct st; reflexivity. Qed.

Lemma csv_import_checks_cases C T request u st f :
  HttpRequest.FILES request !! "file" = Some f ->
  Py.endswith (Py.lower (UploadedFile.name f)) ".csv" = true ->
  (forall n, csv_rows_exceeded T u st f n ->
     create_csv_import_session C T request u st
     = (Ok (csv_row_limit_response n (User.max_log_rows u)), st)) /\
  ((forall n, ~ csv_rows_exceeded T u st f n) ->
   (forall e, ~ csv_undecodable T u st f e) ->
   project_limit_reached u (Site.world st) ->
     create_csv_import_session C T request u st
     = (Ok (csv_project_limit_response (User.max_projects u)), st)) /\
  ((forall n, ~ csv_rows_exceeded T u st f n) ->
   (forall e, ~ csv_undecodable T u st f e) ->
   ~ project_limit_reached u (Site.world st) ->
     create_csv_import_session C T request u st
     = (Ok (session_created_response (next_session_id (Site.sessions st))),
        after_import C request u st f)) /\
  (forall e, csv_undecodable T u st f e ->
     create_csv_import_session C T request u st
     = (Ok (JsonResponse [("error", JStr (exc_msg e))] 500),
        Site.mk (World.set_console
                   (World.console (Site.world st) ++
                    ["CSV import session creation error: " +:+ exc_msg e; format_exc e])%list
                   (Site.world st))
          (Site.sessions st))).
Proof.
  intros Hfile Hext. split; [|split; [|split]].
  - intros n Hrows. unfold create_csv_import_session, try_except.
    rewrite Hfile, Hext. cbn [negb].
    rewrite (bind_ok _ _ _ _ _ (in_site_now st)).
    rewrite (bind_ok _ _ _ _ _ (check_csv_row_limit_denies T u st f n Hrows)). reflexivity.
  - intros Hrows Hdecodable Hprojects. unfold create_csv_import_session, try_except.
    rewrite Hfile, Hext. cbn [negb].
    rewrite (bind_ok _ _ _ _ _ (in_site_now st)).
    rewrite (bind_ok _ _ _ _ _ (check_csv_row_limit_allows T u st f Hrows Hdecodable)).
    rewrite (bind_ok _ _ _ _ _ (check_csv_project_limit_denies u st Hprojects)). reflexivity.
  - intros Hrows Hdecodable Hprojects. unfold create_csv_import_session, try_except.
    rewrite Hfile, Hext. cbn [negb].
    rewrite (bind_ok _ _ _ _ _ (in_site_now st)).
    rewrite (bind_ok _ _ _ _ _ (check_csv_row_limit_allows T u st f Hrows Hdecodable)).
    rewrite (bind_ok _ _ _ _ _ (check_csv_project_limit_allows u st Hprojects)).
    destruct st; reflexivity.
  - intros e He. unfold create_csv_import_session, try_except.
    rewrite Hfile, Hext. cbn [negb].
    rewrite (bind_ok _ _ _ _ _ (in_site_now st)).
    rewrite (bind_raise _ _ _ _ _ (check_csv_row_limit_fails T u st f e He)).
    destruct st as [w sessions]. unfold bind, in_site, print, on_console, echo, modify. cbn.
    rewrite <- app_assoc. reflexivity.
Qed.

(** X20. [create_csv_import_session] checks the size before the projects,
    the other way round than [create_job]: for a [.csv] upload (in any
    case of the extension), a file with more lines than [max_log_rows] is
    refused with the size answer whatever the number of projects is; the
    project answer is given only to a file that passed the size check.
    Both refusals leave the state as it was. A premium user is refused by
    neither and gets a session. *)
Theorem csv_import_checks_rows_first C T request u st f :
  HttpRequest.FILES request !! "file" = Some f ->
  Py.endswith (Py.lower (UploadedFile.name f)) ".csv" = true ->
  (forall n, csv_rows_exceeded T u st f n ->
     create_csv_import_session C T request u st
     = (Ok (csv_row_limit_response n (User.max_log_rows u)), st)) /\
  ((forall n, ~ csv_rows_exceeded T u st f n) ->
   (forall e, ~ csv_undecodable T u st f e) ->
   project_limit_reached u (Site.world st) ->
     create_csv_import_session C T request u st
     = (Ok (csv_project_limit_response (User.max_projects u)), st)) /\
  (User.is_premium (World.now (Site.world st)) u = true ->
     create_csv_import_session C T request u st
     = (Ok (session_created_response (next_session_id (Site.sessions st))),
        after_import C request u st f)).
Proof.
  intros Hfile Hext.
  destruct (csv_import_checks_cases C T request u st f Hfile Hext)
    as (Hrows & Hprojects & Hcreate & _).
  split; [exact Hrows|]. split; [exact Hprojects|].
  intros Hpremium. apply Hcreate.
  - intros n (H & _). congruence.
  - intros e (H & _). congruence.
  - intros (H & _). congruence.
Qed.



(** *** Counting rows *)

Lemma string_app_assoc (a b c : string) : (a +:+ b) +:+ c = a +:+ (b +:+ c).
Proof.
  induction a as [|x a IH]; [reflexivity|].
  change ((String x a +:+ b) +:+ c) with (String x ((a +:+ b) +:+ c)).
  rewrite IH. reflexivity.
Qed.

Lemma count_char_app c a b : count_char c (a +:+ b) = count_char c a + count_char c b.
Proof.
  induction a as [|x a IH]; [reflexivity|].
  change (String x a +:+ b) with (String x (a +:+ b)). cbn [count_char]. rewrite IH. lia.
Qed.

Lemma count_char_join lines :
  Forall single_line lines -> lines <> [] ->
  count_char (ascii_of_nat 10) (Py.join nl lines) = Z.of_nat (length lines) - 1.
Proof.
  induction lines as [|x rest IH]; [congruence|]. intros Hall _.
  apply Forall_cons in Hall as (Hx & Hrest).
  destruct rest as [|y rest]; [exact Hx|].
  change (Py.join nl (x :: y :: rest)) with (x +:+ nl +:+ Py.join nl (y :: rest)).
  rewrite !count_char_app, Hx, IH by (assumption || discriminate).
  change (count_char (ascii_of_nat 10) nl) with 1.
  cbn [length]. lia.
Qed.

Lemma string_snoc (s : string) :
  s <> "" -> exists a c, s = a +:+ String c "".
Proof.
  induction s as [|x s IH]; [congruence|]. intros _.
  destruct s as [|y s].
  - exists "", x. reflexivity.
  - destruct IH as (a & c & Heq); [discriminate|].
    exists (String x a), c. rewrite Heq. reflexivity.
Qed.

Lemma join_ends_with_last sep init last :
  exists prefix, Py.join sep (init ++ [last]) = prefix +:+ last.
Proof.
  induction init as [|x init IH]; [exists ""; reflexivity|].
  destruct IH as (prefix & Heq).
  exists (x +:+ sep +:+ prefix).
  change ((x :: init) ++ [last])%list with (x :: (init ++ [last]))%list.
  destruct (init ++ [last])%list as [|y rest] eqn:Hrest;
    [destruct init; discriminate Hrest|].
  change (Py.join sep (x :: y :: rest)) with (x +:+ sep +:+ Py.join sep (y :: rest)).
  rewrite Heq, !string_app_assoc. reflexivity.
Qed.

Lemma endswith_nl_single_line s :
  single_line s -> s <> "" -> forall prefix, Py.endswith (prefix +:+ s) nl = false.
Proof.
  intros Hs Hne prefix. destruct (string_snoc s Hne) as (a & c & ->).
  rewrite <- string_app_assoc, endswith_app by reflexivity.
  unfold single_line in Hs. rewrite count_char_app in Hs. cbn [count_char] in Hs.
  assert (Hnonneg : forall t, 0 <= count_char (ascii_of_nat 10) t).
  { induction t as [|x t IH]; cbn [count_char]; [lia|].
    destruct (Ascii.eqb x (ascii_of_nat 10)); lia. }
  specialize (Hnonneg a).
  unfold nl. cbn [String.eqb].
  destruct (Ascii.eqb c (ascii_of_nat 10)) eqn:Hc; [lia|reflexivity].
Qed.

(** X22. The rows [create_csv_import_session] counts are the lines after
    the first, empty lines included, whether the text ends with a line
    feed or not (when it does not, the last line must not be empty, as it
    would be the line feed). An empty text and a text of one line without
    line feed count as -1 rows, one line with its line feed as 0. *)
Theorem csv_line_count_counts_lines header rows last_row :
  Forall single_line (header :: rows ++ [last_row]) ->
  let content := Py.join nl (header :: rows ++ [last_row]) in
  csv_line_count (content +:+ nl) = Z.of_nat (length rows) + 1 /\
  (last_row <> "" -> csv_line_count content = Z.of_nat (length rows) + 1) /\
  csv_line_count "" = -1 /\
  csv_line_count header = -1 /\
  csv_line_count (header +:+ nl) = 0.
Proof.
  intros Hall content.
  assert (Hcount : count_char (ascii_of_nat 10) content = Z.of_nat (length rows) + 1).
  { unfold content. rewrite count_char_join by (assumption || discriminate).
    cbn [length]. rewrite length_app. cbn [length]. lia. }
  assert (Hheader : single_line header) by (apply Forall_cons in Hall; tauto).
  split; [|split; [|split; [|split]]].
  - unfold csv_line_count. rewrite count_char_app, Hcount.
    change (count_char (ascii_of_nat 10) nl) with 1.
    rewrite (endswith_app content nl nl) by reflexivity.
    change (String.eqb nl nl) with true. rewrite andb_false_r. lia.
  - intros Hlast. unfold csv_line_count. rewrite Hcount.
    destruct (join_ends_with_last nl (header :: rows) last_row) as (prefix & Heq).
    change ((header :: rows) ++ [last_row])%list with (header :: rows ++ [last_row])%list in Heq.
    fold content in Heq. rewrite Heq.
    rewrite endswith_nl_single_line; [|apply Forall_cons in Hall as (_ & Hall); apply Forall_app in Hall as (_ & Hall); apply Forall_cons in Hall; tauto|exact Hlast].
    destruct (Z.gtb_spec (Z.of_nat (length rows) + 1) 0); cbn [andb negb]; lia.
  - reflexivity.
  - unfold csv_line_count. rewrite Hheader. reflexivity.
  - unfold csv_line_count. rewrite count_char_app, Hheader.
    change (count_char (ascii_of_nat 10) nl) with 1.
    rewrite (endswith_app header nl nl) by reflexivity. reflexivity.
Qed.

(** *** The extension, whatever its case *)

Lemma lower_app a b : Py.lower (a +:+ b) = Py.lower a +:+ Py.lower b.
Proof.
  induction a as [|x a IH]; [reflexivity|].
  change (String x a +:+ b) with (String x (a +:+ b)). cbn [Py.lower]. rewrite IH. reflexivity.
Qed.

Lemma to_lower_dot c : Py.to_lower c = "."%char -> c = "."%char.
Proof.
  destruct c as [[] [] [] [] [] [] [] []]; vm_compute; intros H;
    first [reflexivity | discriminate H].
Qed.

Lemma to_lower_letter c x :
  Py.to_lower c = x -> x <> "."%char -> Ascii.eqb c "."%char = false.
Proof.
  intros Hc Hx. apply Ascii.eqb_neq. intros ->. apply Hx. rewrite <- Hc. reflexivity.
Qed.

(** The spellings of [.csv]: a dot and three characters that are no dots. *)
Lemma csv_spelling ext :
  Py.lower ext = ".csv" ->
  exists c s v,
    ext = String "." (String c (String s (String v ""))) /\
    Ascii.eqb c "."%char = false /\ Ascii.eqb s "."%char = false /\
    Ascii.eqb v "."%char = false.
Proof.
  destruct ext as [|d [|c [|s [|v [|x rest]]]]]; cbn [Py.lower]; intros H;
    try discriminate H.
  injection H as Hd Hc Hs Hv.
  apply to_lower_dot in Hd as ->.
  exists c, s, v. split; [reflexivity|].
  split; [|split]; eapply to_lower_letter; try eassumption; discriminate.
Qed.

Lemma rsplit_dot_head_csv stem ext :
  Py.lower ext = ".csv" -> rsplit_dot_head (stem +:+ ext) = stem.
Proof.
  intros Hext. destruct (csv_spelling ext Hext) as (c & s & v & -> & Hc & Hs & Hv).
  unfold rsplit_dot_head. rewrite rev_app.
  change (Py.rev (String "." (String c (String s (String v "")))))
    with (String v (String s (String c (String "." "")))).
  change (String v (String s (String c (String "." ""))) +:+ Py.rev stem)
    with (String v (String s (String c (String "." (Py.rev stem))))).
  cbn [after_first_dot]. rewrite Hv, Hs, Hc. cbn. apply rev_rev.
Qed.

Lemma endswith_lower_csv stem ext :
  Py.lower ext = ".csv" -> Py.endswith (Py.lower (stem +:+ ext)) ".csv" = true.
Proof.
  intros Hext. rewrite lower_app, Hext. rewrite endswith_app by reflexivity. reflexivity.
Qed.

(** X23. The two upload views disagree on the spelling of the extension:
    an upload whose name ends in an upper- or mixed-case spelling of
    [.csv] is refused by [create_job] with the 400 of the extension check,
    and accepted by [create_csv_import_session] (here for a premium
    user), which stores a session with the name as uploaded and, when the
    form gives no project name, the name without the extension as project
    name. *)
Theorem upper_case_csv_goes_through_import C T request u w sessions f stem ext :
  HttpRequest.FILES request !! "file" = Some f ->
  UploadedFile.name f = stem +:+ ext ->
  Py.lower ext = ".csv" ->
  ext <> ".csv" ->
  User.is_premium (World.now w) u = true ->
  let st := Site.mk w sessions in
  create_job C request u w = (Ok bad_extension_response, w) /\
  create_csv_import_session C T request u st
    = (Ok (session_created_response (next_session_id sessions)), after_import C request u st f) /\
  Site.sessions (after_import C request u st f) !! next_session_id sessions
    = Some (created_session C request u st f) /\
  CSVImportSession.original_filename (created_session C request u st f) = stem +:+ ext /\
  (project_name_of request = "" ->
   CSVImportSession.project_name (created_session C request u st f) = stem) /\
  (project_name_of request <> "" ->
   CSVImportSession.project_name (created_session C request u st f) = project_name_of request).
Proof.
  intros Hfile Hname Hlower Hne Hpremium st.
  split.
  { apply create_job_bad_extension with (f := f); [exact Hfile|].
    rewrite Hname. apply (case_variant_rejected stem ".csv" ext); auto. }
  assert (Hext : Py.endswith (Py.lower (UploadedFile.name f)) ".csv" = true)
    by (rewrite Hname; apply endswith_lower_csv; exact Hlower).
  destruct (csv_import_checks_cases C T request u st f Hfile Hext) as (_ & _ & Hcreate & _).
  split.
  { apply Hcreate.
    - intros n (H & _). cbn in H. congruence.
    - intros e (H & _). cbn in H. congruence.
    - intros (H & _). cbn in H. congruence. }
  split; [apply lookup_insert_eq|].
  split; [exact Hname|].
  unfold created_session, import_project_name. cbn [CSVImportSession.project_name].
  split.
  - intros ->. cbn. rewrite Hname. apply rsplit_dot_head_csv. exact Hlower.
  - intros Hp. apply String.eqb_neq in Hp. rewrite Hp. reflexivity.
Qed.

Lemma csv_import_checks_rows_first_witness :
  HttpRequest.FILES Demo.request_big !! "file" = Some Demo.file_big /\
  project_limit_reached ImportFixtures.tight_user Demo.world_2 /\
  csv_rows_exceeded ImportFixtures.utf8 ImportFixtures.tight_user ImportFixtures.site
    Demo.file_big 5 /\
  create_csv_import_session (Demo.collaborators true) ImportFixtures.utf8 Demo.request_big
    ImportFixtures.tight_user ImportFixtures.site
  = (Ok (csv_row_limit_response 5 3), ImportFixtures.site) /\
  create_job (Demo.collaborators true) Demo.request_big ImportFixtures.tight_user Demo.world_2
  = (Ok (project_limit_response 1), Demo.world_2).
Proof.
  assert (Hfile : HttpRequest.FILES Demo.request_big !! "file" = Some Demo.file_big)
    by evaluate.
  assert (Hrows : csv_rows_exceeded ImportFixtures.utf8 ImportFixtures.tight_user
                    ImportFixtures.site Demo.file_big 5).
  { split; [evaluate|]. split; [reflexivity|]. split; [|reflexivity].
    eexists. split; [reflexivity|]. evaluate. }
  split; [exact Hfile|].
  split; [split; [evaluate|split; [reflexivity|evaluate]]|].
  split; [exact Hrows|].
  split; [|evaluate].
  destruct (csv_import_checks_rows_first (Demo.collaborators true) ImportFixtures.utf8
              Demo.request_big ImportFixtures.tight_user ImportFixtures.site Demo.file_big
              Hfile) as (Hfirst & _); [evaluate|].
  exact (Hfirst 5 Hrows).
Defined.

Lemma csv_line_count_counts_lines_witness :
  Forall single_line ("case,activity" :: ["1,a"; ""] ++ ["1,b"])%list /\
  csv_line_count (Py.join nl ["case,activity"; "1,a"; ""; "1,b"]) = 3.
Proof.
  assert (Hall : Forall single_line ("case,activity" :: ["1,a"; ""] ++ ["1,b"])%list)
    by (repeat constructor).
  split; [exact Hall|].
  destruct (csv_line_count_counts_lines "case,activity" ["1,a"; ""] "1,b" Hall)
    as (_ & Hcount & _).
  apply Hcount. discriminate.
Defined.

Lemma upper_case_csv_goes_through_import_witness :
  HttpRequest.FILES Demo.request_upper !! "file" = Some Demo.file_upper /\
  UploadedFile.name Demo.file_upper = "LOG" +:+ ".CSV" /\
  create_job (Demo.collaborators true) Demo.request_upper Demo.premium_user Demo.empty_world
    = (Ok bad_extension_response, Demo.empty_world) /\
  exists st',
    create_csv_import_session (Demo.collaborators true) ImportFixtures.utf8 Demo.request_upper
      Demo.premium_user (Site.mk Demo.empty_world ∅)
    = (Ok (session_created_response 1), st').
Proof.
  assert (Hfile : HttpRequest.FILES Demo.request_upper !! "file" = Some Demo.file_upper)
    by evaluate.
  split; [exact Hfile|]. split; [reflexivity|].
  destruct (upper_case_csv_goes_through_import (Demo.collaborators true) ImportFixtures.utf8
              Demo.request_upper Demo.premium_user Demo.empty_world ∅ Demo.file_upper
              "LOG" ".CSV" Hfile)
    as (Hjob & Himport & _); [reflexivity | reflexivity | discriminate | evaluate |].
  split; [exact Hjob|]. eexists. exact Himport.
Defined.

(** ** Processing an import *)

Lemma process_csv_import_imports C L body u session_id st session content
    column_mappings mining_method cleaning_enabled df rename_map exported cleaning method :
  open_session u st session_id session content ->
  import_body L body column_mappings mining_method cleaning_enabled ->
  required_columns_mapped column_mappings ->
  pd_parse_csv C content = Ok df ->
  rename_assignments column_mappings = Ok rename_map ->
  export_renamed L df rename_map = Ok exported ->
  boolean_field_value L cleaning_enabled = Ok cleaning ->
  char_field_value L mining_method = Ok method ->
  let job := imported_job u st session_id session cleaning method in
  process_csv_import C L body u session_id st =
  (Ok (import_done_reply (EventLogJob.id job) (imported_project_name session)),
   Site.mk
     (World.set_threads (World.threads (Site.world st) ++ [EventLogJob.id job])%list
        (World.set_files
           (delete (CSVImportSession.uploaded_file session)
              (<[imported_file_name u session_id session := exported]>
                 (World.files (Site.world st))))
           (write_row job (Site.world st))))
     (delete session_id (Site.sessions st))).
Proof.
  intros (Hsession & Hid & Hu & Hfile) (fields & Hjson & -> & -> & ->)
    (mfields & Hmappings & Hcase & Hactivity) Hparse Hrename Hexport Hflag Htext job.
  destruct st as [w sessions]. cbn [Site.world Site.sessions] in *.
  unfold process_csv_import, try_except.
  unfold bind at 1, sessions_get_owned at 1. cbn [Site.sessions].
  rewrite Hsession, Hu, Z.eqb_refl.
  rewrite (bind_of_result_ok _ _ _ _ Hjson).
  unfold py_get at 1 2 3.
  rewrite !(bind_of_result_ok _ _ _ _ eq_refl).
  rewrite Hmappings. unfold py_get at 1.
  rewrite (bind_of_result_ok _ _ _ _ eq_refl), Hcase. cbn [negb].
  unfold py_get at 1.
  rewrite (bind_of_result_ok _ _ _ _ eq_refl), Hactivity. cbn [negb].
  unfold bind at 1, in_site at 1, gets at 1. cbn [Site.world fst snd].
  rewrite Hfile.
  assert (Hread : pd_read_csv C content None = Ok df)
    by (unfold pd_read_csv; rewrite Hparse; reflexivity).
  rewrite (bind_of_result_ok _ _ _ _ Hread).
  rewrite Hmappings in Hrename.
  rewrite (bind_of_result_ok _ _ _ _ Hrename).
  rewrite (bind_of_result_ok _ _ _ _ Hexport).
  unfold bind at 1, in_site at 1, modify at 1. cbn [Site.world Site.sessions fst snd].
  unfold bind at 1, in_site at 1, objects_create_for_file.
  cbn [Site.world Site.sessions fst snd].
  rewrite (bind_of_result_ok _ _ _ _ Hflag), (bind_of_result_ok _ _ _ _ Htext).
  subst session_id. reflexivity.
Qed.

(** X24. [process_csv_import] does not consult the license. For a session
    of the caller whose file can be read, and a body that names the two
    required columns: it answers 200 and creates a pending job for the
    caller with the mining method of the body, whatever algorithms the
    caller may use, and with the project name of the session, whatever the
    number of the caller's projects is, so that a new project name takes
    the project count one up even at or beyond [max_projects]. The job
    gets a fresh id, one runner is started for it, and the session is
    gone. *)
Theorem csv_import_bypasses_license C L body u session_id st session content
    column_mappings mining_method cleaning_enabled df rename_map exported cleaning method :
  open_session u st session_id session content ->
  import_body L body column_mappings mining_method cleaning_enabled ->
  required_columns_mapped column_mappings ->
  pd_parse_csv C content = Ok df ->
  rename_assignments column_mappings = Ok rename_map ->
  export_renamed L df rename_map = Ok exported ->
  boolean_field_value L cleaning_enabled = Ok cleaning ->
  char_field_value L mining_method = Ok method ->
  exists job st',
    process_csv_import C L body u session_id st
      = (Ok (import_done_reply (EventLogJob.id job) (EventLogJob.project_name job)), st') /\
    World.jobs (Site.world st) !! EventLogJob.id job = None /\
    World.jobs (Site.world st') = <[EventLogJob.id job := job]> (World.jobs (Site.world st)) /\
    World.threads (Site.world st') = (World.threads (Site.world st) ++ [EventLogJob.id job])%list /\
    Site.sessions st' !! session_id = None /\
    EventLogJob.user job = User.id u /\
    EventLogJob.status job = Pending /\
    EventLogJob.mining_method job = method /\
    EventLogJob.project_name job = imported_project_name session /\
    (EventLogJob.project_name job <> "" ->
     EventLogJob.project_name job ∉ distinct_project_names (User.id u) (World.jobs (Site.world st)) ->
     project_count u (Site.world st') = project_count u (Site.world st) + 1).
Proof.
  intros Hsession Hbody Hcolumns Hparse Hrename Hexport Hflag Htext.
  pose proof (process_csv_import_imports C L body u session_id st session content
                column_mappings mining_method cleaning_enabled df rename_map exported
                cleaning method Hsession Hbody Hcolumns Hparse Hrename Hexport Hflag Htext)
    as Hrun.
  cbv zeta in Hrun.
  exists (imported_job u st session_id session cleaning method). eexists.
  split; [exact Hrun|].
  split; [apply next_id_fresh|].
  split; [reflexivity|]. split; [reflexivity|].
  split; [apply lookup_delete_eq|].
  split; [reflexivity|]. split; [reflexivity|]. split; [reflexivity|]. split; [reflexivity|].
  intros Hname Hnew. unfold project_count.
  cbn [Site.world World.jobs World.set_threads World.set_files write_row World.set_journal
       World.set_jobs].
  rewrite distinct_project_names_insert by apply next_id_fresh.
  rewrite decide_True by (split; [reflexivity|exact Hname]).
  rewrite size_union by (apply disjoint_singleton_l; exact Hnew).
  rewrite size_singleton. lia.
Qed.

Ltac import_answered session Hu :=
  eexists _, _; (split; [reflexivity|]); cbn [reply_status];
  split;
  [ intros H; first [ exfalso; apply H; reflexivity | cbn; repeat split ]
  | intros H; first [ discriminate H | exists session; split; [reflexivity|exact Hu] ] ].

Ltac import_step :=
  match goal with
  | |- context [match json_loads ?L ?b with _ => _ end] => destruct (json_loads L b) as [[]|]
  | |- context [match pd_read_csv ?C ?c ?n with _ => _ end] => destruct (pd_read_csv C c n)
  | |- context [match export_renamed ?L ?d ?r with _ => _ end] => destruct (export_renamed L d r)
  | |- context [match boolean_field_value ?L ?v with _ => _ end] =>
      destruct (boolean_field_value L v)
  | |- context [match char_field_value ?L ?v with _ => _ end] =>
      destruct (char_field_value L v)
  | |- context [isinstance ?e "DoesNotExist"] => destruct (isinstance e "DoesNotExist")
  | |- context [match default ?d (field ?k ?fs) with _ => _ end] =>
      destruct (default d (field k fs))
  | |- context [truthy ?v] => destruct (truthy v)
  | |- context [match ?m !! ?k with _ => _ end] => destruct (m !! k)
  | |- context [match rename_assignments ?m with _ => _ end] => destruct (rename_assignments m)
  end.

(** X25. [process_csv_import] answers a session id that is not there and
    one of another user alike, with the 404, and changes nothing. It always
    returns an answer. Unless the answer is the 200, no job is created or
    changed, no runner is started and the session is kept, so that the
    import can be tried again; and the 200 is only given for a session
    that belongs to the caller. *)
Theorem process_csv_import_fails_safely C L body u session_id st :
  ((Site.sessions st !! session_id = None \/
    exists session, Site.sessions st !! session_id = Some session /\
                    CSVImportSession.user session <> User.id u) ->
   process_csv_import C L body u session_id st = (Ok session_not_found_reply, st)) /\
  exists reply st',
    process_csv_import C L body u session_id st = (Ok reply, st') /\
    (reply_status reply <> 200 ->
     World.jobs (Site.world st') = World.jobs (Site.world st) /\
     World.threads (Site.world st') = World.threads (Site.world st) /\
     World.journal (Site.world st') = World.journal (Site.world st) /\
     Site.sessions st' = Site.sessions st) /\
    (reply_status reply = 200 ->
     exists session, Site.sessions st !! session_id = Some session /\
                     CSVImportSession.user session = User.id u).
Proof.
  split.
  { intros Hforeign. unfold process_csv_import, try_except.
    unfold bind at 1, sessions_get_owned at 1.
    destruct Hforeign as [Habsent|(session & Hsession & Hu)].
    - rewrite Habsent. reflexivity.
    - rewrite Hsession. apply Z.eqb_neq in Hu. rewrite Hu. reflexivity. }
  destruct st as [w sessions].
  unfold process_csv_import, try_except.
  unfold bind at 1, sessions_get_owned at 1. cbn [Site.sessions].
  destruct (sessions !! session_id) as [session|] eqn:Hsession;
    [|import_answered tt tt].
  destruct (Z.eqb_spec (CSVImportSession.user session) (User.id u)) as [Hu|Hu];
    [|import_answered session Hu].
  unfold objects_create_for_file, thread_start, print, on_console, echo, save.
  unfold bind, of_result, py_get, ret, raise, in_site, gets, modify.
  cbn [Site.world Site.sessions fst snd negb].
  repeat (import_step; cbn [Site.world Site.sessions fst snd negb]).
  all: import_answered session Hu.
Qed.

Lemma csv_import_bypasses_license_witness :
  User.can_use_algorithm (World.now (Site.world ProcessFixtures.site))
    ImportFixtures.tight_user "heuristics" = false /\
  project_limit_reached ImportFixtures.tight_user (Site.world ProcessFixtures.site) /\
  exists job st',
    process_csv_import (Demo.collaborators true) ProcessFixtures.libraries ProcessFixtures.body
      ImportFixtures.tight_user 1 ProcessFixtures.site
      = (Ok (import_done_reply (EventLogJob.id job) (EventLogJob.project_name job)), st') /\
    EventLogJob.mining_method job = "heuristics" /\
    EventLogJob.project_name job = "invoices" /\
    project_count ImportFixtures.tight_user (Site.world st') = 2 /\
    User.max_projects ImportFixtures.tight_user = 1.
Proof.
  split; [evaluate|].
  split; [split; [evaluate|split; [reflexivity|evaluate]]|].
  destruct (csv_import_bypasses_license (Demo.collaborators true) ProcessFixtures.libraries
              ProcessFixtures.body ImportFixtures.tight_user 1 ProcessFixtures.site
              ProcessFixtures.session (Demo.csv ["1,a"; "1,b"])
              (JObject [("caseId", JString "case"); ("activity", JString "activity")])
              (JString "heuristics") (JBool false) [["1,a"]; ["1,b"]]
              [(JString "case", "case:concept:name"); (JString "activity", "concept:name")]
              (Py.join nl ["case:concept:name,concept:name"; "1,a"; "1,b"]) false "heuristics")
    as (job & st' & Hrun & _ & _ & _ & _ & _ & _ & Hmethod & Hproject & Hcount).
  - repeat split; evaluate.
  - eexists. repeat split; evaluate.
  - eexists. repeat split; evaluate.
  - evaluate.
  - evaluate.
  - evaluate.
  - reflexivity.
  - reflexivity.
  - exists job, st'. split; [exact Hrun|]. split; [exact Hmethod|].
    assert (Hname : EventLogJob.project_name job = "invoices")
      by (rewrite Hproject; evaluate).
    split; [exact Hname|]. split; [|reflexivity].
    rewrite Hcount.
    + evaluate.
    + rewrite Hname. discriminate.
    + rewrite Hname. evaluate.
Defined.

(** ** From the upload to the run *)






(** ** The activation form *)

Lemma clean_license_code_runs license_code form d :
  clean_license_code license_code (form, d) =
  let code := upper (Py.strip license_code) in
  if match LicenseActivationForm.user form with
     | Some user => User.is_premium (Directory.now d) (Account.user user)
     | None => false
     end
  then (Raise (ValidationError already_premium_message), (form, d))
  else match Directory.codes d !! code with
       | Some c =>
           if LicenseCode.is_active c && negb (LicenseCode.is_used c)
           then (Ok code, (LicenseActivationForm.mk (LicenseActivationForm.user form) (Some c), d))
           else (Raise (ValidationError invalid_code_message), (form, d))
       | None => (Raise (ValidationError invalid_code_message), (form, d))
       end.
Proof.
  unfold clean_license_code. cbv zeta.
  unfold bind at 1, gets at 1. cbn [fst snd].
  unfold bind at 1, gets at 1. cbn [fst snd].
  destruct (match LicenseActivationForm.user form with
            | Some user => User.is_premium (Directory.now d) (Account.user user)
            | None => false
            end); [reflexivity|].
  unfold bind at 1, try_except, get_usable_code. cbn [fst snd].
  destruct (Directory.codes d !! upper (Py.strip license_code)) as [c|]; [|reflexivity].
  destruct (LicenseCode.is_active c && negb (LicenseCode.is_used c)); reflexivity.
Qed.

Lemma activate_runs K user code_obj d :
  activate K (LicenseActivationForm.mk (Some user) (Some code_obj), d) =
  match use_code K (code_obj, (user, d)) with
  | (r, (code_obj', (user', d'))) =>
      (match r with Ok _ => Ok true | Raise e => Raise e end,
       (LicenseActivationForm.mk (Some user') (Some code_obj'), d'))
  end.
Proof. reflexivity. Qed.

(** X28. The activation form spends a code. [clean_license_code] accepts
    the text of the field only for a user who is not premium now and only
    when its stripped, upper-cased form is a stored code that is active and
    unused; it changes nothing in the database. [activate] then returns
    [True], stores the user as premium and the code as used by that user,
    after which the same text is refused by the form for every user; when
    [activate] fails it is because the expiry date cannot be computed, and
    the database is as before. *)
Theorem activation_form_spends_code K user license_code d code form1 d1 :
  codes_keyed d ->
  clean_license_code license_code (LicenseActivationForm.mk (Some user) None, d)
    = (Ok code, (form1, d1)) ->
  d1 = d /\
  code = upper (Py.strip license_code) /\
  User.is_premium (Directory.now d) (Account.user user) = false /\
  exists code_obj,
    Directory.codes d !! code = Some code_obj /\
    LicenseCode.is_active code_obj = true /\
    LicenseCode.is_used code_obj = false /\
    form1 = LicenseActivationForm.mk (Some user) (Some code_obj) /\
    exists r form2 d2,
      activate K (form1, d1) = (r, (form2, d2)) /\
      match r with
      | Ok answer =>
          answer = true /\
          (exists user', Directory.accounts d2 !! User.id (Account.user user) = Some user' /\
                         User.license_type (Account.user user') = User.LICENSE_PREMIUM) /\
          (exists spent, Directory.codes d2 !! code = Some spent /\
                         LicenseCode.is_used spent = true /\
                         LicenseCode.used_by spent = Some (User.id (Account.user user))) /\
          forall form' text,
            upper (Py.strip text) = code ->
            exists message,
              clean_license_code text (form', d2)
              = (Raise (ValidationError message), (form', d2))
      | Raise e =>
          d2 = d /\
          exists days, LicenseCode.duration_days code_obj = Some days /\
                       add_days K (Directory.now d) days = Raise e
      end.
Proof.
  intros Hkeyed. rewrite clean_license_code_runs. cbv zeta.
  cbn [LicenseActivationForm.user].
  destruct (User.is_premium (Directory.now d) (Account.user user)) eqn:Hfree; [discriminate|].
  destruct (Directory.codes d !! upper (Py.strip license_code)) as [c|] eqn:Hcode;
    [|discriminate].
  destruct (LicenseCode.is_active c) eqn:Hactive; [|discriminate].
  destruct (LicenseCode.is_used c) eqn:Hused; [discriminate|]. cbn [andb negb].
  intros H. injection H as <- <- <-.
  split; [reflexivity|]. split; [reflexivity|]. split; [reflexivity|].
  exists c. split; [exact Hcode|]. split; [exact Hactive|]. split; [exact Hused|].
  split; [reflexivity|].
  pose proof (Hkeyed _ _ Hcode) as Hkey.
  rewrite activate_runs, use_code_runs, Hused, Hactive. cbn [negb].
  rewrite activate_premium_license_runs. cbv zeta.
  destruct (LicenseCode.duration_days c) as [days|] eqn:Hdays;
    [destruct (days =? 0) eqn:Hzero;
     [|destruct (add_days K (Directory.now d) days) as [expires|e] eqn:Hadd]|].
  3: { eexists _, _, _. split; [reflexivity|]. cbn -[upper].
       split; [reflexivity|]. exists days. split; reflexivity || assumption. }
  all: eexists _, _, _; (split; [reflexivity|]); cbn -[upper clean_license_code];
    (split; [reflexivity|]);
    (split; [eexists; split; [apply lookup_insert_eq|reflexivity]|]);
    (split; [eexists; rewrite Hkey; split; [apply lookup_insert_eq|split; reflexivity]|]);
    intros form' text Htext; rewrite clean_license_code_runs; cbv zeta;
    cbn [Directory.now Directory.codes Directory.set_codes Directory.set_accounts];
    rewrite Htext, Hkey, lookup_insert_eq;
    cbn [LicenseCode.is_used LicenseCode.is_active]; rewrite andb_false_r;
    match goal with
    | |- context [if ?b then _ else _] => destruct b
    end; eexists; reflexivity.
Qed.

Lemma activation_form_spends_code_witness :
  codes_keyed FormFixtures.directory /\
  clean_license_code "  premium-aaaa-bbbb " (FormFixtures.form, FormFixtures.directory)
    = (Ok "PREMIUM-AAAA-BBBB",
       (LicenseActivationForm.mk (Some LicenceFixtures.account) (Some LicenceFixtures.code_30),
        FormFixtures.directory)) /\
  exists form2 d2,
    activate LicenceFixtures.calendar
      (LicenseActivationForm.mk (Some LicenceFixtures.account) (Some LicenceFixtures.code_30),
       FormFixtures.directory) = (Ok true, (form2, d2)) /\
    exists message,
      clean_license_code "PREMIUM-AAAA-BBBB" (FormFixtures.form, d2)
      = (Raise (ValidationError message), (FormFixtures.form, d2)).
Proof.
  assert (Hkeyed : codes_keyed FormFixtures.directory).
  { intros k c H. unfold FormFixtures.directory in H. cbn [Directory.codes] in H.
    apply lookup_singleton_Some in H as [<- <-]. reflexivity. }
  assert (Hclean : clean_license_code "  premium-aaaa-bbbb "
                     (FormFixtures.form, FormFixtures.directory)
                   = (Ok "PREMIUM-AAAA-BBBB",
                      (LicenseActivationForm.mk (Some LicenceFixtures.account)
                         (Some LicenceFixtures.code_30), FormFixtures.directory)))
    by evaluate.
  split; [exact Hkeyed|]. split; [exact Hclean|].
  destruct (activation_form_spends_code LicenceFixtures.calendar _ _ _ _ _ _ Hkeyed Hclean)
    as (_ & _ & _ & code_obj & _ & _ & _ & _ & r & form2 & d2 & Hactivate & Hafter).
  destruct r as [answer|e].
  - destruct Hafter as (-> & _ & _ & Hspent).
    exists form2, d2. split; [exact Hactivate|].
    apply Hspent. evaluate.
  - exfalso. revert Hactivate. evaluate.
Defined.
